(** * aocd example extraction: a shallow embedding of [aocd/examples.py]
    and of its older sibling [aocd/example_parser.py].

    Python [str] values are modelled as [string] (characters read as
    Latin-1 code points, where the Unicode digit class of [\d] is exactly
    ['0'..'9']), Python [int] as [Z], [None]-able values as [option],
    dictionaries as [gmap], raised exceptions as the left summand of a sum.
    The HTML tree built by bs4 is a rose tree of tags and text nodes. *)

From Stdlib Require Import ZArith String Ascii List Lia.
From stdpp Require Import gmap strings list fin_maps.

Set Warnings "-register-all,-clear-no-such-hyp".
Local Open Scope string_scope.
Local Open Scope Z_scope.
Local Open Scope list_scope.

(** ** Exceptions *)

(** The exception classes that occur.  [SystemExit], [KeyboardInterrupt]
    and [GeneratorExit] derive from [BaseException] only; every other
    class derives from [Exception]. *)
Inductive exn :=
| ExampleParserError (msg : string)
| AttributeError (msg : string)
| TypeError (msg : string)
| KeyError (key : string)
| IndexError (msg : string)
| NameError (msg : string)
| OtherException (cls msg : string)
| SystemExit
| KeyboardInterrupt
| GeneratorExit.

(** [isinstance(e, Exception)]: what [except Exception] catches. *)
Definition is_Exception (e : exn) : bool :=
  match e with
  | SystemExit | KeyboardInterrupt | GeneratorExit => false
  | _ => true
  end.

Definition result (A : Type) : Type := exn + A.

(** ** Strings *)

Definition newline : ascii := ascii_of_nat 10.
Definition carriage_return : ascii := ascii_of_nat 13.
Definition nl : string := String newline "".

(** [c in chars] *)
Fixpoint char_in (c : ascii) (chars : string) : bool :=
  match chars with
  | "" => false
  | String d chars' => Ascii.eqb c d || char_in c chars'
  end.

(** [s.rstrip(chars)]: drop the longest suffix made of characters of
    [chars]. *)
Fixpoint rstrip (s chars : string) : string :=
  match s with
  | "" => ""
  | String c s' =>
      match rstrip s' chars with
      | "" => if char_in c chars then "" else String c ""
      | r => String c r
      end
  end.

(** [s.startswith(p)] *)
Fixpoint startswith (s p : string) : bool :=
  match p, s with
  | "", _ => true
  | String a p', String b s' => Ascii.eqb a b && startswith s' p'
  | String _ _, "" => false
  end.

(** [s.partition(sep)] for a one-character separator: the text before the
    first separator, the separator found (or [""]), and the rest. *)
Fixpoint partition (s : string) (sep : ascii) : string * string * string :=
  match s with
  | "" => ("", "", "")
  | String c s' =>
      if Ascii.eqb c sep then ("", String sep "", s')
      else let '(h, m, t) := partition s' sep in (String c h, m, t)
  end.

(** [sep.join(items)] on items that are already known to be strings. *)
Definition join (sep : string) (items : list string) : string :=
  String.concat sep items.

(** [\d] on Latin-1 text. *)
Definition is_digit (c : ascii) : bool :=
  ((48 <=? nat_of_ascii c) && (nat_of_ascii c <=? 57))%nat.

Definition digit_value (c : ascii) : Z := Z.of_nat (nat_of_ascii c) - 48.

(** [int(s)] on a string of decimal digits. *)
Fixpoint int_acc (acc : Z) (s : string) : Z :=
  match s with
  | "" => acc
  | String c s' => int_acc (10 * acc + digit_value c) s'
  end.

Definition int (s : string) : Z := int_acc 0 s.

(** Decimal rendering of an [int], as [f"{n}"] does. *)
Definition digit_char (d : Z) : ascii := ascii_of_nat (Z.to_nat d + 48).

Fixpoint digits_fuel (fuel : nat) (n : Z) (acc : string) : string :=
  match fuel with
  | O => acc
  | S fuel' =>
      let acc' := String (digit_char (n mod 10)) acc in
      if n <? 10 then acc' else digits_fuel fuel' (n / 10) acc'
  end.

Definition format_d (n : Z) : string :=
  if n <? 0 then "-" +:+ digits_fuel (S (Z.to_nat (Z.log2 (- n)))) (- n) ""
  else digits_fuel (S (Z.to_nat (Z.log2 n))) n "".

(** [f"{n:02d}"]: zero-padded to a total width of two, sign included. *)
Definition format_02d (n : Z) : string :=
  if (0 <=? n) && (n <? 10) then "0" +:+ format_d n else format_d n.

(** ** More of [str] *)

(** [len(s)] *)
Definition len (s : string) : Z := Z.of_nat (String.length s).

(** The first [n] characters of [s]. *)
Fixpoint take_chars (n : nat) (s : string) : string :=
  match n, s with
  | S n', String c s' => String c (take_chars n' s')
  | _, _ => ""
  end.

(** The slice [s[:stop]]: a negative [stop] counts from the end. *)
Definition slice_to (s : string) (stop : Z) : string :=
  if stop <? 0 then take_chars (Z.to_nat (len s + stop)) s
  else take_chars (Z.to_nat stop) s.

(** [s.lstrip(chars)] *)
Fixpoint lstrip (s chars : string) : string :=
  match s with
  | "" => ""
  | String c s' => if char_in c chars then lstrip s' chars else s
  end.

(** The characters that [str.strip()] removes, as far as Latin-1 has
    them: tab to carriage return, the four separators, the space, next
    line and the no-break space. *)
Definition WHITESPACE : string :=
  string_of_list_ascii
    (List.map ascii_of_nat
       [9; 10; 11; 12; 13; 28; 29; 30; 31; 32; 133; 160]%nat).

(** [s.strip()] *)
Definition strip (s : string) : string :=
  lstrip (rstrip s WHITESPACE) WHITESPACE.

(** [sub in s], for a substring [sub]. *)
Fixpoint contains (s sub : string) : bool :=
  startswith s sub ||
  match s with
  | "" => false
  | String _ s' => contains s' sub
  end.

(** Whether the last character of [s] is one of [chars]. *)
Fixpoint ends_in (s chars : string) : bool :=
  match s with
  | "" => false
  | String c "" => char_in c chars
  | String _ s' => ends_in s' chars
  end.

(** The title of the page of a puzzle. *)
Definition title_of (day year : Z) : string :=
  "Day " +:+ format_d day +:+ " - Advent of Code " +:+ format_d year.

(** ** The parsed document *)

(** What bs4 builds: text nodes and tags with their children in document
    order.  Attributes play no role in this module. *)
Inductive node :=
| NavigableString (s : string)
| Tag (name : string) (contents : list node).

(** [t.text]: all text below [t], concatenated in document order. *)
Fixpoint text (t : node) : string :=
  match t with
  | NavigableString s => s
  | Tag _ cs => String.concat "" (List.map text cs)
  end.

(** The tags named [name] at or below [n], in document order. *)
Fixpoint matching (name : string) (n : node) : list node :=
  match n with
  | NavigableString _ => []
  | Tag nm cs =>
      (if String.eqb nm name then [n] else []) ++
      List.flat_map (matching name) cs
  end.

(** [t.find_all(name)]: the descendants of [t] named [name]. *)
Definition find_all (t : node) (name : string) : list node :=
  match t with
  | NavigableString _ => []
  | Tag _ cs => List.flat_map (matching name) cs
  end.

(** [t.find(name)], which is also what the attribute access [soup.title]
    resolves to: the first such descendant, or [None]. *)
Definition find (t : node) (name : string) : option node :=
  head (find_all t name).

(** ** The title pattern *)

(** Remove a literal prefix. *)
Fixpoint literal (p s : string) : option string :=
  match p, s with
  | "", _ => Some s
  | String a p', String b s' => if Ascii.eqb a b then literal p' s' else None
  | String _ _, "" => None
  end.

(** Exactly [n] digits: the digits and the remaining text. *)
Fixpoint digits_exactly (n : nat) (s : string) : option (string * string) :=
  match n with
  | O => Some ("", s)
  | S n' =>
      match s with
      | String c s' =>
          if is_digit c then
            match digits_exactly n' s' with
            | Some (ds, r) => Some (String c ds, r)
            | None => None
            end
          else None
      | "" => None
      end
  end.

(** [$] without [re.MULTILINE]: at the end of the text, or just before a
    newline that ends the text. *)
Definition at_end (s : string) : bool :=
  match s with
  | "" => true
  | String c "" => Ascii.eqb c newline
  | _ => false
  end.

(** The part of the pattern after the day group:
    [ - Advent of Code (\d{4})$]. *)
Definition title_tail (s : string) : option string :=
  match literal " - Advent of Code " s with
  | Some r =>
      match digits_exactly 4 r with
      | Some (y, r') => if at_end r' then Some y else None
      | None => None
      end
  | None => None
  end.

(** [re.match(r"^Day (\d{1,2}) - Advent of Code (\d{4})$", s)], returning
    [match.groups()].  The greedy group [\d{1,2}] is tried with two digits
    first and with one digit on backtracking. *)
Definition match_title (s : string) : option (string * string) :=
  match literal "Day " s with
  | None => None
  | Some r =>
      let attempt (n : nat) :=
        match digits_exactly n r with
        | Some (d, r') =>
            match title_tail r' with
            | Some y => Some (d, y)
            | None => None
            end
        | None => None
        end in
      match attempt 2%nat with
      | Some g => Some g
      | None => attempt 1%nat
      end
  end.

(** ** Values handed around by the extraction *)

(** The Python values an expression can produce, as far as
    [extract_examples] tells them apart: [None], a [str], a [list] or a
    [tuple] of values, an [int], a bs4 tag (with the [codes] attribute that
    [Page.__getattr__] attaches to list items; a tag answers the unknown
    attribute [rstrip] with [find("rstrip")], taken to be [None] here),
    and [VOther] for an object of any other type, one that has no
    attribute [rstrip]. *)
Inductive pyval :=
| VNone
| VStr (s : string)
| VInt (n : Z)
| VList (items : list pyval)
| VTuple (items : list pyval)
| VTag (t : node) (codes : option (list string))
| VOther.

(** [Example], a [NamedTuple]; the last three fields default to [None]. *)
Record Example := mkExample {
  input_data : option string;
  answer_a : option string;
  answer_b : option string;
  extra : option string
}.

Global Instance Example_eq_dec : EqDecision Example.
Proof. solve_decision. Defined.

(** A locator: a JSON object whose values are expression strings or
    [null]. *)
Abbreviation Locator := (gmap string (option string)).

(** The content of [examples.json]: the entry [default_locators] and, under
    keys of the form ["YYYY/DD"], arrays of locators. *)
Record locators_data := mkLocators {
  default_locators : Locator;
  puzzles : gmap string (list Locator)
}.

(** [x is None] *)
Definition is_None {A : Type} (x : option A) : bool :=
  match x with
  | None => true
  | Some _ => false
  end.

(** [itertools.zip_longest(xs, ys, fillvalue=fillvalue)] *)
Fixpoint zip_longest {A : Type} (xs ys : list A) (fillvalue : A)
  : list (A * A) :=
  match xs, ys with
  | [], [] => []
  | x :: xs', [] => (x, fillvalue) :: zip_longest xs' [] fillvalue
  | [], y :: ys' => (fillvalue, y) :: List.map (pair fillvalue) ys'
  | x :: xs', y :: ys' => (x, y) :: zip_longest xs' ys' fillvalue
  end.

(** [enumerate(xs, start)] *)
Fixpoint enumerate {A : Type} (xs : list A) (start : Z) : list (Z * A) :=
  match xs with
  | [] => []
  | x :: xs' => (start, x) :: enumerate xs' (start + 1)
  end.

(** ** Evaluation with a record of the expressions evaluated *)

(** One call of the builtin [eval]: the field it was made for and the
    expression handed to it. *)
Record eval_call := mkCall {
  call_field : string;
  call_source : option string
}.

(** A computation that may raise, together with the calls of [eval] it
    made up to its end or to the point where it raised. *)
Definition M (A : Type) : Type := list eval_call * result A.

Global Instance M_ret : MRet M := fun A a => ([], inr a).

Global Instance M_bind : MBind M := fun A B f m =>
  match m with
  | (t, inl e) => (t, inl e)
  | (t, inr a) => let '(t', r) := f a in (t ++ t', r)
  end.

Definition lift {A : Type} (r : result A) : M A := ([], r).

Definition called (c : eval_call) : M unit := ([c], inr tt).

(** * [aocd/examples.py] *)

Module Examples.

(** [Page], a dataclass.  [cached] holds the attributes that
    [__getattr__] adds to the instance with [setattr]. *)
Record Page := mkPage {
  raw_html : string;
  soup : node;
  year : Z;
  day : Z;
  article_a : node;
  article_b : option node;
  a_raw : string;
  b_raw : option string;
  cached : gmap string pyval
}.

(** What a name of the evaluation scope is bound to. *)
Inductive binding :=
| BPage (p : Page)
| BVal (v : pyval).

Abbreviation Scope := (gmap string binding).

Section Program.

(** [aocd.utils._get_soup], the bs4 parse of the raw html. *)
Variable _get_soup : string -> node.
(** [str(tag)], the markup of a tag. *)
Variable str_tag : node -> string.
(** [repr] of a [str], as [{title_text!r}] renders it. *)
Variable repr : string -> string.
(** The builtin [eval] applied to an expression and the scope. *)
Variable py_eval : string -> Scope -> result pyval.
(** [_locators()], the cached content of [examples.json]. *)
Variable _locators : locators_data.

Definition from_raw (html : string) : result Page :=
  let soup := _get_soup html in
  match find soup "title" with
  | None => inl (AttributeError "'NoneType' object has no attribute 'text'")
  | Some title =>
      let title_text := text title in
      match match_title title_text with
      | None =>
          let msg := "failed to extract year/day from title " +:+ repr title_text in
          inl (ExampleParserError msg)
      | Some (d, y) =>
          let day := int d in
          let year := int y in
          let articles := find_all soup "article" in
          match articles with
          | [] => inl (ExampleParserError "no <article> found in html")
          | [article_a] =>
              inr (mkPage html soup year day article_a None
                     (str_tag article_a) None ∅)
          | [article_a; article_b] =>
              inr (mkPage html soup year day article_a (Some article_b)
                     (str_tag article_a) (Some (str_tag article_b)) ∅)
          | _ => inl (ExampleParserError "too many <article> found in html")
          end
      end
  end.

(** The page with other cached attributes and the same fields. *)
Definition with_cached (self : Page) (c : gmap string pyval) : Page :=
  mkPage (raw_html self) (soup self) (year self) (day self) (article_a self)
    (article_b self) (a_raw self) (b_raw self) c.

(** [setattr(self, name, v)] *)
Definition set_cached (self : Page) (name : string) (v : pyval) : Page :=
  with_cached self (<[name := v]> (cached self)).

(** [tag not in {"code", "li", "pre", "em"}] is the negation of this. *)
Definition whitelisted (tag : string) : bool :=
  bool_decide (tag ∈ ["code"; "li"; "pre"; "em"]).

(** [Page.__getattr__], called when the normal attribute lookup fails.
    Returns the outcome and the page as [setattr] left it.  The
    [log.debug] line is not modelled. *)
Definition __getattr__ (self : Page) (name : string) : result pyval * Page :=
  if negb (startswith name "a_" || startswith name "b_") then
    (inl (AttributeError name), self)
  else
    let '(part, sep, tag) := partition name "_" in
    if String.eqb part "b" && is_None (article_b self) then
      (inl (AttributeError name), self)
    else if negb (whitelisted tag) then
      (inl (AttributeError name), self)
    else
      let article :=
        if String.eqb part "a" then Some (article_a self) else article_b self in
      match article with
      | None =>
          (inl (AttributeError "'NoneType' object has no attribute 'find_all'"),
           self)
      | Some article =>
          let result :=
            if String.eqb tag "li" then
              VList (List.map
                       (fun li =>
                          VTag li (Some (List.map text (find_all li "code"))))
                       (find_all article "li"))
            else
              VList (List.map (fun t => VStr (text t)) (find_all article tag)) in
          (inr result, set_cached self name result)
      end.

Definition opt_str (o : option string) : pyval :=
  match o with
  | None => VNone
  | Some s => VStr s
  end.

(** [getattr(page, name)]: the attributes of the instance first (the
    dataclass fields and what was cached), [__getattr__] as the fallback.
    Attributes of the class (methods) are not modelled. *)
Definition getattr (self : Page) (name : string) : result pyval * Page :=
  match cached self !! name with
  | Some v => (inr v, self)
  | None =>
      if String.eqb name "raw_html" then (inr (VStr (raw_html self)), self)
      else if String.eqb name "soup" then (inr (VTag (soup self) None), self)
      else if String.eqb name "year" then (inr (VInt (year self)), self)
      else if String.eqb name "day" then (inr (VInt (day self)), self)
      else if String.eqb name "article_a" then
        (inr (VTag (article_a self) None), self)
      else if String.eqb name "article_b" then
        (inr (match article_b self with
              | Some b => VTag b None
              | None => VNone
              end), self)
      else if String.eqb name "a_raw" then (inr (VStr (a_raw self)), self)
      else if String.eqb name "b_raw" then (inr (opt_str (b_raw self)), self)
      else __getattr__ self name
  end.

(** The names bound by the two nested loops over [parts] and the four
    tag kinds, in the order of the loops. *)
Definition view_names (parts : list string) : list string :=
  part ← parts;
  tag ← ["code"; "pre"; "em"; "li"];
  [part +:+ "_" +:+ tag].

(** [scope[name] = getattr(page, name)] for each name. *)
Fixpoint bind_views (names : list string) (page : Page) (scope : Scope)
  : result (Page * Scope) :=
  match names with
  | [] => inr (page, scope)
  | name :: names' =>
      match getattr page name with
      | (inl e, _) => inl e
      | (inr v, page') => bind_views names' page' (<[name := BVal v]> scope)
      end
  end.

(** [CRLF] is the argument of [rstrip], a carriage return and a newline. *)
Definition CRLF : string := String carriage_return (String newline "").

(** The items of a sequence handed to [str.join]: each must be a [str]. *)
Fixpoint str_items (items : list pyval) : result (list string) :=
  match items with
  | [] => inr []
  | VStr s :: items' =>
      match str_items items' with
      | inr ss => inr (s :: ss)
      | inl e => inl e
      end
  | _ :: _ => inl (TypeError "sequence item: expected str instance")
  end.

(** What follows the [try] statement: a list or tuple is joined with
    newlines, then anything but [None] has [rstrip] called on it. *)
Definition finish (val : pyval) : result (option string) :=
  let joined :=
    match val with
    | VList items | VTuple items =>
        match str_items items with
        | inr ss => inr (VStr (join nl ss))
        | inl e => inl e
        end
    | _ => inr val
    end in
  match joined with
  | inl e => inl e
  | inr VNone => inr None
  | inr (VStr s) => inr (Some (rstrip s CRLF))
  | inr (VInt _) => inl (AttributeError "'int' object has no attribute 'rstrip'")
  | inr (VTag _ _) => inl (TypeError "'NoneType' object is not callable")
  | inr _ => inl (AttributeError "object has no attribute 'rstrip'")
  end.

(** The [try] statement: [eval(pos, scope)], with [None] in place of the
    value when an [Exception] is raised.  [eval] itself raises
    [TypeError] when [pos] is [None]. *)
Definition try_eval (pos : option string) (scope : Scope) : result pyval :=
  let outcome :=
    match pos with
    | None =>
        inl (TypeError "eval() arg 1 must be a string, bytes or code object")
    | Some src => py_eval src scope
    end in
  match outcome with
  | inl e => if is_Exception e then inr VNone else inl e
  | inr val => inr val
  end.

(** [loc.get(k, default[k])]; the argument [default[k]] is evaluated
    first and raises [KeyError] when the key is missing. *)
Definition loc_get (loc dflt : Locator) (k : string)
  : result (option string) :=
  match dflt !! k with
  | None => inl (KeyError k)
  | Some d => inr (default d (loc !! k))
  end.

Definition FIELDS : list string :=
  ["input_data"; "answer_a"; "answer_b"; "extra"].

(** The loop over the field names for one locator, from the names still
    to visit and the values appended so far. *)
Fixpoint eval_fields (page : Page) (part_b_locked : bool) (scope : Scope)
    (dflt loc : Locator) (ks : list string) (vals : list (option string))
  : M (list (option string)) :=
  match ks with
  | [] => mret vals
  | k :: ks' =>
      pos ← lift (loc_get loc dflt k);
      if String.eqb k "extra" && is_None pos then
        mret vals
      else if String.eqb k "answer_b" && (part_b_locked || (day page =? 25))
      then
        eval_fields page part_b_locked scope dflt loc ks' (vals ++ [None])
      else
        _ ← called (mkCall k pos);
        val ← lift (try_eval pos scope);
        val ← lift (finish val);
        eval_fields page part_b_locked scope dflt loc ks' (vals ++ [val])
  end.

(** [Example] applied to the unpacked [vals]. *)
Definition Example_of (vals : list (option string)) : result Example :=
  match vals with
  | [i] => inr (mkExample i None None None)
  | [i; a] => inr (mkExample i a None None)
  | [i; a; b] => inr (mkExample i a b None)
  | [i; a; b; e] => inr (mkExample i a b e)
  | _ => inl (TypeError "Example.__new__() got a wrong number of arguments")
  end.

(** The loop over the locators, from the locators still to visit and the
    examples appended so far. *)
Fixpoint scrape (page : Page) (part_b_locked : bool) (scope : Scope)
    (dflt : Locator) (locs : list Locator) (result : list Example)
  : M (list Example) :=
  match locs with
  | [] => mret result
  | loc :: locs' =>
      vals ← eval_fields page part_b_locked scope dflt loc FIELDS [];
      match vals with
      | [] => lift (inl (IndexError "list index out of range"))
      | None :: _ => scrape page part_b_locked scope dflt locs' result
      | Some _ :: _ =>
          ex ← lift (Example_of vals);
          scrape page part_b_locked scope dflt locs' (result ++ [ex])
      end
  end.

(** The key [f"{page.year}/{page.day:02d}"]. *)
Definition puzzle_key (page : Page) : string :=
  format_d (year page) +:+ "/" +:+ format_02d (day page).

(** The scope once the views are bound.  The entry ["page"] is the page
    object itself, so it shows the views cached while they were bound. *)
Definition build_scope (page : Page) (parts : list string)
  : result (Page * Scope) :=
  match bind_views (view_names parts) page ∅ with
  | inl e => inl e
  | inr (page', scope) => inr (page', <["page" := BPage page']> scope)
  end.

(** [parts = "a" if part_b_locked else "ab"] *)
Definition parts_of (part_b_locked : bool) : list string :=
  if part_b_locked then ["a"] else ["a"; "b"].

(** The locators [locs] the loop runs over. *)
Definition select_locators (page : Page) (use_default_locators : bool)
  : list Locator :=
  let locators := _locators in
  let key := puzzle_key page in
  let dflt := default_locators locators in
  if use_default_locators then [dflt]
  else default [dflt] (puzzles locators !! key).

Definition extract_examples (html : string) (use_default_locators : bool)
  : M (list Example) :=
  page ← lift (from_raw html);
  let part_b_locked := is_None (article_b page) in
  '(page, scope) ← lift (build_scope page (parts_of part_b_locked));
  scrape page part_b_locked scope (default_locators _locators)
    (select_locators page use_default_locators) [].

(** ** What the loops compute, entry by entry *)

(** Whether the field [answer_b] is passed over for this page. *)
Definition skips_answer_b (page : Page) (part_b_locked : bool) : bool :=
  part_b_locked || (day page =? 25).

(** The value appended for field [k] of a locator, taken on its own. *)
Definition field_value (page : Page) (part_b_locked : bool) (scope : Scope)
    (dflt loc : Locator) (k : string) : result (option string) :=
  match loc_get loc dflt k with
  | inl e => inl e
  | inr pos =>
      if String.eqb k "answer_b" && skips_answer_b page part_b_locked then
        inr None
      else
        match try_eval pos scope with
        | inl e => inl e
        | inr val => finish val
        end
  end.

(** A name is available on a page when it is a view of part a, or a view
    of part b and part b is there. *)
Definition available (page : Page) (name : string) : Prop :=
  name ∈ view_names ["a"] \/
  (name ∈ view_names ["b"] /\ is_Some (article_b page)).

(** The field of an example by its name. *)
Definition field_of (ex : Example) (k : string) : option string :=
  if String.eqb k "input_data" then input_data ex
  else if String.eqb k "answer_a" then answer_a ex
  else if String.eqb k "answer_b" then answer_b ex
  else if String.eqb k "extra" then extra ex
  else None.

(** A value is [None], a [str], or a list or tuple of [str]. *)
Definition str_like (v : pyval) : bool :=
  match v with
  | VNone | VStr _ => true
  | VList items | VTuple items =>
      forallb (fun x => match x with VStr _ => true | _ => false end) items
  | _ => false
  end.

(** An outcome of [eval] that the loop takes in without raising: an
    [Exception], or a value that is [str_like]. *)
Definition benign (outcome : result pyval) : bool :=
  match outcome with
  | inl e => is_Exception e
  | inr v => str_like v
  end.

(** Evaluating [pos] raises an [Exception]: [eval] rejects [None] with a
    [TypeError], and raises whatever the expression raises. *)
Definition raises (scope : Scope) (pos : option string) : Prop :=
  match pos with
  | None => True
  | Some src => exists e, py_eval src scope = inl e /\ is_Exception e = true
  end.

(** The expression of field [k] of an entry fails to evaluate. *)
Definition fails (scope : Scope) (dflt loc : Locator) (k : string) : Prop :=
  exists pos, loc_get loc dflt k = inr pos /\ raises scope pos.

(** [vals] holds the values of the fields of an entry: those of
    [input_data], [answer_a] and [answer_b], and the one of [extra] unless
    there is no expression for it. *)
Definition entry_values (page : Page) (part_b_locked : bool) (scope : Scope)
    (dflt loc : Locator) (vals : list (option string)) : Prop :=
  exists i a b,
    field_value page part_b_locked scope dflt loc "input_data" = inr i /\
    field_value page part_b_locked scope dflt loc "answer_a" = inr a /\
    field_value page part_b_locked scope dflt loc "answer_b" = inr b /\
    ((vals = [i; a; b] /\ loc_get loc dflt "extra" = inr None) \/
     (exists e, vals = [i; a; b; e] /\
        field_value page part_b_locked scope dflt loc "extra" = inr e)).

(** A recorded call of [eval] is not one for a passed-over [answer_b]. *)
Definition call_allowed (page : Page) (part_b_locked : bool) (c : eval_call)
  : Prop :=
  String.eqb (call_field c) "answer_b" && skips_answer_b page part_b_locked
  = false.

(** What an entry with values [vals] adds to the result. *)
Definition contribution (vals : list (option string)) : list Example :=
  match vals with
  | Some _ :: _ =>
      match Example_of vals with
      | inr ex => [ex]
      | inl _ => []
      end
  | _ => []
  end.

(** ** The scoring loop of [main] *)

(** [Puzzle(year, day)._get_prose()], the page of a puzzle. *)
Variable _get_prose : Z -> Z -> string.
(** [Puzzle(year, day).examples], the trusted examples of a puzzle. *)
Variable puzzle_examples : Z -> Z -> list Example.
(** The example parser loaded from the selected entry point. *)
Variable plugin : Page -> list Example -> list Example.

Inductive log_level := DEBUG | INFO | WARNING.

(** A record handed to the module's logger. *)
Record log_record := mkLog {
  level : log_level;
  message : string
}.

(** The four comparisons made for one row, with the row number and the
    pair compared.  The text of the table cells is not modelled. *)
Record verdict := mkVerdict {
  row_number : Z;
  scraped_of : Example;
  correct_of : Example;
  i2 : bool;
  i3 : bool;
  i4 : bool;
  i5 : bool
}.

(** [missing = Example("")] *)
Definition missing : Example := mkExample (Some "") None None None.

(** Truth value of an optional string: [None] and [""] are false. *)
Definition truthy (o : option string) : bool :=
  match o with
  | Some (String _ _) => true
  | _ => false
  end.

(** The body of the loop over the rows: the verdict of the row and what
    it appends to [wrong]. *)
Definition score_row (year day : Z) (part_b_locked : bool) (i : Z)
    (scraped correct : Example) : verdict * list (Z * Z * Z) :=
  let i2 := bool_decide (input_data scraped = input_data correct) in
  let i3 := bool_decide (answer_a scraped = answer_a correct) in
  let i4 :=
    if part_b_locked then is_None (answer_b scraped)
    else bool_decide (answer_b scraped = answer_b correct) in
  let i5 := bool_decide (extra scraped = extra correct) in
  let wrong2 := if negb i2 then [(year, day, i)] else [] in
  let wrong3 := if negb i3 then [(year, day, i)] else [] in
  let wrong4 :=
    if (day <? 25) || truthy (answer_b scraped) then
      if negb i4 then [(year, day, i)] else []
    else [] in
  (mkVerdict i scraped correct i2 i3 i4 i5, wrong2 ++ wrong3 ++ wrong4).

Definition length_message (year day : Z) (scrapeds corrects : list Example)
  : string :=
  format_d year +:+ "/" +:+ format_02d day +:+ " scraped "
  +:+ format_d (Z.of_nat (length scrapeds)) +:+ " but expected "
  +:+ format_d (Z.of_nat (length corrects)).

(** What one day of the loop [for day in range(1, 26)] does: the
    records logged, the verdicts of its rows and its additions to
    [wrong]. *)
Definition score_day (year day : Z)
  : result (list log_record * list verdict * list (Z * Z * Z)) :=
  let html := _get_prose year day in
  match from_raw html with
  | inl e => inl e
  | inr page =>
      let part_b_locked := is_None (article_b page) in
      let scrapeds := plugin page [] in
      let corrects := puzzle_examples year day in
      let logged :=
        if negb (length scrapeds =? length corrects)%nat then
          [mkLog INFO (length_message year day scrapeds corrects)]
        else [] in
      let rows := enumerate (zip_longest scrapeds corrects missing) 1 in
      let scored :=
        List.map
          (fun '(i, (scraped, correct)) =>
             score_row year day part_b_locked i scraped correct)
          rows in
      inr (logged, List.map fst scored, List.flat_map snd scored)
  end.

(** ** The rest of the module *)

(** What [__getattr__] computes for a tag kind of an article: the list
    items, each with the texts of its code tags, or the texts of the tags
    of that kind. *)
Definition view_of (article : node) (tag : string) : pyval :=
  if String.eqb tag "li" then
    VList (List.map
             (fun li => VTag li (Some (List.map text (find_all li "code"))))
             (find_all article "li"))
  else VList (List.map (fun t => VStr (text t)) (find_all article tag)).

(** The view that a name such as [a_code] stands for on a page. *)
Definition view_named (page : Page) (name : string) : pyval :=
  let '(part, _, tag) := partition name "_" in
  let article :=
    if String.eqb part "a" then Some (article_a page) else article_b page in
  match article with
  | Some article => view_of article tag
  | None => VNone
  end.

(** The four tag kinds, in the order of the loop that binds them. *)
Definition KINDS : list string := ["code"; "pre"; "em"; "li"].

(** The property [Example.answers]. *)
Definition answers (self : Example) : option string * option string :=
  (answer_a self, answer_b self).

(** [_trunc(s, maxlen)]; [maxlen] defaults to 50. *)
Definition _trunc (s : option string) (maxlen : Z) : option string :=
  match s with
  | None => None
  | Some s =>
      if len s <=? maxlen then Some s
      else
        Some (slice_to s maxlen +:+ " ... (" +:+ format_d (len s)
              +:+ " bytes)")
  end.

(** [score / total] on two ints: the quotient, given by its numerator
    and denominator, or [ZeroDivisionError]. *)
Definition true_div (a b : Z) : result (Z * Z) :=
  if b =? 0 then inl (OtherException "ZeroDivisionError" "division by zero")
  else inr (a, b).

(** The loop [for day in range(1, 26)] of one year, from the days still
    to visit and what was logged, put in the table and appended to
    [wrong] so far. *)
Fixpoint score_days (year : Z) (days : list Z)
    (logged : list log_record) (table : list verdict)
    (wrong : list (Z * Z * Z))
  : result (list log_record * list verdict * list (Z * Z * Z)) :=
  match days with
  | [] => inr (logged, table, wrong)
  | day :: days' =>
      match score_day year day with
      | inl e => inl e
      | inr (logged', rows, wrong') =>
          score_days year days' (logged ++ logged') (table ++ rows)
            (wrong ++ wrong')
      end
  end.

(** The body of the loop [for year in years]: [score] and [total] are
    set to 0, the days are scored, the table is printed, and the last
    line formats [score/total].  Printing is not modelled. *)
Definition score_year (year : Z) (wrong : list (Z * Z * Z))
  : result (list log_record * list verdict * list (Z * Z * Z)) :=
  let score := 0 in
  let total := 0 in
  match score_days year (seqZ 1 25) [] [] wrong with
  | inl e => inl e
  | inr (logged, table, wrong') =>
      match true_div score total with
      | inl e => inl e
      | inr _ => inr (logged, table, wrong')
      end
  end.

End Program.

End Examples.

(** * [aocd/example_parser.py], the older variant *)

Module ExampleParser.

(** [Page], here a [NamedTuple]. *)
Record Page := mkPage {
  year : Z;
  day : Z;
  raw_html : string;
  soup : node;
  a : node;
  a_raw : string;
  b : option node;
  b_raw : option string
}.

Section Program.

Variable _get_soup : string -> node.
Variable str_tag : node -> string.
Variable repr : string -> string.
(** The builtin [eval]; the scope holds the soup under ["soup"]. *)
Variable py_eval : string -> gmap string node -> result pyval.
Variable _locators : locators_data.

Definition from_raw (html : string) : result Page :=
  let soup := _get_soup html in
  match find soup "title" with
  | None => inl (AttributeError "'NoneType' object has no attribute 'text'")
  | Some title =>
      let title_text := text title in
      match match_title title_text with
      | None =>
          inl (ExampleParserError
                 ("failed to extract year/day from title " +:+ repr title_text))
      | Some (d, y) =>
          let day := int d in
          let year := int y in
          let articles := find_all soup "article" in
          match articles with
          | [] => inl (ExampleParserError "no <article> found in html")
          | [a] => inr (mkPage year day html soup a (str_tag a) None None)
          | [a; b] =>
              inr (mkPage year day html soup a (str_tag a) (Some b)
                     (Some (str_tag b)))
          | _ => inl (ExampleParserError "too many <article> found in html")
          end
      end
  end.

(** The property [ca]. *)
Definition ca (self : Page) : result (list string) :=
  inr (List.map text (find_all (a self) "code")).

(** The property [cb]. *)
Definition cb (self : Page) : result (list string) :=
  match b self with
  | None => inl (AttributeError "cb")
  | Some b => inr (List.map text (find_all b "code"))
  end.

Definition CRLF : string := String carriage_return (String newline "").

(** What follows the [try] statement here: [rstrip] on anything but
    [None], with no joining of sequences. *)
Definition finish (val : pyval) : result (option string) :=
  match val with
  | VNone => inr None
  | VStr s => inr (Some (rstrip s CRLF))
  | VInt _ => inl (AttributeError "'int' object has no attribute 'rstrip'")
  | VList _ => inl (AttributeError "'list' object has no attribute 'rstrip'")
  | VTuple _ =>
      inl (AttributeError "'tuple' object has no attribute 'rstrip'")
  | VTag _ _ => inl (TypeError "'NoneType' object is not callable")
  | VOther => inl (AttributeError "object has no attribute 'rstrip'")
  end.

Definition try_eval (pos : option string) (scope : gmap string node)
  : result pyval :=
  let outcome :=
    match pos with
    | None =>
        inl (TypeError "eval() arg 1 must be a string, bytes or code object")
    | Some src => py_eval src scope
    end in
  match outcome with
  | inl e => if is_Exception e then inr VNone else inl e
  | inr val => inr val
  end.

Definition loc_get (loc dflt : Locator) (k : string)
  : result (option string) :=
  match dflt !! k with
  | None => inl (KeyError k)
  | Some d => inr (default d (loc !! k))
  end.

Definition FIELDS : list string :=
  ["input_data"; "answer_a"; "answer_b"; "extra"].

Fixpoint eval_fields (page : Page) (part_b_locked : bool)
    (scope : gmap string node) (dflt loc : Locator) (ks : list string)
    (vals : list (option string)) : M (list (option string)) :=
  match ks with
  | [] => mret vals
  | k :: ks' =>
      pos ← lift (loc_get loc dflt k);
      if String.eqb k "extra" && is_None pos then
        mret vals
      else if String.eqb k "answer_b" && (part_b_locked || (day page =? 25))
      then
        eval_fields page part_b_locked scope dflt loc ks' (vals ++ [None])
      else
        _ ← called (mkCall k pos);
        val ← lift (try_eval pos scope);
        val ← lift (finish val);
        eval_fields page part_b_locked scope dflt loc ks' (vals ++ [val])
  end.

Definition Example_of (vals : list (option string)) : result Example :=
  match vals with
  | [i] => inr (mkExample i None None None)
  | [i; a] => inr (mkExample i a None None)
  | [i; a; b] => inr (mkExample i a b None)
  | [i; a; b; e] => inr (mkExample i a b e)
  | _ => inl (TypeError "Example.__new__() got a wrong number of arguments")
  end.

Fixpoint scrape (page : Page) (part_b_locked : bool)
    (scope : gmap string node) (dflt : Locator) (locs : list Locator)
    (result : list Example) : M (list Example) :=
  match locs with
  | [] => mret result
  | loc :: locs' =>
      vals ← eval_fields page part_b_locked scope dflt loc FIELDS [];
      match vals with
      | [] => lift (inl (IndexError "list index out of range"))
      | None :: _ => scrape page part_b_locked scope dflt locs' result
      | Some _ :: _ =>
          ex ← lift (Example_of vals);
          scrape page part_b_locked scope dflt locs' (result ++ [ex])
      end
  end.

Definition extract_examples (html : string) : M (list Example) :=
  page ← lift (from_raw html);
  let scope : gmap string node := {[ "soup" := soup page ]} in
  let part_b_locked := is_None (b page) in
  let locators := _locators in
  let key := format_d (year page) +:+ "/" +:+ format_02d (day page) in
  let dflt := default_locators locators in
  scrape page part_b_locked scope dflt
    (default [dflt] (puzzles locators !! key)) [].

(** ** The scoring loop run as a script *)

Variable _get_prose : Z -> Z -> string.
(** [Puzzle(year, day).examples], what was scraped for a puzzle. *)
Variable puzzle_examples : Z -> Z -> list Example.
(** [get_actual(year, day)], the examples read from the fixture files. *)
Variable get_actual : Z -> Z -> list Example.

Definition missing : Example := mkExample (Some "") None None None.

(** The comparisons of one row; the text of the cells is not modelled. *)
Definition score_row (part_b_locked : bool) (i : Z)
    (scraped correct : Example) : Examples.verdict :=
  let i2 := bool_decide (input_data scraped = input_data correct) in
  let i3 := bool_decide (answer_a scraped = answer_a correct) in
  let i4 :=
    if part_b_locked then is_None (answer_b scraped)
    else bool_decide (answer_b scraped = answer_b correct) in
  let i5 := bool_decide (extra scraped = extra correct) in
  Examples.mkVerdict i scraped correct i2 i3 i4 i5.

(** One day of the loop: the records logged and the verdicts of the rows.
    The warning is logged only when more was scraped than expected. *)
Definition score_day (year day : Z)
  : list Examples.log_record * list Examples.verdict :=
  let articles := find_all (_get_soup (_get_prose year day)) "article" in
  let part_b_locked := negb (length articles =? 2)%nat in
  let scrapeds := puzzle_examples year day in
  let corrects := get_actual year day in
  let logged :=
    if (length corrects <? length scrapeds)%nat then
      [Examples.mkLog Examples.WARNING
         (format_d year +:+ "/" +:+ format_02d day +:+ " scraped "
          +:+ format_d (Z.of_nat (length scrapeds)) +:+ " but expected "
          +:+ format_d (Z.of_nat (length corrects)))]
    else [] in
  let rows := enumerate (zip_longest scrapeds corrects missing) 1 in
  (logged,
   List.map (fun '(i, (scraped, correct)) =>
               score_row part_b_locked i scraped correct) rows).

End Program.

End ExampleParser.

(** * [get_actual] of [aocd/example_parser.py] *)

Module Fixtures.

(** A fixture file as the loop sees it: [p.name] and [list(f)], the lines
    with their line ends. *)
Record fixture := mkFixture {
  name : string;
  lines : list string
}.

Definition BLACKLIST : list string :=
  ["broken"; "jwolf"; "fizbin"; "_wim"; "_topaz"; "_reddit"; "_wim"].

(** [any(s in p.name for s in blacklist)] *)
Definition blacklisted (p : fixture) : bool :=
  existsb (contains (name p)) BLACKLIST.

(** [line.split("#")[0].strip()] *)
Definition answer_of (line : string) : string :=
  let '(before, _, _) := partition line "#" in strip before.

(** [None] for the placeholder ["-"]. *)
Definition placeholder (answer : string) : option string :=
  if String.eqb answer "-" then None else Some answer.

(** The body of the loop for one file that is not blacklisted:
    [lines[:-2]] joined and stripped of its line ends, then [lines[-2]]
    and [lines[-1]], which need two lines to be there. *)
Definition example_of_lines (lines : list string) : result Example :=
  let n := length lines in
  let input_data :=
    rstrip (String.concat "" (take (n - 2) lines)) ExampleParser.CRLF in
  if (n <? 2)%nat then inl (IndexError "list index out of range")
  else
    match lines !! (n - 2)%nat, lines !! (n - 1)%nat with
    | Some line_a, Some line_b =>
        inr (mkExample (Some input_data) (placeholder (answer_of line_a))
               (placeholder (answer_of line_b)) None)
    | _, _ => inl (IndexError "list index out of range")
    end.

(** The loop over the files, from the files still to visit and the
    examples appended so far. *)
Fixpoint read_examples (files : list fixture) (examples : list Example)
  : result (list Example) :=
  match files with
  | [] => inr examples
  | p :: files' =>
      if blacklisted p then read_examples files' examples
      else
        match example_of_lines (lines p) with
        | inl e => inl e
        | inr example => read_examples files' (examples ++ [example])
        end
  end.

(** A text made of whitespace only. *)
Fixpoint blank (w : string) : bool :=
  match w with
  | "" => true
  | String c w' => char_in c WHITESPACE && blank w'
  end.

(** An answer as [answer_of] returns it: no whitespace at either end and
    no ["#"]. *)
Definition clean (a : string) : Prop :=
  ends_in a WHITESPACE = false /\ lstrip a WHITESPACE = a /\
  char_in "#" a = false.

(** An answer line of a fixture: the answer, whitespace (the line end
    at least, in a file), and possibly a comment. *)
Definition answer_line (a w : string) (comment : option string) : string :=
  a +:+ w +:+
  match comment with
  | Some text => String "#" text
  | None => ""
  end.

Section Program.

(** [sorted(path.glob("*.txt"))] for the directory of a puzzle, each file
    with its lines. *)
Variable sorted_glob : Z -> Z -> list fixture.

Definition get_actual (year day : Z) : result (list Example) :=
  read_examples (sorted_glob year day) [].

End Program.

End Fixtures.

(** * Outcomes that the older loop takes in *)

(** An outcome of [eval] that the loop of [example_parser.py] takes in
    without raising: an [Exception], [None] or a [str]. *)
Definition plain (outcome : result pyval) : bool :=
  match outcome with
  | inl e => is_Exception e
  | inr VNone | inr (VStr _) => true
  | inr _ => false
  end.

(** * Tables written out *)

(** The table in which every entry of every puzzle spells out the fields
    it leaves to the default locator. *)
Definition with_inherited (table : locators_data) : locators_data :=
  mkLocators (default_locators table)
    ((fun locs : list Locator =>
        (fun loc : Locator => loc ∪ default_locators table) <$> locs)
       <$> puzzles table).

(** * The two variants side by side *)

(** The page of the older variant as a page of [examples.py], and its
    evaluator, which is always handed the one scope [{"soup": soup}]. *)
Definition page_of_older (q : ExampleParser.Page) : Examples.Page :=
  Examples.mkPage (ExampleParser.raw_html q) (ExampleParser.soup q)
    (ExampleParser.year q) (ExampleParser.day q) (ExampleParser.a q)
    (ExampleParser.b q) (ExampleParser.a_raw q) (ExampleParser.b_raw q) ∅.

Definition eval_of_older
    (py_eval : string -> gmap string node -> result pyval)
    (scope : gmap string node) : string -> Examples.Scope -> result pyval :=
  fun src _ => py_eval src scope.

(** * Concrete documents, tables and evaluators *)

Module Demo.

(** The tree of a page with the given title and articles. *)
Definition document (title : string) (articles : list node) : node :=
  Tag "[document]"
    [Tag "html"
       [Tag "head" [Tag "title" [NavigableString title]];
        Tag "body" [Tag "main" articles]]].

Definition markup (title body : string) : string :=
  "<html><head><title>" +:+ title +:+ "</title></head><body><main>"
  +:+ body +:+ "</main></body></html>".

(** Part one of a puzzle: a block of three lines and two code spans. *)
Definition part_one : node :=
  Tag "article"
    [Tag "pre" [Tag "code" [NavigableString ("1" +:+ nl +:+ "2" +:+ nl +:+ "3")]];
     Tag "p" [Tag "code" [NavigableString "x"]; Tag "code" [NavigableString "y"]]].

Definition part_one_markup : string :=
  "<article><pre><code>1" +:+ nl +:+ "2" +:+ nl +:+ "3</code></pre>"
  +:+ "<p><code>x</code><code>y</code></p></article>".

(** Part two: one code span and a list with one item. *)
Definition part_two : node :=
  Tag "article"
    [Tag "p" [Tag "code" [NavigableString "z"]];
     Tag "ul" [Tag "li" [NavigableString "item"]]].

Definition part_two_markup : string :=
  "<article><p><code>z</code></p><ul><li>item</li></ul></article>".

(** Year 2022 day 5 with part two locked, and day 25 with both parts. *)
Definition html_locked : string :=
  markup "Day 5 - Advent of Code 2022" part_one_markup.
Definition html_day25 : string :=
  markup "Day 25 - Advent of Code 2022" (part_one_markup +:+ part_two_markup).
Definition html_open : string :=
  markup "Day 5 - Advent of Code 2022" (part_one_markup +:+ part_two_markup).
(** A title the pattern accepts although no such puzzle exists. *)
Definition html_day99 : string :=
  markup "Day 99 - Advent of Code 1999" part_one_markup.
(** A title the pattern rejects, once with one article, once with none. *)
Definition html_untitled : string :=
  markup "Advent of Code" part_one_markup.
Definition html_untitled_empty : string :=
  markup "Advent of Code" "".
(** No title tag at all. *)
Definition html_no_title : string := part_one_markup.
Definition html_three : string :=
  markup "Day 5 - Advent of Code 2022"
    (part_one_markup +:+ part_two_markup +:+ part_two_markup).
Definition html_none : string :=
  markup "Day 5 - Advent of Code 2022" "".

(** The parse of the documents above; any other text is read as an empty
    document. *)
Definition get_soup (html : string) : node :=
  if String.eqb html html_locked then
    document "Day 5 - Advent of Code 2022" [part_one]
  else if String.eqb html html_day25 then
    document "Day 25 - Advent of Code 2022" [part_one; part_two]
  else if String.eqb html html_open then
    document "Day 5 - Advent of Code 2022" [part_one; part_two]
  else if String.eqb html html_day99 then
    document "Day 99 - Advent of Code 1999" [part_one]
  else if String.eqb html html_untitled then
    document "Advent of Code" [part_one]
  else if String.eqb html html_untitled_empty then
    document "Advent of Code" []
  else if String.eqb html html_no_title then
    Tag "[document]" [part_one]
  else if String.eqb html html_three then
    document "Day 5 - Advent of Code 2022" [part_one; part_two; part_two]
  else if String.eqb html html_none then
    document "Day 5 - Advent of Code 2022" []
  else Tag "[document]" [].

(** The markup of a tag without attributes whose text needs no escaping. *)
Fixpoint str_tag (t : node) : string :=
  match t with
  | NavigableString s => s
  | Tag name cs =>
      "<" +:+ name +:+ ">" +:+ String.concat "" (List.map str_tag cs)
      +:+ "</" +:+ name +:+ ">"
  end.

Definition repr (s : string) : string := "'" +:+ s +:+ "'".

(** What [eval] does on the few expressions used below. *)
Definition lookup_list (name : string) (scope : Examples.Scope)
  : result (list pyval) :=
  match scope !! name with
  | Some (Examples.BVal (VList items)) => inr items
  | Some _ => inl (TypeError "object is not subscriptable")
  | None => inl (NameError ("name '" +:+ name +:+ "' is not defined"))
  end.

Definition item (i : nat) (items : list pyval) : result pyval :=
  match items !! i with
  | Some v => inr v
  | None => inl (IndexError "list index out of range")
  end.

Definition with_list (name : string) (scope : Examples.Scope)
    (k : list pyval -> result pyval) : result pyval :=
  match lookup_list name scope with
  | inl e => inl e
  | inr items => k items
  end.

Definition py_eval (src : string) (scope : Examples.Scope) : result pyval :=
  if String.eqb src "a_pre[0]" then with_list "a_pre" scope (item 0)
  else if String.eqb src "a_code[-1]" then
    with_list "a_code" scope (fun items => item 0 (reverse items))
  else if String.eqb src "b_code[-1]" then
    with_list "b_code" scope (fun items => item 0 (reverse items))
  else if String.eqb src "a_code" then
    with_list "a_code" scope (fun items => inr (VList items))
  else if String.eqb src "a_li" then
    with_list "a_li" scope (fun items => inr (VList items))
  else if String.eqb src "b_li" then
    with_list "b_li" scope (fun items => inr (VList items))
  else if String.eqb src "len(a_code)" then
    with_list "a_code" scope
      (fun items => inr (VInt (Z.of_nat (length items))))
  else if String.eqb src "exit()" then inl SystemExit
  else inl (NameError ("name '" +:+ src +:+ "' is not defined")).

(** The default locator alone, as in the extraction scenario. *)
Definition default_locator : Locator :=
  {[ "input_data" := Some "a_pre[0]"; "answer_a" := Some "a_code[-1]";
     "answer_b" := Some "b_code[-1]"; "extra" := None ]}.

Definition table : locators_data := mkLocators default_locator ∅.

(** A table with two entries for 2022/05: the first asks for the joined
    code spans, the second for a name that is not bound. *)
Definition table_2022_05 : locators_data :=
  mkLocators default_locator
    {[ "2022/05" :=
         [ {[ "input_data" := Some "a_code" ]};
           {[ "input_data" := Some "nowhere" ]};
           ∅ ] ]}.

(** A table whose entry for 2022/05 asks for an [int]. *)
Definition table_int : locators_data :=
  mkLocators default_locator
    {[ "2022/05" := [ {[ "answer_a" := Some "len(a_code)" ]} ] ]}.

(** The page of [html_open] and the scope built for it. *)
Definition page_open : Examples.Page :=
  match Examples.from_raw get_soup str_tag repr html_open with
  | inr page => page
  | inl _ => Examples.mkPage "" (Tag "" []) 0 0 (Tag "" []) None "" None ∅
  end.

Definition scope_open : Examples.Scope :=
  match Examples.build_scope page_open ["a"; "b"] with
  | inr (_, scope) => scope
  | inl _ => ∅
  end.

(** An entry that asks for all the code spans of part a. *)
Definition loc_spans : Locator := {[ "input_data" := Some "a_code" ]}.

Definition spans : list string :=
  ["1" +:+ nl +:+ "2" +:+ nl +:+ "3"; "x"; "y"].

(** The scoring scenarios: the page with part b locked, one example
    scraped, two expected. *)
Definition prose (year day : Z) : string := html_locked.
Definition scraped_one : list Example :=
  [mkExample (Some "X") (Some "1") None None].
Definition expected_two : list Example :=
  [mkExample (Some "X") (Some "1") (Some "2") None;
   mkExample (Some "Y") (Some "3") (Some "4") None].
Definition plugin (page : Examples.Page) (examples : list Example)
  : list Example := scraped_one.
Definition puzzle_examples (year day : Z) : list Example := expected_two.

Definition score_day : Z -> Z ->
  result (list Examples.log_record * list Examples.verdict * list (Z * Z * Z))
  := Examples.score_day get_soup str_tag repr prose puzzle_examples plugin.

(** Fixture files of a puzzle: a good one, with a comment on the first
    answer and the placeholder for the second, a blacklisted one that is
    empty, and one that is too short. *)
Definition fixture_good : Fixtures.fixture :=
  Fixtures.mkFixture "0.txt"
    ["1" +:+ nl; "2" +:+ nl; "3" +:+ nl;
     "y  # part one" +:+ nl; "-" +:+ nl].
Definition fixture_broken : Fixtures.fixture :=
  Fixtures.mkFixture "1_broken.txt" [].
Definition fixture_short : Fixtures.fixture :=
  Fixtures.mkFixture "2.txt" ["y" +:+ nl].
Definition sorted_glob (year day : Z) : list Fixtures.fixture :=
  [fixture_good; fixture_broken].

(** What [eval] does in the older variant on two expressions over the
    soup. *)
Definition older_eval (src : string) (scope : gmap string node)
  : result pyval :=
  match scope !! "soup" with
  | None => inl (NameError "name 'soup' is not defined")
  | Some soup =>
      if String.eqb src "soup.pre.text" then
        match find soup "pre" with
        | Some t => inr (VStr (text t))
        | None =>
            inl (AttributeError "'NoneType' object has no attribute 'text'")
        end
      else if String.eqb src "soup.code.text" then
        match find soup "code" with
        | Some t => inr (VStr (text t))
        | None =>
            inl (AttributeError "'NoneType' object has no attribute 'text'")
        end
      else inl (NameError ("name '" +:+ src +:+ "' is not defined"))
  end.

Definition older_default : Locator :=
  {[ "input_data" := Some "soup.pre.text"; "answer_a" := Some "soup.code.text";
     "answer_b" := Some "soup.code.text"; "extra" := None ]}.

Definition older_page : ExampleParser.Page :=
  match ExampleParser.from_raw get_soup str_tag repr html_day25 with
  | inr q => q
  | inl _ =>
      ExampleParser.mkPage 0 0 "" (Tag "" []) (Tag "" []) "" None None
  end.

(** The texts of all code tags, asked of the soup. *)
Definition spans_expr : string := "[c.text for c in soup.find_all('code')]".

(** [older_eval] extended with that expression. *)
Definition older_eval_spans (src : string) (scope : gmap string node)
  : result pyval :=
  if String.eqb src spans_expr then
    match scope !! "soup" with
    | None => inl (NameError "name 'soup' is not defined")
    | Some soup =>
        inr (VList (List.map (fun t => VStr (text t)) (find_all soup "code")))
    end
  else older_eval src scope.

(** Tables whose default asks for all the code spans as input data, in
    the words of each file. *)
Definition older_table_spans : locators_data :=
  mkLocators (<["input_data" := Some spans_expr]> older_default) ∅.
Definition table_spans : locators_data :=
  mkLocators (<["input_data" := Some "a_code"]> default_locator) ∅.

(** A table with two entries for 2022/05: the first leaves everything to
    the default, written for [examples.py]; the second is written for
    [example_parser.py]. *)
Definition table_both : locators_data :=
  mkLocators default_locator {[ "2022/05" := [ ∅; older_default ] ]}.

(** The older page of [html_open]. *)
Definition older_page_open : ExampleParser.Page :=
  match ExampleParser.from_raw get_soup str_tag repr html_open with
  | inr q => q
  | inl _ =>
      ExampleParser.mkPage 0 0 "" (Tag "" []) (Tag "" []) "" None None
  end.

(** The page of [html_locked]. *)
Definition page_locked : Examples.Page :=
  match Examples.from_raw get_soup str_tag repr html_locked with
  | inr page => page
  | inl _ => Examples.mkPage "" (Tag "" []) 0 0 (Tag "" []) None "" None ∅
  end.

(** A default locator without the key [extra]. *)
Definition table_no_extra : locators_data :=
  mkLocators (delete "extra" default_locator) ∅.

(** A table whose default asks for [exit()] as input data. *)
Definition table_exit : locators_data :=
  mkLocators (<["input_data" := Some "exit()"]> default_locator) ∅.

(** A plugin that finds exactly what is expected. *)
Definition plugin_perfect (page : Examples.Page) (examples : list Example)
  : list Example := expected_two.

(** A text of sixty characters. *)
Definition sixty : string :=
  "012345678901234567890123456789012345678901234567890123456789".

Definition extract (t : locators_data) (html : string) (use_default : bool)
  : M (list Example) :=
  Examples.extract_examples get_soup str_tag repr py_eval t html use_default.

End Demo.

(** * Properties *)

(** ** The title pattern *)

Lemma is_digit_value c : is_digit c = true -> 0 <= digit_value c <= 9.
Proof.
  unfold is_digit, digit_value. intros H.
  apply andb_true_iff in H as [Hlo Hhi].
  apply Nat.leb_le in Hlo. apply Nat.leb_le in Hhi. lia.
Qed.

(** [n] digits read after [acc] give a number of [n] more digits. *)
Lemma int_acc_digits n : forall s ds r acc,
  digits_exactly n s = Some (ds, r) ->
  10 ^ Z.of_nat n * acc <= int_acc acc ds
    <= 10 ^ Z.of_nat n * acc + 10 ^ Z.of_nat n - 1.
Proof.
  induction n as [|n IH]; intros s ds r acc H.
  - injection H as <- <-. simpl. lia.
  - cbn [digits_exactly] in H. destruct s as [|c s']; [discriminate|].
    destruct (is_digit c) eqn:Hc; [|discriminate].
    destruct (digits_exactly n s') as [[ds' r']|] eqn:Hd; [|discriminate].
    injection H as <- <-. cbn [int_acc].
    specialize (IH _ _ _ (10 * acc + digit_value c) Hd).
    apply is_digit_value in Hc.
    rewrite Nat2Z.inj_succ, Z.pow_succ_r by lia.
    assert (0 < 10 ^ Z.of_nat n) by (apply Z.pow_pos_nonneg; lia).
    nia.
Qed.

Lemma int_digits n s ds r :
  digits_exactly n s = Some (ds, r) -> 0 <= int ds <= 10 ^ Z.of_nat n - 1.
Proof.
  intros H. unfold int. pose proof (int_acc_digits _ _ _ _ 0 H). lia.
Qed.

Lemma title_tail_year s y : title_tail s = Some y -> 0 <= int y <= 9999.
Proof.
  unfold title_tail. destruct (literal _ s) as [r|]; [|discriminate].
  destruct (digits_exactly 4 r) as [[y' r']|] eqn:Hd; [|discriminate].
  destruct (at_end r'); [|discriminate]. intros [= <-].
  apply int_digits in Hd. simpl in Hd. lia.
Qed.

(** The groups of a matching title: a day of at most two digits and a
    year of four. *)
Lemma match_title_groups s d y :
  match_title s = Some (d, y) -> (0 <= int d <= 99) /\ (0 <= int y <= 9999).
Proof.
  unfold match_title. destruct (literal "Day " s) as [r|]; [|discriminate].
  destruct (digits_exactly 2 r) as [[d2 r2]|] eqn:H2.
  - destruct (title_tail r2) as [y2|] eqn:Ht2.
    + intros [= <- <-]. apply int_digits in H2. apply title_tail_year in Ht2.
      simpl in H2. lia.
    + destruct (digits_exactly 1 r) as [[d1 r1]|] eqn:H1; [|discriminate].
      destruct (title_tail r1) as [y1|] eqn:Ht1; [|discriminate].
      intros [= <- <-]. apply int_digits in H1. apply title_tail_year in Ht1.
      simpl in H1. lia.
  - destruct (digits_exactly 1 r) as [[d1 r1]|] eqn:H1; [|discriminate].
    destruct (title_tail r1) as [y1|] eqn:Ht1; [|discriminate].
    intros [= <- <-]. apply int_digits in H1. apply title_tail_year in Ht1.
    simpl in H1. lia.
Qed.

(** ** [Page.from_raw] *)

Section FromRaw.

Context (_get_soup : string -> node) (str_tag : node -> string)
  (repr : string -> string).

Local Abbreviation from_raw := (Examples.from_raw _get_soup str_tag repr).

(** A page is built only from a title that is present and matches, with
    the day and the year read from its two groups, and with the articles
    found in the document. *)
Lemma from_raw_inv html page :
  from_raw html = inr page ->
  exists title d y,
    find (_get_soup html) "title" = Some title /\
    match_title (text title) = Some (d, y) /\
    Examples.day page = int d /\ Examples.year page = int y /\
    Examples.cached page = ∅ /\
    match Examples.article_b page with
    | None => find_all (_get_soup html) "article" = [Examples.article_a page]
    | Some b =>
        find_all (_get_soup html) "article" = [Examples.article_a page; b]
    end.
Proof.
  unfold Examples.from_raw.
  destruct (find (_get_soup html) "title") as [title|]; [|discriminate].
  destruct (match_title (text title)) as [[d y]|] eqn:Hm; [|discriminate].
  destruct (find_all (_get_soup html) "article") as [|a [|b [|c rest]]];
    try discriminate; intros [= <-]; exists title, d, y; simpl; auto 10.
Qed.

(** What the title pattern does ensure: every page that [from_raw]
    builds has a day between 0 and 99 and a year between 0 and 9999, the numbers of one or two and of
    four digits that the title pattern admits; and it is built only when
    the title is present and matches the pattern, so an absent or a
    mismatching title yields no page. *)
Theorem from_raw_year_day html page :
  from_raw html = inr page ->
  (0 <= Examples.year page <= 9999) /\ (0 <= Examples.day page <= 99) /\
  exists title d y,
    find (_get_soup html) "title" = Some title /\
    match_title (text title) = Some (d, y) /\
    Examples.day page = int d /\ Examples.year page = int y.
Proof.
  intros H. destruct (from_raw_inv _ _ H) as (t & d & y & Ht & Hm & Hd & Hy & _).
  destruct (match_title_groups _ _ _ Hm) as [Hdb Hyb].
  rewrite Hd, Hy. repeat split; try lia. eauto 10.
Qed.

(** A title that is present and does not match is reported as an
    [ExampleParserError]. *)
Lemma from_raw_title_mismatch html title :
  find (_get_soup html) "title" = Some title ->
  match_title (text title) = None ->
  from_raw html =
    inl (ExampleParserError
           ("failed to extract year/day from title " +:+ repr (text title))).
Proof. intros Ht Hm. unfold Examples.from_raw. now rewrite Ht, Hm. Qed.

(** Without a title tag the attribute access [soup.title.text] fails. *)
Lemma from_raw_no_title html :
  find (_get_soup html) "title" = None ->
  from_raw html =
    inl (AttributeError "'NoneType' object has no attribute 'text'").
Proof. intros Ht. unfold Examples.from_raw. now rewrite Ht. Qed.

(** C5, as amended: once the title has matched, the number of articles
    decides the outcome: none or more than two raise the corresponding
    [ExampleParserError], one gives a page without part b, two give a page
    with both parts, taken in document order. *)
Theorem from_raw_articles html title d y :
  find (_get_soup html) "title" = Some title ->
  match_title (text title) = Some (d, y) ->
  match find_all (_get_soup html) "article" with
  | [] => from_raw html = inl (ExampleParserError "no <article> found in html")
  | [a] =>
      exists page, from_raw html = inr page /\
        Examples.article_a page = a /\ Examples.article_b page = None /\
        Examples.b_raw page = None
  | [a; b] =>
      exists page, from_raw html = inr page /\
        Examples.article_a page = a /\ Examples.article_b page = Some b /\
        Examples.b_raw page = Some (str_tag b)
  | _ :: _ :: _ :: _ =>
      from_raw html = inl (ExampleParserError "too many <article> found in html")
  end.
Proof.
  intros Ht Hm. unfold Examples.from_raw. rewrite Ht, Hm.
  destruct (find_all (_get_soup html) "article") as [|a [|b [|c rest]]];
    try reflexivity; eexists; simpl; eauto.
Qed.


End FromRaw.

(** The bounds on a page of year 2022, day 5. *)
Lemma from_raw_year_day_witness :
  exists page,
    Examples.from_raw Demo.get_soup Demo.str_tag Demo.repr Demo.html_locked
      = inr page /\
    (0 <= Examples.year page <= 9999) /\ (0 <= Examples.day page <= 99).
Proof.
  eexists. split; [reflexivity|].
  pose proof (from_raw_year_day Demo.get_soup Demo.str_tag Demo.repr
                Demo.html_locked _ eq_refl) as (Hy & Hd & _).
  split; [exact Hy | exact Hd].
Defined.

(** The title "Day 99 - Advent of Code 1999" matches
    the pattern, and the page built from it has day 99 and year 1999. *)
Lemma from_raw_year_day_counterexample :
  exists page,
    Examples.from_raw Demo.get_soup Demo.str_tag Demo.repr Demo.html_day99
      = inr page /\
    Examples.day page = 99 /\ Examples.year page = 1999 /\
    ~ (Examples.year page >= 2015 /\ 1 <= Examples.day page <= 25).
Proof.
  eexists. split; [reflexivity|]. simpl.
  split; [reflexivity|]. split; [reflexivity|]. vm_compute. intros [H _].
  apply H. reflexivity.
Qed.

(** C5 on the page with one article and on the page with two. *)
Lemma from_raw_articles_witness :
  (exists page,
     Examples.from_raw Demo.get_soup Demo.str_tag Demo.repr Demo.html_locked
       = inr page /\
     Examples.article_a page = Demo.part_one /\
     Examples.article_b page = None /\ Examples.b_raw page = None).
Proof.
  exact (from_raw_articles Demo.get_soup Demo.str_tag Demo.repr
           Demo.html_locked
           (Tag "title" [NavigableString "Day 5 - Advent of Code 2022"])
           "5" "2022" eq_refl eq_refl).
Defined.

(** C5 as stated fails: a document with exactly one article and a title
    that does not match builds no page, and a document with no article and
    such a title raises the error of the title, not the one of the
    articles. *)
Lemma from_raw_articles_counterexample :
  (length (find_all (Demo.get_soup Demo.html_untitled) "article") = 1%nat /\
   Examples.from_raw Demo.get_soup Demo.str_tag Demo.repr Demo.html_untitled
     = inl (ExampleParserError
              "failed to extract year/day from title 'Advent of Code'")) /\
  (length (find_all (Demo.get_soup Demo.html_untitled_empty) "article") = 0%nat /\
   Examples.from_raw Demo.get_soup Demo.str_tag Demo.repr
     Demo.html_untitled_empty
     = inl (ExampleParserError
              "failed to extract year/day from title 'Advent of Code'")).
Proof. repeat split; reflexivity. Qed.

(** ** The loops of [extract_examples] *)

Lemma M_bind_unfold {A B : Type} (f : A -> M B) (m : M A) :
  (m ≫= f) =
  match m with
  | (t, inl e) => (t, inl e)
  | (t, inr a) => let '(t', r) := f a in (t ++ t', r)
  end.
Proof. reflexivity. Qed.

Lemma M_bind_lift {A B : Type} (f : A -> M B) (r : result A) :
  (lift r ≫= f) =
  match r with
  | inl e => ([], inl e)
  | inr a => f a
  end.
Proof.
  rewrite M_bind_unfold. unfold lift. destruct r as [e|a]; [reflexivity|].
  destruct (f a). reflexivity.
Qed.

(** The calls made by a computation come first in those of a sequence
    that starts with it. *)
Lemma M_bind_trace {A B : Type} (m : M A) (f : A -> M B) :
  exists t, fst (m ≫= f) = fst m ++ t.
Proof.
  rewrite M_bind_unfold. destruct m as [t [e|a]]; simpl.
  - exists []. now rewrite app_nil_r.
  - destruct (f a) as [t' r]. simpl. eauto.
Qed.

Lemma M_bind_called {B : Type} (f : unit -> M B) (c : eval_call) :
  (called c ≫= f) = let '(t, r) := f tt in (c :: t, r).
Proof. rewrite M_bind_unfold. unfold called. destruct (f tt). reflexivity. Qed.

Section Loops.

Context (py_eval : string -> Examples.Scope -> result pyval).
Context (page : Examples.Page) (part_b_locked : bool)
  (scope : Examples.Scope) (dflt : Locator).

Local Abbreviation eval_fields :=
  (Examples.eval_fields py_eval page part_b_locked scope dflt).
Local Abbreviation field_value :=
  (Examples.field_value py_eval page part_b_locked scope dflt).
Local Abbreviation scrape :=
  (Examples.scrape py_eval page part_b_locked scope dflt).
Local Abbreviation entry_values :=
  (Examples.entry_values py_eval page part_b_locked scope dflt).
Local Abbreviation fails := (Examples.fails py_eval scope dflt).

Local Abbreviation call_allowed :=
  (Examples.call_allowed page part_b_locked).

(** The loop over the fields appends, for each name it visits, the value
    of that field; it stops early only at [extra] without an expression;
    and [eval] is never called for a passed-over [answer_b]. *)
Lemma eval_fields_sound loc : forall ks vals t r,
  eval_fields loc ks vals = (t, r) ->
  Forall call_allowed t /\
  forall vals', r = inr vals' ->
    exists new, vals' = vals ++ new /\
      Forall2 (fun k v => field_value loc k = inr v)
        (take (length new) ks) new /\
      (length new = length ks \/
       (ks !! length new = Some "extra" /\
        Examples.loc_get loc dflt "extra" = inr None)).
Proof.
  induction ks as [|k ks IH]; intros vals t r H.
  - injection H as <- <-. split; [constructor|].
    intros vals' [= <-]. exists []. rewrite app_nil_r. simpl. auto.
  - cbn [Examples.eval_fields] in H. rewrite M_bind_lift in H.
    unfold Examples.field_value in *.
    destruct (Examples.loc_get loc dflt k) as [e|pos] eqn:Hpos.
    { injection H as <- <-. split; [constructor|]. discriminate. }
    destruct (String.eqb k "extra" && is_None pos) eqn:Hbreak.
    { injection H as <- <-. split; [constructor|].
      intros vals' [= <-]. exists []. rewrite app_nil_r.
      split; [reflexivity|]. split; [constructor|]. right.
      apply andb_true_iff in Hbreak as [Hk Hn]. apply String.eqb_eq in Hk.
      subst k. destruct pos; [discriminate|]. simpl. auto. }
    fold (Examples.skips_answer_b page part_b_locked) in H.
    destruct (String.eqb k "answer_b"
              && Examples.skips_answer_b page part_b_locked) eqn:Hskip.
    { destruct (IH _ _ _ H) as [Ht Hr]. split; [exact Ht|].
      intros vals' Hv. destruct (Hr _ Hv) as (new & -> & HF & Hlen).
      exists (None :: new). rewrite <- app_assoc. split; [reflexivity|].
      simpl. split.
      - constructor; [|exact HF]. now rewrite Hpos, Hskip.
      - destruct Hlen as [->|Hlen]; auto. }
    rewrite M_bind_called in H.
    destruct (_ ≫= _) as [t0 r0] eqn:Hrest in H. injection H as <- <-.
    rewrite M_bind_lift in Hrest.
    assert (Hc : call_allowed (mkCall k pos)) by exact Hskip.
    destruct (Examples.try_eval py_eval pos scope) as [e|val] eqn:Hval.
    { injection Hrest as <- <-. split; [repeat constructor; exact Hc|].
      discriminate. }
    rewrite M_bind_lift in Hrest.
    destruct (Examples.finish val) as [e|v] eqn:Hfin.
    { injection Hrest as <- <-. split; [repeat constructor; exact Hc|].
      discriminate. }
    destruct (IH _ _ _ Hrest) as [Ht Hr]. split; [constructor; assumption|].
    intros vals' Hv. destruct (Hr _ Hv) as (new & -> & HF & Hlen).
    exists (v :: new). rewrite <- app_assoc. split; [reflexivity|].
    simpl. split.
    + constructor; [|exact HF]. now rewrite Hpos, Hskip, Hval.
    + destruct Hlen as [->|Hlen]; auto.
Qed.

(** With the four field names, the values are those of [input_data],
    [answer_a] and [answer_b], followed by the one of [extra] unless
    neither the entry nor the default has an expression for it. *)
Lemma eval_fields_FIELDS loc t vals :
  eval_fields loc Examples.FIELDS [] = (t, inr vals) -> entry_values loc vals.
Proof.
  intros H. unfold Examples.entry_values.
  apply eval_fields_sound in H as [_ H].
  destruct (H _ eq_refl) as (new & -> & HF & Hlen). simpl.
  destruct Hlen as [Hlen|[Hlen Hx]].
  - destruct new as [|i [|a [|b [|e [|? ?]]]]]; try discriminate.
    simpl in HF. inversion HF as [|? ? ? ? Hi HF1]; subst.
    inversion HF1 as [|? ? ? ? Ha HF2]; subst.
    inversion HF2 as [|? ? ? ? Hb HF3]; subst.
    inversion HF3 as [|? ? ? ? He HF4]; subst.
    exists i, a, b. eauto 10.
  - destruct new as [|i [|a [|b [|e new]]]]; try discriminate.
    simpl in HF. inversion HF as [|? ? ? ? Hi HF1]; subst.
    inversion HF1 as [|? ? ? ? Ha HF2]; subst.
    inversion HF2 as [|? ? ? ? Hb HF3]; subst.
    exists i, a, b. eauto 10.
Qed.

(** The loop over the locators evaluates every entry and appends the
    contribution of each, in order. *)
Lemma scrape_sound : forall locs result t r,
  scrape locs result = (t, r) ->
  Forall call_allowed t /\
  forall res, r = inr res ->
    exists vss,
      Forall2 (fun loc vs => exists t', eval_fields loc Examples.FIELDS []
                                          = (t', inr vs)) locs vss /\
      res = result ++ flat_map Examples.contribution vss.
Proof.
  induction locs as [|loc locs IH]; intros result t r H.
  - injection H as <- <-. split; [constructor|].
    intros res [= <-]. exists []. simpl. rewrite app_nil_r. auto.
  - cbn [Examples.scrape] in H. rewrite M_bind_unfold in H.
    destruct (eval_fields loc Examples.FIELDS []) as [t1 [e|vals]] eqn:Hvals.
    { injection H as <- <-. apply eval_fields_sound in Hvals as [Ht _].
      split; [exact Ht|discriminate]. }
    pose proof (eval_fields_sound _ _ _ _ _ Hvals) as [Ht1 _].
    destruct vals as [|[i|] rest].
    + injection H as <- <-. rewrite app_nil_r. split; [exact Ht1|discriminate].
    + rewrite M_bind_lift in H.
      destruct (Examples.Example_of (Some i :: rest)) as [e|ex] eqn:Hex.
      { injection H as <- <-. rewrite app_nil_r.
        split; [exact Ht1|discriminate]. }
      destruct (Examples.scrape _ _ _ _ _ locs _) as [t2 r2] eqn:Hrec.
      injection H as <- <-. destruct (IH _ _ _ Hrec) as [Ht2 Hr2].
      split; [apply Forall_app; auto|].
      intros res Hres. destruct (Hr2 _ Hres) as (vss & HF & ->).
      exists ((Some i :: rest) :: vss). split; [constructor; eauto|].
      cbn [flat_map]. unfold Examples.contribution at 2. rewrite Hex.
      now rewrite <- app_assoc.
    + destruct (Examples.scrape _ _ _ _ _ locs _) as [t2 r2] eqn:Hrec.
      injection H as <- <-. destruct (IH _ _ _ Hrec) as [Ht2 Hr2].
      split; [apply Forall_app; auto|].
      intros res Hres. destruct (Hr2 _ Hres) as (vss & HF & ->).
      exists ((None :: rest) :: vss). split; [constructor; eauto|].
      reflexivity.
Qed.

(** A field whose expression fails to evaluate has the value [None]. *)
Lemma field_value_fails loc k : fails loc k -> field_value loc k = inr None.
Proof.
  intros (pos & Hpos & Hr). unfold Examples.field_value. rewrite Hpos.
  destruct (_ && _); [reflexivity|].
  unfold Examples.try_eval. destruct pos as [src|]; [|reflexivity].
  destruct Hr as (e & -> & ->). reflexivity.
Qed.

(** What an entry adds: one example carrying its values when the value of
    [input_data] is not [None], and nothing otherwise. *)
Lemma entry_contribution loc vals :
  entry_values loc vals ->
  exists i a b e,
    field_value loc "input_data" = inr i /\
    field_value loc "answer_a" = inr a /\
    field_value loc "answer_b" = inr b /\
    head vals = Some i /\
    Examples.contribution vals =
      match i with
      | Some _ => [mkExample i a b e]
      | None => []
      end.
Proof.
  intros (i & a & b & Hi & Ha & Hb & [[-> _]|(e & -> & _)]).
  - exists i, a, b, None. destruct i; auto 10.
  - exists i, a, b, e. destruct i; auto 10.
Qed.

Lemma str_items_ok items :
  forallb (fun x => match x with VStr _ => true | _ => false end) items = true ->
  exists ss, Examples.str_items items = inr ss /\ items = VStr <$> ss.
Proof.
  induction items as [|x items IH]; intros H.
  - exists []. auto.
  - simpl in H. apply andb_true_iff in H as [Hx H].
    destruct x; try discriminate. destruct (IH H) as (ss & Hss & ->).
    exists (s :: ss). split; [|reflexivity].
    cbn [Examples.str_items]. now rewrite Hss.
Qed.

Lemma str_items_strs ss : Examples.str_items (VStr <$> ss) = inr ss.
Proof.
  induction ss as [|s ss IH]; [reflexivity|].
  change (VStr <$> s :: ss) with (VStr s :: (VStr <$> ss)).
  cbn [Examples.str_items]. now rewrite IH.
Qed.

(** With a default that has the key and a benign outcome of [eval] on the
    expression of the field, the value of the field is defined. *)
Lemma field_value_benign loc k :
  is_Some (dflt !! k) ->
  (forall src, Examples.loc_get loc dflt k = inr (Some src) ->
     Examples.benign (py_eval src scope) = true) ->
  exists v, field_value loc k = inr v.
Proof.
  intros [d Hd] Hev. unfold Examples.field_value, Examples.loc_get in *.
  rewrite Hd in *. destruct (_ && _); [eauto|].
  unfold Examples.try_eval. destruct (default d (loc !! k)) as [src|].
  - specialize (Hev src eq_refl).
    destruct (py_eval src scope) as [e|v]; simpl in Hev.
    + rewrite Hev. simpl. eauto.
    + unfold Examples.finish. destruct v; try discriminate; eauto.
      * destruct (str_items_ok _ Hev) as (ss & -> & _). eauto.
      * destruct (str_items_ok _ Hev) as (ss & -> & _). eauto.
  - simpl. eauto.
Qed.

(** The loop over the fields returns whenever every field it visits has
    a value. *)
Lemma eval_fields_complete loc : forall ks vals,
  (forall k, k ∈ ks -> exists v, field_value loc k = inr v) ->
  exists t vals', eval_fields loc ks vals = (t, inr vals').
Proof.
  induction ks as [|k ks IH]; intros vals Hks.
  - simpl. eauto.
  - cbn [Examples.eval_fields]. rewrite M_bind_lift.
    destruct (Hks k) as [v Hv]; [left|].
    unfold Examples.field_value in Hv.
    destruct (Examples.loc_get loc dflt k) as [e|pos]; [discriminate|].
    destruct (String.eqb k "extra" && is_None pos); [simpl; eauto|].
    fold (Examples.skips_answer_b page part_b_locked).
    destruct (String.eqb k "answer_b"
              && Examples.skips_answer_b page part_b_locked).
    { apply IH. intros k' Hk'. apply Hks. now right. }
    rewrite M_bind_called, M_bind_lift.
    destruct (Examples.try_eval py_eval pos scope) as [e|val]; [discriminate|].
    rewrite M_bind_lift, Hv.
    destruct (IH (vals ++ [v])) as (t & vals' & ->).
    { intros k' Hk'. apply Hks. now right. }
    eauto.
Qed.

(** The loop over the locators returns whenever every field of every
    entry has a value. *)
Lemma scrape_complete : forall locs result,
  (forall loc k, loc ∈ locs -> k ∈ Examples.FIELDS ->
     exists v, field_value loc k = inr v) ->
  exists t res, scrape locs result = (t, inr res).
Proof.
  induction locs as [|loc locs IH]; intros result Hall.
  - simpl. eauto.
  - cbn [Examples.scrape]. rewrite M_bind_unfold.
    destruct (eval_fields_complete loc Examples.FIELDS [])
      as (t1 & vals & Hvals).
    { intros k Hk. apply Hall; [left|exact Hk]. }
    rewrite Hvals.
    assert (Hrest : forall result', exists t res,
               scrape locs result' = (t, inr res)).
    { intros result'. apply IH. intros loc' k Hl Hk. apply Hall; [now right|exact Hk]. }
    apply eval_fields_FIELDS in Hvals
      as (i & a & b & _ & _ & _ & [[-> _]|(e & -> & _)]);
      destruct i as [i|]; rewrite ?M_bind_lift; simpl Examples.Example_of; cbv iota;
      match goal with
      | |- context [Examples.scrape _ _ _ _ _ locs ?r] =>
          destruct (Hrest r) as (t2 & res & ->)
      end; eauto.
Qed.

(** In [examples.py]: when the expression of a field evaluates to a
    list or a tuple of strings, the value stored in that field of the example is the strings
    joined with newlines, with the trailing line terminators then
    stripped: the join comes first, the later steps work on its result. *)
Theorem sequence_joined_with_newlines loc k src ss t vals ex :
  k ∈ Examples.FIELDS ->
  Examples.loc_get loc dflt k = inr (Some src) ->
  py_eval src scope = inr (VList (VStr <$> ss)) \/
  py_eval src scope = inr (VTuple (VStr <$> ss)) ->
  (k = "answer_b" -> Examples.skips_answer_b page part_b_locked = false) ->
  eval_fields loc Examples.FIELDS [] = (t, inr vals) ->
  Examples.Example_of vals = inr ex ->
  Examples.field_of ex k = Some (rstrip (join nl ss) Examples.CRLF).
Proof.
  intros Hk Hpos Hev Hnb Hvals Hex.
  assert (Hfv : field_value loc k
                = inr (Some (rstrip (join nl ss) Examples.CRLF))).
  { unfold Examples.field_value. rewrite Hpos.
    destruct (String.eqb k "answer_b") eqn:Hkb.
    - apply String.eqb_eq in Hkb. rewrite (Hnb Hkb). cbn [andb].
      unfold Examples.try_eval.
      destruct Hev as [-> | ->]; cbv beta iota; unfold Examples.finish;
        now rewrite str_items_strs.
    - cbn [andb]. unfold Examples.try_eval.
      destruct Hev as [-> | ->]; cbv beta iota; unfold Examples.finish;
        now rewrite str_items_strs. }
  apply eval_fields_FIELDS in Hvals
    as (i & a & b & Hi & Ha & Hb & [[-> Hx]|(e & -> & He)]);
    injection Hex as <-;
    unfold Examples.FIELDS in Hk;
    repeat (apply elem_of_cons in Hk as [->|Hk]);
    try (apply elem_of_nil in Hk; contradiction);
    cbn; congruence.
Qed.

End Loops.

(** ** The views of a page *)

Section Views.

Import Examples.

Lemma with_cached_id page : with_cached page (cached page) = page.
Proof. destruct page. reflexivity. Qed.

Lemma view_names_a :
  view_names ["a"] = ["a_code"; "a_pre"; "a_em"; "a_li"].
Proof. reflexivity. Qed.

Lemma view_names_ab :
  view_names ["a"; "b"] =
  ["a_code"; "a_pre"; "a_em"; "a_li"; "b_code"; "b_pre"; "b_em"; "b_li"].
Proof. reflexivity. Qed.

(** An available view is computed (or found cached) without an error,
    and only the cache of the page changes, by at most that name. *)
Lemma getattr_view page name :
  available page name ->
  exists v c,
    getattr page name = (inr v, with_cached page c) /\
    (c = cached page \/ c = <[name := v]> (cached page)).
Proof.
  intros Hav. unfold getattr.
  destruct (cached page !! name) as [v|] eqn:Hc.
  { exists v, (cached page). rewrite with_cached_id. auto. }
  destruct Hav as [Ha|[Hb [b Hsome]]].
  - rewrite view_names_a in Ha.
    repeat (apply elem_of_cons in Ha as [->|Ha]);
      [| | | | apply elem_of_nil in Ha; contradiction];
      cbn; eexists _, _; (split; [reflexivity|right; reflexivity]).
  - change (view_names ["b"]) with ["b_code"; "b_pre"; "b_em"; "b_li"] in Hb.
    repeat (apply elem_of_cons in Hb as [->|Hb]);
      [| | | | apply elem_of_nil in Hb; contradiction];
      cbn; rewrite Hsome; cbn;
      eexists _, _; (split; [reflexivity|right; reflexivity]).
Qed.

Lemma bind_views_ok : forall names page scope,
  Forall (available page) names ->
  exists c scope',
    bind_views names page scope = inr (with_cached page c, scope') /\
    dom scope' = dom scope ∪ list_to_set names /\
    dom c ⊆ dom (cached page) ∪ list_to_set names.
Proof.
  induction names as [|name names IH]; intros page scope Hav.
  - exists (cached page), scope. rewrite with_cached_id. simpl.
    split; [reflexivity|]. split; set_solver.
  - apply Forall_cons in Hav as [Hname Hav]. cbn [bind_views].
    destruct (getattr_view _ _ Hname) as (v & c & -> & Hc).
    destruct (IH (with_cached page c) (<[name := BVal v]> scope))
      as (c' & scope' & Hb & Hdom & Hcache); [exact Hav|].
    exists c', scope'. split; [exact Hb|]. split.
    + rewrite Hdom, dom_insert_L. set_solver.
    + simpl in Hcache. destruct Hc as [->| ->]; [set_solver|].
      rewrite dom_insert_L in Hcache. set_solver.
Qed.

Lemma parts_available page :
  Forall (available page) (view_names (parts_of (is_None (article_b page)))).
Proof.
  apply Forall_forall. intros name Hin. unfold available.
  destruct (article_b page) as [b|]; cbn [is_None parts_of] in Hin.
  - change (view_names ["a"; "b"])
      with (view_names ["a"] ++ view_names ["b"]) in Hin.
    apply elem_of_app in Hin as [Hin|Hin]; eauto.
  - auto.
Qed.

(** Binding the views never fails.  The page comes back with the same
    fields; the scope holds the page and the views of the parts, and
    nothing else is computed or cached. *)
Lemma build_scope_ok page :
  let parts := parts_of (is_None (article_b page)) in
  exists c scope,
    build_scope page parts = inr (with_cached page c, scope) /\
    dom scope = {["page"]} ∪ list_to_set (view_names parts) /\
    dom c ⊆ dom (cached page) ∪ list_to_set (view_names parts).
Proof.
  intros parts. subst parts. unfold build_scope.
  destruct (bind_views_ok _ _ ∅ (parts_available page))
    as (c & scope & -> & Hdom & Hc).
  exists c, (<["page" := BPage (with_cached page c)]> scope).
  split; [reflexivity|]. split; [|exact Hc].
  rewrite dom_insert_L, Hdom, dom_empty_L. set_solver.
Qed.

End Views.

(** ** [extract_examples] as a whole *)

Section Extract.

Context (_get_soup : string -> node) (str_tag : node -> string)
  (repr : string -> string)
  (py_eval : string -> Examples.Scope -> result pyval).

Local Abbreviation from_raw := (Examples.from_raw _get_soup str_tag repr).
Local Abbreviation extract_examples :=
  (Examples.extract_examples _get_soup str_tag repr py_eval).

(** The steps of [extract_examples]: parse, bind the views, run the loop.
    Only the parse can stop it before the loop. *)
Lemma extract_examples_steps table html use_default :
  match from_raw html with
  | inl e => extract_examples table html use_default = ([], inl e)
  | inr page0 =>
      let locked := is_None (Examples.article_b page0) in
      exists c scope,
        let page := Examples.with_cached page0 c in
        Examples.build_scope page0 (Examples.parts_of locked)
          = inr (page, scope) /\
        extract_examples table html use_default =
          Examples.scrape py_eval page locked scope
            (default_locators table)
            (Examples.select_locators table page use_default) []
  end.
Proof.
  unfold Examples.extract_examples. rewrite M_bind_lift.
  destruct (from_raw html) as [e|page0]; [reflexivity|].
  destruct (build_scope_ok page0) as (c & scope & Hb & _).
  exists c, scope. split; [exact Hb|].
  rewrite M_bind_lift, Hb. reflexivity.
Qed.

Lemma with_cached_skips page0 c locked :
  Examples.skips_answer_b (Examples.with_cached page0 c) locked
  = Examples.skips_answer_b page0 locked.
Proof. reflexivity. Qed.

(** C1: on a page of day 25, or one whose part b is locked, [eval] is
    never called for the field [answer_b], whatever the locators say, and
    every example returned has [answer_b] absent. *)
Theorem extract_examples_answer_b_absent table html use_default page0 :
  from_raw html = inr page0 ->
  Examples.day page0 = 25 \/ Examples.article_b page0 = None ->
  Forall (fun c => call_field c <> "answer_b")
    (fst (extract_examples table html use_default)) /\
  forall res, snd (extract_examples table html use_default) = inr res ->
    Forall (fun ex => answer_b ex = None) res.
Proof.
  intros Hraw Hcase.
  pose proof (extract_examples_steps table html use_default) as Hsteps.
  rewrite Hraw in Hsteps. destruct Hsteps as (c & scope & _ & ->).
  set (locked := is_None (Examples.article_b page0)).
  set (page := Examples.with_cached page0 c).
  assert (Hskip : Examples.skips_answer_b page locked = true).
  { unfold page, locked. rewrite with_cached_skips.
    unfold Examples.skips_answer_b.
    destruct Hcase as [-> | ->]; [apply orb_true_r|reflexivity]. }
  destruct (Examples.scrape _ _ _ _ _ _ _) as [t r] eqn:Hs.
  apply scrape_sound in Hs as [Ht Hr]. simpl. split.
  - eapply Forall_impl; [exact Ht|]. intros call Hcall Heq.
    unfold Examples.call_allowed in Hcall. rewrite Hskip, Heq in Hcall.
    discriminate.
  - intros res Hres. destruct (Hr _ Hres) as (vss & HF & ->). simpl.
    clear Hr Hres. induction HF as [|loc vs locs vss (t' & Hvs) HF IH].
    + constructor.
    + cbn [flat_map]. apply Forall_app. split; [|exact IH].
      apply eval_fields_FIELDS, entry_contribution in Hvs
        as (i & a & b & e & _ & _ & Hb & _ & ->).
      unfold Examples.field_value in Hb.
      destruct (Examples.loc_get loc _ "answer_b"); [discriminate|].
      rewrite Hskip in Hb. injection Hb as <-.
      destruct i; repeat constructor.
Qed.

(** C3: when [extract_examples] returns, its result is made of the
    contributions of the selected entries, in their order: an entry
    contributes one example, carrying the value of its [input_data],
    when that value is not [None], and nothing otherwise; an entry whose
    [input_data] expression fails to evaluate has the value [None] and so
    contributes nothing; no example has an absent [input_data]. *)
Theorem extract_examples_contributions table html use_default t res :
  extract_examples table html use_default = (t, inr res) ->
  exists page0 c scope vss,
    let page := Examples.with_cached page0 c in
    let locked := is_None (Examples.article_b page0) in
    let dflt := default_locators table in
    from_raw html = inr page0 /\
    Examples.build_scope page0 (Examples.parts_of locked) = inr (page, scope) /\
    Forall2
      (fun loc vs => exists i,
         Examples.field_value py_eval page locked scope dflt loc "input_data"
           = inr i /\
         (Examples.fails py_eval scope dflt loc "input_data" -> i = None) /\
         match i with
         | Some s =>
             exists a b e,
               Examples.contribution vs = [mkExample (Some s) a b e]
         | None => Examples.contribution vs = []
         end)
      (Examples.select_locators table page use_default) vss /\
    res = flat_map Examples.contribution vss /\
    Forall (fun ex => input_data ex <> None) res.
Proof.
  intros H.
  pose proof (extract_examples_steps table html use_default) as Hsteps.
  destruct (from_raw html) as [e|page0] eqn:Hraw.
  { rewrite Hsteps in H. discriminate. }
  destruct Hsteps as (c & scope & Hb & Hs). rewrite Hs in H.
  apply scrape_sound in H as [_ Hr].
  destruct (Hr _ eq_refl) as (vss & HF & ->). simpl.
  exists page0, c, scope, vss. cbv zeta.
  split; [reflexivity|]. split; [exact Hb|].
  assert (Hent : Forall2
            (fun loc vs => exists i a b e,
               Examples.field_value py_eval (Examples.with_cached page0 c)
                 (is_None (Examples.article_b page0)) scope
                 (default_locators table) loc "input_data" = inr i /\
               Examples.contribution vs =
                 match i with Some _ => [mkExample i a b e] | None => [] end)
            (Examples.select_locators table (Examples.with_cached page0 c)
               use_default) vss).
  { eapply Forall2_impl; [exact HF|]. intros loc vs (t' & Hvs).
    apply eval_fields_FIELDS, entry_contribution in Hvs
      as (i & a & b & e & Hi & _ & _ & _ & Hc). eauto 10. }
  clear HF Hr. split; [|split; [reflexivity|]].
  - eapply Forall2_impl; [exact Hent|].
    intros loc vs (i & a & b & e & Hi & Hc). exists i.
    split; [exact Hi|]. split.
    + intros Hf.
      pose proof (field_value_fails py_eval (Examples.with_cached page0 c)
                    (is_None (Examples.article_b page0)) _ _ _ _ Hf).
      congruence.
    + destruct i; eauto.
  - clear Hs Hb.
    induction Hent as [|loc vs locs vss (i & a & b & e & _ & Hc) _ IH].
    + constructor.
    + cbn [flat_map]. apply Forall_app. split; [|exact IH].
      rewrite Hc. destruct i; repeat constructor. discriminate.
Qed.

(** In [examples.py]: once the page is parsed, an [Exception] raised while
    an expression is evaluated leaves [None] in its field and the loop goes
    on; and when the default locator has the four keys and every
    expression of the selected entries either raises an [Exception] or
    gives [None], a string, or a list or tuple of strings,
    [extract_examples] returns: every selected entry has all its fields
    evaluated and the result is made of their contributions. *)
Theorem extract_examples_absorbs table html use_default page0 :
  from_raw html = inr page0 ->
  (forall k, k ∈ Examples.FIELDS -> is_Some (default_locators table !! k)) ->
  (forall c scope loc k src,
     Examples.build_scope page0
       (Examples.parts_of (is_None (Examples.article_b page0)))
       = inr (Examples.with_cached page0 c, scope) ->
     loc ∈ Examples.select_locators table (Examples.with_cached page0 c)
             use_default ->
     k ∈ Examples.FIELDS ->
     Examples.loc_get loc (default_locators table) k = inr (Some src) ->
     Examples.benign (py_eval src scope) = true) ->
  exists t res c scope vss,
    let page := Examples.with_cached page0 c in
    let locked := is_None (Examples.article_b page0) in
    let dflt := default_locators table in
    Examples.build_scope page0 (Examples.parts_of locked) = inr (page, scope) /\
    extract_examples table html use_default = (t, inr res) /\
    Forall2 (Examples.entry_values py_eval page locked scope dflt)
      (Examples.select_locators table page use_default) vss /\
    res = flat_map Examples.contribution vss /\
    forall loc k,
      Examples.fails py_eval scope dflt loc k ->
      Examples.field_value py_eval page locked scope dflt loc k = inr None.
Proof.
  intros Hraw Hkeys Hev.
  pose proof (extract_examples_steps table html use_default) as Hsteps.
  rewrite Hraw in Hsteps. destruct Hsteps as (c & scope & Hb & Hs).
  destruct (scrape_complete py_eval (Examples.with_cached page0 c)
              (is_None (Examples.article_b page0)) scope
              (default_locators table)
              (Examples.select_locators table (Examples.with_cached page0 c)
                 use_default) [])
    as (t & res & Hscrape).
  { intros loc k Hloc Hk. apply field_value_benign; eauto. }
  pose proof (scrape_sound _ _ _ _ _ _ _ _ _ Hscrape) as [_ Hr].
  destruct (Hr _ eq_refl) as (vss & HF & Hres).
  exists t, res, c, scope, vss. cbv zeta.
  split; [exact Hb|]. split; [now rewrite Hs|]. split; [|split; [exact Hres|]].
  - eapply Forall2_impl; [exact HF|]. intros loc vs (t' & Hvs).
    eapply eval_fields_FIELDS, Hvs.
  - intros loc k. apply field_value_fails.
Qed.



(** C10: with [use_default_locators] the locators are the default one
    alone, and the outcome is the one obtained, without the flag, from a
    table with the same default and no entry for the puzzle of the page. *)
Theorem use_default_locators_only_default table table' html :
  default_locators table' = default_locators table ->
  (forall page0, from_raw html = inr page0 ->
     puzzles table' !! Examples.puzzle_key page0 = None) ->
  (forall page, Examples.select_locators table page true
                = [default_locators table]) /\
  extract_examples table html true = extract_examples table' html false.
Proof.
  intros Hd Hnone. split; [reflexivity|].
  pose proof (extract_examples_steps table html true) as H1.
  pose proof (extract_examples_steps table' html false) as H2.
  destruct (from_raw html) as [e|page0] eqn:Hraw; [congruence|].
  destruct H1 as (c1 & scope1 & Hb1 & ->).
  destruct H2 as (c2 & scope2 & Hb2 & ->).
  rewrite Hb1 in Hb2. injection Hb2 as Hc <-. rewrite <- Hc, Hd.
  unfold Examples.select_locators.
  change (Examples.puzzle_key (Examples.with_cached page0 c1))
    with (Examples.puzzle_key page0).
  now rewrite (Hnone _ eq_refl), Hd.
Qed.

End Extract.

(** On the entry that asks for the three code spans of part a: the
    input data is the spans on five lines. *)
Lemma sequence_joined_with_newlines_witness :
  Examples.field_of
    (mkExample
       (Some ("1" +:+ nl +:+ "2" +:+ nl +:+ "3" +:+ nl +:+ "x" +:+ nl +:+ "y"))
       (Some "y") (Some "z") None)
    "input_data"
  = Some (rstrip (join nl Demo.spans) Examples.CRLF).
Proof.
  refine (sequence_joined_with_newlines Demo.py_eval Demo.page_open false
            Demo.scope_open Demo.default_locator Demo.loc_spans
            "input_data" "a_code" Demo.spans _ _ _ _ _ _ _ _ _).
  - vm_compute. left.
  - vm_compute. reflexivity.
  - left. vm_compute. reflexivity.
  - discriminate.
  - vm_compute. reflexivity.
  - vm_compute. reflexivity.
Defined.

(** ** The scoring loop *)

Lemma zip_longest_nil_l {A : Type} (ys : list A) d :
  zip_longest [] ys d = List.map (pair d) ys.
Proof. destruct ys; reflexivity. Qed.

Lemma zip_longest_length {A : Type} (xs ys : list A) d :
  length (zip_longest xs ys d) = Nat.max (length xs) (length ys).
Proof.
  revert ys. induction xs as [|x xs IH]; intros ys.
  - rewrite zip_longest_nil_l, length_map. reflexivity.
  - destruct ys as [|y ys]; simpl; rewrite IH; simpl; lia.
Qed.

(** Position [n] of the alignment holds the [n]-th element of each list,
    or the fill value where a list has run out. *)
Lemma zip_longest_lookup {A : Type} (xs ys : list A) d : forall n p,
  zip_longest xs ys d !! n = Some p ->
  p = (default d (xs !! n), default d (ys !! n)).
Proof.
  revert ys. induction xs as [|x xs IH]; intros ys n p.
  - rewrite zip_longest_nil_l. change (List.map (pair d) ys) with (pair d <$> ys).
    rewrite list_lookup_fmap. destruct (ys !! n); intros [= <-]; reflexivity.
  - destruct ys as [|y ys]; destruct n as [|n]; simpl.
    + intros [= <-]. reflexivity.
    + intros H. rewrite (IH _ _ _ H). now rewrite lookup_nil.
    + intros [= <-]. reflexivity.
    + apply IH.
Qed.

Lemma enumerate_lookup {A : Type} (xs : list A) : forall start n p,
  enumerate xs start !! n = Some p ->
  exists x, xs !! n = Some x /\ p = (start + Z.of_nat n, x).
Proof.
  induction xs as [|x xs IH]; intros start n p; [discriminate|].
  destruct n as [|n]; simpl.
  - intros [= <-]. exists x. split; [reflexivity|]. f_equal. lia.
  - intros H. destruct (IH _ _ _ H) as (x' & Hx & ->). exists x'.
    split; [exact Hx|]. f_equal. lia.
Qed.

Lemma enumerate_length {A : Type} (xs : list A) : forall start,
  length (enumerate xs start) = length xs.
Proof. induction xs as [|x xs IH]; intros start; simpl; [|rewrite IH]; reflexivity. Qed.

Lemma enumerate_snd {A : Type} (xs : list A) : forall start,
  List.map snd (enumerate xs start) = xs.
Proof. induction xs as [|x xs IH]; intros start; simpl; [|rewrite IH]; reflexivity. Qed.

Section Scoring.

Context (_get_soup : string -> node) (str_tag : node -> string)
  (repr : string -> string) (_get_prose : Z -> Z -> string)
  (puzzle_examples : Z -> Z -> list Example)
  (plugin : Examples.Page -> list Example -> list Example).

Local Abbreviation from_raw := (Examples.from_raw _get_soup str_tag repr).
Local Abbreviation score_day :=
  (Examples.score_day _get_soup str_tag repr _get_prose puzzle_examples plugin).

(** C4: in the rows scored for a day, which pair up the scraped and the
    expected examples in order, the mark for answer b is, when part b is
    locked, whether the scraped [answer_b] is [None], whatever the expected
    one is, and otherwise whether the two values of [answer_b] are equal. *)
Theorem score_day_answer_b_match year day page :
  from_raw (_get_prose year day) = inr page ->
  exists logged rows wrong,
    score_day year day = inr (logged, rows, wrong) /\
    List.map (fun v => (Examples.scraped_of v, Examples.correct_of v)) rows
      = zip_longest (plugin page []) (puzzle_examples year day)
          Examples.missing /\
    Forall
      (fun v =>
         Examples.i4 v =
           if is_None (Examples.article_b page)
           then is_None (answer_b (Examples.scraped_of v))
           else bool_decide (answer_b (Examples.scraped_of v)
                             = answer_b (Examples.correct_of v)))
      rows.
Proof.
  intros Hraw. unfold Examples.score_day. rewrite Hraw.
  eexists _, _, _. split; [reflexivity|].
  set (pairs := zip_longest _ _ _).
  rewrite <- (enumerate_snd pairs 1) at 2.
  generalize (enumerate pairs 1). intros rows. split.
  - induction rows as [|[i [s c]] rows IH]; simpl; [|rewrite IH]; reflexivity.
  - induction rows as [|[i [s c]] rows IH]; constructor; [|exact IH].
    simpl. destruct (is_None (Examples.article_b page)); reflexivity.
Qed.

(** In [examples.py]: scoring a day does not raise once the page is
    parsed.  When the numbers of scraped and of expected examples differ, one record is
    logged, at level [INFO] (none when they agree); there is a row for
    every position of the longer list, numbered from 1; and a row holds
    the examples at its position, with the sentinel [Example("")], whose
    other fields are [None], in place of an example that is missing. *)
Theorem score_day_length_mismatch year day page :
  from_raw (_get_prose year day) = inr page ->
  let scrapeds := plugin page [] in
  let corrects := puzzle_examples year day in
  exists logged rows wrong,
    score_day year day = inr (logged, rows, wrong) /\
    logged =
      (if decide (length scrapeds = length corrects) then []
       else [Examples.mkLog Examples.INFO
               (Examples.length_message year day scrapeds corrects)]) /\
    length rows = Nat.max (length scrapeds) (length corrects) /\
    Examples.missing = mkExample (Some "") None None None /\
    forall n v, rows !! n = Some v ->
      Examples.row_number v = 1 + Z.of_nat n /\
      Examples.scraped_of v = default Examples.missing (scrapeds !! n) /\
      Examples.correct_of v = default Examples.missing (corrects !! n).
Proof.
  intros Hraw scrapeds corrects. unfold Examples.score_day. rewrite Hraw.
  fold scrapeds corrects. eexists _, _, _. split; [reflexivity|].
  split; [|split].
  - destruct (decide (length scrapeds = length corrects)) as [Heq|Hne].
    + apply Nat.eqb_eq in Heq. now rewrite Heq.
    + apply Nat.eqb_neq in Hne. now rewrite Hne.
  - rewrite !length_map, enumerate_length. apply zip_longest_length.
  - split; [reflexivity|]. intros n v Hv.
    change (List.map fst ?l) with (fst <$> l) in Hv.
    change (List.map ?f ?l) with (f <$> l) in Hv.
    rewrite !list_lookup_fmap in Hv.
    destruct (enumerate _ 1 !! n) as [[i [s c]]|] eqn:Hrow; [|discriminate].
    injection Hv as <-.
    apply enumerate_lookup in Hrow as ([s' c'] & Hpair & [= -> -> ->]).
    apply zip_longest_lookup in Hpair as [= -> ->]. auto.
Qed.

End Scoring.

(** ** The claims on concrete pages *)

(** C1 on the page of day 25 with both parts: the default locator has an
    expression for [answer_b] that would evaluate to ["z"] (as it does on
    the same page of day 5), and yet no call is made for it. *)
Lemma extract_examples_answer_b_absent_witness :
  Forall (fun c => call_field c <> "answer_b")
    (fst (Demo.extract Demo.table Demo.html_day25 false)) /\
  forall res, snd (Demo.extract Demo.table Demo.html_day25 false) = inr res ->
    Forall (fun ex => answer_b ex = None) res.
Proof.
  eapply (extract_examples_answer_b_absent Demo.get_soup Demo.str_tag
            Demo.repr Demo.py_eval Demo.table Demo.html_day25 false).
  - reflexivity.
  - left. reflexivity.
Defined.

Lemma extract_day25 :
  Demo.extract Demo.table Demo.html_day25 false =
  ([mkCall "input_data" (Some "a_pre[0]"); mkCall "answer_a" (Some "a_code[-1]")],
   inr [mkExample (Some ("1" +:+ nl +:+ "2" +:+ nl +:+ "3")) (Some "y")
          None None]).
Proof. vm_compute. reflexivity. Qed.

Lemma extract_day5_open :
  snd (Demo.extract Demo.table Demo.html_open false) =
  inr [mkExample (Some ("1" +:+ nl +:+ "2" +:+ nl +:+ "3")) (Some "y")
         (Some "z") None].
Proof. vm_compute. reflexivity. Qed.

(** On the table with three entries for 2022/05: every expression
    gives a string or a list of strings, or raises, as the unbound name of
    the second entry does, and the extraction returns. *)
Lemma extract_examples_absorbs_witness :
  exists t res,
    Demo.extract Demo.table_2022_05 Demo.html_open false = (t, inr res).
Proof.
  destruct (extract_examples_absorbs Demo.get_soup Demo.str_tag Demo.repr
              Demo.py_eval Demo.table_2022_05 Demo.html_open false
              Demo.page_open)
    as (t & res & _ & _ & _ & _ & H & _).
  - reflexivity.
  - intros k Hk. unfold Examples.FIELDS in Hk.
    repeat (apply elem_of_cons in Hk as [->|Hk]);
      try (apply elem_of_nil in Hk; contradiction);
      vm_compute; eauto.
  - intros c scope loc k src Hb Hloc Hk Hpos.
    assert (Hs : scope = Demo.scope_open).
    { assert (Hparts : Examples.parts_of
                         (is_None (Examples.article_b Demo.page_open))
                       = ["a"; "b"]) by (vm_compute; reflexivity).
      rewrite Hparts in Hb. unfold Demo.scope_open. now rewrite Hb. }
    subst scope.
    assert (Hlocs : Examples.select_locators Demo.table_2022_05
                      (Examples.with_cached Demo.page_open c) false
                    = [ ({[ "input_data" := Some "a_code" ]} : Locator);
                        {[ "input_data" := Some "nowhere" ]}; ∅ ])
      by (vm_compute; reflexivity).
    rewrite Hlocs in Hloc. clear Hlocs Hb.
    unfold Examples.FIELDS in Hk.
    repeat (apply elem_of_cons in Hloc as [->|Hloc]);
      try (apply elem_of_nil in Hloc; contradiction);
      repeat (apply elem_of_cons in Hk as [->|Hk]);
      try (apply elem_of_nil in Hk; contradiction);
      vm_compute in Hpos; try discriminate;
      injection Hpos as <-; vm_compute; reflexivity.
  - exists t, res. exact H.
Defined.

(** C2 as stated fails: the page parses, the entry for 2022/05 asks for
    the number of code spans as [answer_a], and calling [rstrip] on that
    [int] raises an [AttributeError] that leaves [extract_examples]; the
    fields and entries that remain are not processed. *)
Lemma extract_examples_absorbs_counterexample :
  Examples.from_raw Demo.get_soup Demo.str_tag Demo.repr Demo.html_open
    = inr Demo.page_open /\
  Demo.py_eval "len(a_code)" Demo.scope_open = inr (VInt 3) /\
  Demo.extract Demo.table_int Demo.html_open false =
  ([mkCall "input_data" (Some "a_pre[0]");
    mkCall "answer_a" (Some "len(a_code)")],
   inl (AttributeError "'int' object has no attribute 'rstrip'")).
Proof. repeat split; vm_compute; reflexivity. Qed.

(** C3 on the table with three entries for 2022/05: the entry whose
    [input_data] is an unbound name adds nothing, the other two add one
    example each. *)
Lemma extract_examples_contributions_witness :
  exists t res,
    Demo.extract Demo.table_2022_05 Demo.html_open false = (t, inr res) /\
    length res = 2%nat /\
    Forall (fun ex => input_data ex <> None) res.
Proof.
  destruct (Demo.extract Demo.table_2022_05 Demo.html_open false)
    as [t [e|res]] eqn:H; [vm_compute in H; discriminate|].
  exists t, res. split; [reflexivity|]. split.
  - vm_compute in H. injection H as _ <-. reflexivity.
  - destruct (extract_examples_contributions Demo.get_soup Demo.str_tag
                Demo.repr Demo.py_eval Demo.table_2022_05 Demo.html_open
                false t res H)
      as (_ & _ & _ & _ & _ & _ & _ & _ & Hall).
    exact Hall.
Defined.

(** C4 on the scoring scenario: part b is locked, the scraped example has
    no [answer_b] and the expected one has ["2"]; the mark is that the
    scraped [answer_b] is [None]. *)
Lemma score_day_answer_b_match_witness :
  exists logged rows wrong,
    Demo.score_day 2022 5 = inr (logged, rows, wrong) /\
    Forall (fun v => Examples.i4 v = is_None (answer_b (Examples.scraped_of v)))
      rows.
Proof.
  destruct (score_day_answer_b_match Demo.get_soup Demo.str_tag Demo.repr
              Demo.prose Demo.puzzle_examples Demo.plugin 2022 5
              (match Examples.from_raw Demo.get_soup Demo.str_tag Demo.repr
                       Demo.html_locked with
               | inr page => page
               | inl _ => Demo.page_open
               end) eq_refl)
    as (logged & rows & wrong & H & _ & HF).
  exists logged, rows, wrong. split; [exact H|exact HF].
Defined.

Lemma score_day_scenario :
  exists logged wrong v1 v2,
    Demo.score_day 2022 5 = inr (logged, [v1; v2], wrong) /\
    (Examples.i2 v1, Examples.i3 v1, Examples.i4 v1) = (true, true, true) /\
    Examples.scraped_of v2 = Examples.missing.
Proof. eexists _, _, _, _. vm_compute. repeat split. Qed.

(** On the same scenario: one example scraped, two expected. *)
Lemma score_day_length_mismatch_witness :
  exists logged rows wrong,
    Demo.score_day 2022 5 = inr (logged, rows, wrong) /\
    logged = [Examples.mkLog Examples.INFO "2022/05 scraped 1 but expected 2"] /\
    length rows = 2%nat.
Proof.
  destruct (score_day_length_mismatch Demo.get_soup Demo.str_tag Demo.repr
              Demo.prose Demo.puzzle_examples Demo.plugin 2022 5
              (match Examples.from_raw Demo.get_soup Demo.str_tag Demo.repr
                       Demo.html_locked with
               | inr page => page
               | inl _ => Demo.page_open
               end) eq_refl)
    as (logged & rows & wrong & H & Hlog & Hlen & _).
  exists logged, rows, wrong. split; [exact H|]. split; [exact Hlog|exact Hlen].
Defined.


(** On that page the expression of [answer_b] would fail on the unbound
    name, and does so when it is asked for as [input_data]. *)
Lemma locked_page_unbound_name :
  Demo.extract
    (mkLocators (<["input_data" := Some "b_code[-1]"]> Demo.default_locator) ∅)
    Demo.html_locked false
  = ([mkCall "input_data" (Some "b_code[-1]");
      mkCall "answer_a" (Some "a_code[-1]")], inr []).
Proof. vm_compute. reflexivity. Qed.

(** C10 on the table with three entries for 2022/05 and the table with
    none. *)
Lemma use_default_locators_only_default_witness :
  Demo.extract Demo.table_2022_05 Demo.html_open true
  = Demo.extract Demo.table Demo.html_open false.
Proof.
  apply (use_default_locators_only_default Demo.get_soup Demo.str_tag
           Demo.repr Demo.py_eval Demo.table_2022_05 Demo.table
           Demo.html_open).
  - reflexivity.
  - intros page0 _. apply lookup_empty.
Defined.

(** ** The older variant *)

Lemma older_finish_agrees val v :
  ExampleParser.finish val = inr v -> Examples.finish val = inr v.
Proof. destruct val; try discriminate; intros H; exact H. Qed.

Section Older.

Context (py_eval : string -> gmap string node -> result pyval)
  (q : ExampleParser.Page) (part_b_locked : bool)
  (scope : gmap string node) (dflt : Locator).

Local Abbreviation older_fields :=
  (ExampleParser.eval_fields py_eval q part_b_locked scope dflt).
Local Abbreviation newer_fields :=
  (Examples.eval_fields (eval_of_older py_eval scope) (page_of_older q)
     part_b_locked ∅ dflt).
Local Abbreviation older_scrape :=
  (ExampleParser.scrape py_eval q part_b_locked scope dflt).
Local Abbreviation newer_scrape :=
  (Examples.scrape (eval_of_older py_eval scope) (page_of_older q)
     part_b_locked ∅ dflt).

(** The loop over the fields of [examples.py] does what the older loop
    does and possibly more: it makes the same calls first, and returns the
    same values whenever the older loop returns. *)
Lemma older_eval_fields_sim loc : forall ks vals t r,
  older_fields loc ks vals = (t, r) ->
  exists t' r',
    newer_fields loc ks vals = (t ++ t', r') /\
    forall v, r = inr v -> t' = [] /\ r' = inr v.
Proof.
  induction ks as [|k ks IH]; intros vals t r H.
  - injection H as <- <-. exists [], (inr vals). split; [reflexivity|].
    intros v [= <-]. auto.
  - cbn [ExampleParser.eval_fields] in H. cbn [Examples.eval_fields].
    rewrite M_bind_lift in H. rewrite M_bind_lift.
    change (Examples.loc_get loc dflt k)
      with (ExampleParser.loc_get loc dflt k).
    destruct (ExampleParser.loc_get loc dflt k) as [e|pos].
    { injection H as <- <-. exists [], (inl e). split; [reflexivity|].
      discriminate. }
    change (Examples.day (page_of_older q)) with (ExampleParser.day q).
    destruct (String.eqb k "extra" && is_None pos).
    { injection H as <- <-. exists [], (inr vals). split; [reflexivity|].
      intros v [= <-]. auto. }
    destruct (String.eqb k "answer_b"
              && (part_b_locked || (ExampleParser.day q =? 25))).
    { exact (IH _ _ _ H). }
    rewrite M_bind_called in H. rewrite M_bind_called.
    destruct (_ ≫= _) as [t0 r0] eqn:Hrest in H. injection H as <- <-.
    rewrite M_bind_lift in Hrest. rewrite M_bind_lift.
    change (Examples.try_eval (eval_of_older py_eval scope) pos ∅)
      with (ExampleParser.try_eval py_eval pos scope).
    destruct (ExampleParser.try_eval py_eval pos scope) as [e|val].
    { injection Hrest as <- <-. exists [], (inl e). split; [reflexivity|].
      discriminate. }
    rewrite M_bind_lift in Hrest. rewrite M_bind_lift.
    destruct (ExampleParser.finish val) as [e|v] eqn:Hfin.
    { injection Hrest as <- <-.
      match goal with
      | |- exists t' r', (let '(t1, r1) := ?m in _) = _ /\ _ =>
          destruct m as [t2 r2]
      end.
      exists t2, r2. split; [reflexivity|discriminate]. }
    rewrite (older_finish_agrees _ _ Hfin).
    destruct (IH _ _ _ Hrest) as (t' & r' & -> & Hr).
    exists t', r'. split; [reflexivity|exact Hr].
Qed.

Lemma older_scrape_sim : forall locs result t r,
  older_scrape locs result = (t, r) ->
  exists t' r',
    newer_scrape locs result = (t ++ t', r') /\
    forall res, r = inr res -> t' = [] /\ r' = inr res.
Proof.
  induction locs as [|loc locs IH]; intros result t r H.
  - injection H as <- <-. exists [], (inr result). split; [reflexivity|].
    intros res [= <-]. auto.
  - cbn [ExampleParser.scrape] in H. cbn [Examples.scrape].
    rewrite M_bind_unfold in H.
    destruct (older_fields loc ExampleParser.FIELDS []) as [t1 r1] eqn:H1.
    apply older_eval_fields_sim in H1 as (t1' & r1' & H1 & Hr1).
    change ExampleParser.FIELDS with Examples.FIELDS in H1.
    destruct r1 as [e|vals].
    { injection H as <- <-.
      match goal with
      | |- exists t' r', ?m ≫= ?f = _ /\ _ =>
          destruct (M_bind_trace m f) as [t3 Ht3];
          destruct (m ≫= f) as [t2 r2]
      end.
      rewrite H1 in Ht3. simpl in Ht3. subst t2.
      exists (t1' ++ t3), r2. rewrite app_assoc.
      split; [reflexivity|discriminate]. }
    destruct (Hr1 _ eq_refl) as [-> ->]. rewrite app_nil_r in H1.
    rewrite M_bind_unfold, H1.
    destruct vals as [|[i|] rest].
    + injection H as <- <-.
      exists [], (inl (IndexError "list index out of range")).
      cbn. rewrite ?app_nil_r. split; [reflexivity|discriminate].
    + rewrite M_bind_lift in H. rewrite M_bind_lift.
      change (Examples.Example_of (Some i :: rest))
        with (ExampleParser.Example_of (Some i :: rest)).
      destruct (ExampleParser.Example_of (Some i :: rest)) as [e|ex].
      { injection H as <- <-. exists [], (inl e).
        cbn. rewrite ?app_nil_r. split; [reflexivity|discriminate]. }
      destruct (ExampleParser.scrape _ _ _ _ _ locs _) as [t2 r2] eqn:H2.
      injection H as <- <-.
      destruct (IH _ _ _ H2) as (t' & r' & -> & Hr).
      exists t', r'. rewrite app_assoc. split; [reflexivity|exact Hr].
    + destruct (ExampleParser.scrape _ _ _ _ _ locs _) as [t2 r2] eqn:H2.
      injection H as <- <-.
      destruct (IH _ _ _ H2) as (t' & r' & -> & Hr).
      exists t', r'. rewrite app_assoc. split; [reflexivity|exact Hr].
Qed.

End Older.

Section OlderExtract.

Context (_get_soup : string -> node) (str_tag : node -> string)
  (repr : string -> string)
  (py_eval : string -> gmap string node -> result pyval).

(** The guard on [answer_b] holds in [example_parser.py] as well. *)
Lemma older_answer_b_absent table html q :
  ExampleParser.from_raw _get_soup str_tag repr html = inr q ->
  ExampleParser.day q = 25 \/ ExampleParser.b q = None ->
  let outcome :=
    ExampleParser.extract_examples _get_soup str_tag repr py_eval table html in
  Forall (fun c => call_field c <> "answer_b") (fst outcome) /\
  forall res, snd outcome = inr res ->
    Forall (fun ex => answer_b ex = None /\ input_data ex <> None) res.
Proof.
  intros Hraw Hcase outcome. subst outcome.
  unfold ExampleParser.extract_examples. rewrite M_bind_lift, Hraw.
  set (scope := ({[ "soup" := ExampleParser.soup q ]} : gmap string node)).
  set (locked := is_None (ExampleParser.b q)).
  destruct (ExampleParser.scrape _ _ _ _ _ _ _) as [t r] eqn:Hs.
  apply older_scrape_sim in Hs as (t' & r' & Hs & Hr).
  apply scrape_sound in Hs as [Ht Hres].
  assert (Hskip : Examples.skips_answer_b (page_of_older q) locked = true).
  { unfold Examples.skips_answer_b, locked. simpl.
    destruct Hcase as [-> | ->]; [apply orb_true_r|reflexivity]. }
  simpl. split.
  - apply Forall_app in Ht as [Ht _].
    eapply Forall_impl; [exact Ht|]. intros call Hcall Heq.
    unfold Examples.call_allowed in Hcall. rewrite Hskip, Heq in Hcall.
    discriminate.
  - intros res ->. destruct (Hr _ eq_refl) as [_ ->].
    destruct (Hres _ eq_refl) as (vss & HF & ->). simpl.
    clear Hr Hres Ht. induction HF as [|loc vs locs vss (t2 & Hvs) HF IH].
    + constructor.
    + cbn [flat_map]. apply Forall_app. split; [|exact IH].
      apply eval_fields_FIELDS, entry_contribution in Hvs
        as (i & a & b & e & _ & _ & Hb & _ & ->).
      unfold Examples.field_value in Hb.
      destruct (Examples.loc_get loc _ "answer_b"); [discriminate|].
      rewrite Hskip in Hb. injection Hb as <-.
      destruct i; repeat constructor. discriminate.
Qed.

End OlderExtract.

(** [example_parser.py] has no joining step: there a list of strings
    reaches [rstrip] as it is and the call raises. *)
Lemma older_finish_has_no_join ss :
  ExampleParser.finish (VList (VStr <$> ss))
  = inl (AttributeError "'list' object has no attribute 'rstrip'").
Proof. reflexivity. Qed.

(** Its scoring loop warns only when more examples were scraped than
    expected: with one scraped and two expected nothing is logged, and the
    second row is still scored against the sentinel. *)
Lemma older_score_day_one_sided :
  exists v1 v2,
    ExampleParser.score_day Demo.get_soup Demo.prose
      (fun _ _ => Demo.scraped_one) (fun _ _ => Demo.expected_two) 2022 5
    = ([], [v1; v2]) /\
    Examples.i4 v1 = true /\
    Examples.scraped_of v2 = ExampleParser.missing.
Proof. eexists _, _. vm_compute. repeat split. Qed.

(** * Further properties *)

(** ** Numbers as text *)

Lemma digit_char_value d :
  0 <= d <= 9 -> digit_value (digit_char d) = d /\ is_digit (digit_char d) = true.
Proof.
  intros H.
  assert (Hd : d = 0 \/ d = 1 \/ d = 2 \/ d = 3 \/ d = 4 \/ d = 5 \/ d = 6
               \/ d = 7 \/ d = 8 \/ d = 9) by lia.
  repeat (destruct Hd as [->|Hd]; [split; reflexivity|]).
  subst d. split; reflexivity.
Qed.

Lemma int_acc_digits_fuel fuel : forall n acc,
  0 <= n < 10 ^ Z.of_nat fuel ->
  int_acc 0 (digits_fuel fuel n acc) = int_acc n acc.
Proof.
  induction fuel as [|fuel IH]; intros n acc Hn.
  - simpl in Hn. assert (n = 0) by lia. subst n. reflexivity.
  - cbn [digits_fuel]. rewrite Nat2Z.inj_succ, Z.pow_succ_r in Hn by lia.
    destruct (n <? 10) eqn:Hlt.
    + apply Z.ltb_lt in Hlt. cbn [int_acc].
      rewrite Z.mod_small by lia.
      destruct (digit_char_value n) as [-> _]; [lia|]. f_equal.
    + apply Z.ltb_ge in Hlt. rewrite IH.
      * cbn [int_acc].
        destruct (digit_char_value (n mod 10)) as [-> _].
        { pose proof (Z.mod_pos_bound n 10). lia. }
        f_equal. pose proof (Z.div_mod n 10). lia.
      * split; [apply Z.div_pos; lia|].
        apply Z.div_lt_upper_bound; lia.
Qed.

(** Reading back the decimal text of a number gives the number. *)
Lemma int_format_d n : 0 <= n -> int (format_d n) = n.
Proof.
  intros Hn. unfold int, format_d.
  destruct (n <? 0) eqn:Hneg; [apply Z.ltb_lt in Hneg; lia|].
  rewrite int_acc_digits_fuel; [reflexivity|].
  split; [exact Hn|].
  rewrite Nat2Z.inj_succ, Z2Nat.id by apply Z.log2_nonneg.
  destruct (Z.eq_dec n 0) as [->|Hne]; [reflexivity|].
  destruct (Z.log2_spec n) as [_ Hup]; [lia|].
  eapply Z.lt_le_trans; [exact Hup|].
  apply Z.pow_le_mono_l. pose proof (Z.log2_nonneg n). lia.
Qed.

Lemma digits_exactly_app n : forall s ds r,
  digits_exactly n s = Some (ds, "") ->
  digits_exactly n (s +:+ r) = Some (ds, r).
Proof.
  induction n as [|n IH]; intros s ds r H.
  - simpl in H. injection H as <- ->. reflexivity.
  - destruct s as [|c s]; [discriminate|]. cbn [digits_exactly] in *.
    change (String c s +:+ r) with (String c (s +:+ r)). cbn [digits_exactly].
    destruct (is_digit c); [|discriminate].
    destruct (digits_exactly n s) as [[ds' r']|] eqn:Hd; [|discriminate].
    injection H as <- ->. now rewrite (IH _ _ r Hd).
Qed.

(** A year of four digits is written with exactly those four digits. *)
Lemma format_d_year y :
  1000 <= y <= 9999 -> digits_exactly 4 (format_d y) = Some (format_d y, "").
Proof.
  intros Hy.
  assert (Hall : forallb
            (fun y => match digits_exactly 4 (format_d y) with
                      | Some (ds, "") => String.eqb ds (format_d y)
                      | _ => false
                      end) (seqZ 1000 9000) = true)
    by (vm_compute; reflexivity).
  rewrite forallb_forall in Hall.
  assert (Hin : In y (seqZ 1000 9000))
    by (apply list_elem_of_In, elem_of_seqZ; lia).
  specialize (Hall y Hin).
  destruct (digits_exactly 4 (format_d y)) as [[ds [|? ?]]|];
    try discriminate.
  apply String.eqb_eq in Hall. now subst ds.
Qed.

Lemma literal_app p r : literal p (p +:+ r) = Some r.
Proof.
  induction p as [|c p IH]; [destruct r; reflexivity|].
  change (String c p +:+ r) with (String c (p +:+ r)). cbn [literal].
  now rewrite Ascii.eqb_refl.
Qed.

(** The title of a puzzle matches the pattern, with the day and the year
    as written. *)
Lemma match_title_of day year :
  0 <= day <= 99 -> 1000 <= year <= 9999 ->
  match_title (title_of day year) = Some (format_d day, format_d year).
Proof.
  intros Hd Hy.
  set (rest := " - Advent of Code " +:+ format_d year).
  assert (Htail : title_tail rest = Some (format_d year)).
  { unfold title_tail, rest. rewrite literal_app.
    now rewrite (format_d_year _ Hy). }
  assert (Hspace : exists rest', rest = String " " rest')
    by (eexists; reflexivity).
  assert (Hall : forallb
            (fun d =>
               String.eqb (format_d d)
                 (if d <? 10 then String (digit_char d) ""
                  else String (digit_char (d / 10))
                         (String (digit_char (d mod 10)) "")))
            (seqZ 0 100) = true) by (vm_compute; reflexivity).
  rewrite forallb_forall in Hall.
  assert (Hin : In day (seqZ 0 100))
    by (apply list_elem_of_In, elem_of_seqZ; lia).
  specialize (Hall day Hin). apply String.eqb_eq in Hall.
  unfold title_of, match_title. fold rest. rewrite literal_app, Hall.
  destruct (day <? 10) eqn:Hlt.
  - apply Z.ltb_lt in Hlt.
    destruct (digit_char_value day) as [_ Hdig]; [lia|].
    change (String (digit_char day) "" +:+ rest)
      with (String (digit_char day) rest).
    destruct Hspace as [rest' Hrest].
    assert (H2 : digits_exactly 2 (String (digit_char day) rest) = None).
    { rewrite Hrest. cbn [digits_exactly]. rewrite Hdig. reflexivity. }
    assert (H1 : digits_exactly 1 (String (digit_char day) rest)
                 = Some (String (digit_char day) "", rest)).
    { cbn [digits_exactly]. now rewrite Hdig. }
    now rewrite H2, H1, Htail.
  - apply Z.ltb_ge in Hlt.
    destruct (digit_char_value (day / 10)) as [_ H1].
    { assert (day / 10 < 10) by (apply Z.div_lt_upper_bound; lia).
      assert (0 <= day / 10) by (apply Z.div_pos; lia). lia. }
    destruct (digit_char_value (day mod 10)) as [_ H2].
    { pose proof (Z.mod_pos_bound day 10). lia. }
    change (String (digit_char (day / 10))
              (String (digit_char (day mod 10)) "") +:+ rest)
      with (String (digit_char (day / 10))
              (String (digit_char (day mod 10)) rest)).
    assert (Hd2 : digits_exactly 2
                    (String (digit_char (day / 10))
                       (String (digit_char (day mod 10)) rest))
                  = Some (String (digit_char (day / 10))
                            (String (digit_char (day mod 10)) ""), rest)).
    { cbn [digits_exactly]. now rewrite H1, H2. }
    now rewrite Hd2, Htail.
Qed.

Section TitleRoundTrip.

Context (_get_soup : string -> node) (str_tag : node -> string)
  (repr : string -> string).

(** X1: a page whose title is the one of the puzzle of a day (0 to 99)
    and a year (of four digits) is built with that day and that year, and
    its key in the table of locators is the year, a slash and the day on
    two digits. *)
Theorem from_raw_reads_title html title day year page :
  0 <= day <= 99 -> 1000 <= year <= 9999 ->
  find (_get_soup html) "title" = Some title ->
  text title = title_of day year ->
  Examples.from_raw _get_soup str_tag repr html = inr page ->
  Examples.day page = day /\ Examples.year page = year /\
  Examples.puzzle_key page = format_d year +:+ "/" +:+ format_02d day.
Proof.
  intros Hd Hy Ht Htext Hraw.
  destruct (from_raw_inv _ _ _ _ _ Hraw)
    as (title' & d & y & Ht' & Hm & Hday & Hyear & _).
  rewrite Ht in Ht'. injection Ht' as <-.
  rewrite Htext, (match_title_of _ _ Hd Hy) in Hm. injection Hm as <- <-.
  rewrite int_format_d in Hday, Hyear by lia.
  unfold Examples.puzzle_key. now rewrite Hday, Hyear.
Qed.

End TitleRoundTrip.

Lemma from_raw_reads_title_witness :
  exists page,
    Examples.from_raw Demo.get_soup Demo.str_tag Demo.repr Demo.html_day25
      = inr page /\
    Examples.day page = 25 /\ Examples.year page = 2022 /\
    Examples.puzzle_key page = "2022/25".
Proof.
  eexists. split; [reflexivity|].
  refine (from_raw_reads_title Demo.get_soup Demo.str_tag Demo.repr
            Demo.html_day25
            (Tag "title" [NavigableString "Day 25 - Advent of Code 2022"])
            25 2022 _ _ _ _ _ eq_refl); try lia; reflexivity.
Defined.

(** ** [Page.__getattr__] and its cache *)

Section Attributes.

Import Examples.

Lemma view_names_b :
  view_names ["b"] = ["b_code"; "b_pre"; "b_em"; "b_li"].
Proof. reflexivity. Qed.

(** A name made of a part, an underscore and a tag kind is one of the
    views of that part exactly when the kind is whitelisted. *)
Lemma view_name_whitelisted (p : ascii) rest :
  String p (String "_" rest) ∈ view_names [String p ""]
  <-> whitelisted rest = true.
Proof.
  unfold whitelisted. rewrite bool_decide_eq_true.
  change (view_names [String p ""])
    with [String p (String "_" "code"); String p (String "_" "pre");
          String p (String "_" "em"); String p (String "_" "li")].
  split; intros H.
  - repeat (apply elem_of_cons in H as [H|H]);
      try (injection H as ->; set_solver);
      try (apply elem_of_nil in H; contradiction).
  - repeat (apply elem_of_cons in H as [->|H]); try set_solver;
      try (apply elem_of_nil in H; contradiction).
Qed.

Lemma view_name_shape part name :
  name ∈ view_names [String part ""] ->
  exists rest, name = String part (String "_" rest).
Proof.
  change (view_names [String part ""])
    with [String part (String "_" "code"); String part (String "_" "pre");
          String part (String "_" "em"); String part (String "_" "li")].
  intros H. repeat (apply elem_of_cons in H as [->|H]); eauto;
    try (apply elem_of_nil in H; contradiction).
Qed.

Lemma available_prefixed page name :
  available page name ->
  startswith name "a_" || startswith name "b_" = true.
Proof.
  intros [H|[H _]]; apply view_name_shape in H as [rest ->];
    destruct rest; reflexivity.
Qed.

(** X2: [__getattr__] succeeds exactly for the views of part a and, when
    part b is there, of part b; it then stores the value under the name
    asked for and changes nothing else.  For any other name it raises
    [AttributeError] with that name and leaves the page as it was. *)
Theorem getattr_outcome page name :
  match __getattr__ page name with
  | (inr v, page') => available page name /\ page' = set_cached page name v
  | (inl e, page') =>
      ~ available page name /\ e = AttributeError name /\ page' = page
  end.
Proof.
  unfold __getattr__.
  destruct (startswith name "a_" || startswith name "b_") eqn:Hpre;
    cbn [negb].
  2: { split; [|auto]. intros Hav. apply available_prefixed in Hav.
       congruence. }
  apply orb_true_iff in Hpre as [Hp|Hp];
    destruct name as [|c1 [|c2 rest]]; cbn [startswith] in Hp;
    try discriminate; try (rewrite andb_false_r in Hp; discriminate);
    apply andb_true_iff in Hp as [H1 H2];
    apply andb_true_iff in H2 as [H2 _];
    apply Ascii.eqb_eq in H1, H2; subst c1 c2; cbn.
  - destruct (whitelisted rest) eqn:Hw; cbn.
    + split; [|reflexivity]. left. now apply (view_name_whitelisted "a").
    + split; [|auto]. intros [H|[H _]].
      * apply (view_name_whitelisted "a") in H. congruence.
      * apply view_name_shape in H as [rest' H]. discriminate.
  - destruct (article_b page) as [b|] eqn:Hb; cbn.
    + destruct (whitelisted rest) eqn:Hw; cbn.
      * split; [|reflexivity]. right.
        split; [now apply (view_name_whitelisted "b")|]. rewrite Hb. eauto.
      * split; [|auto]. intros [H|[H _]].
        -- apply view_name_shape in H as [rest' H]. discriminate.
        -- apply (view_name_whitelisted "b") in H. congruence.
    + split; [|auto]. intros [H|[_ [b' Hb']]].
      * apply view_name_shape in H as [rest' H]. discriminate.
      * congruence.
Qed.

(** The first lookup of a view computes it and stores it. *)
Lemma getattr_fresh page name :
  available page name ->
  cached page !! name = None ->
  getattr page name
  = (inr (view_named page name), set_cached page name (view_named page name)).
Proof.
  intros Hav Hc. unfold getattr. rewrite Hc.
  destruct Hav as [Ha|[Hb [b Hsome]]].
  - rewrite view_names_a in Ha.
    repeat (apply elem_of_cons in Ha as [->|Ha]);
      try (apply elem_of_nil in Ha; contradiction); reflexivity.
  - rewrite view_names_b in Hb.
    repeat (apply elem_of_cons in Hb as [->|Hb]);
      try (apply elem_of_nil in Hb; contradiction);
      cbn; unfold view_named; cbn; rewrite Hsome; reflexivity.
Qed.

(** X3: a view is computed at most once.  When a lookup of a view
    succeeds, the value is in the cache of the page under that name, the
    fields of the page are the same, and looking the name up again gives
    the same value without changing the page any more. *)
Theorem getattr_cached page name v page' :
  available page name ->
  getattr page name = (inr v, page') ->
  cached page' !! name = Some v /\
  page' = with_cached page (cached page') /\
  getattr page' name = (inr v, page').
Proof.
  intros Hav H.
  assert (Hhit : forall p, cached p !! name = Some v ->
            getattr p name = (inr v, p)).
  { intros p Hp. unfold getattr. now rewrite Hp. }
  destruct (cached page !! name) as [v0|] eqn:Hc.
  - unfold getattr in H. rewrite Hc in H. injection H as <- <-.
    split; [exact Hc|]. split; [now rewrite with_cached_id|]. now apply Hhit.
  - rewrite (getattr_fresh _ _ Hav Hc) in H. injection H as <- <-.
    assert (Hin : cached (set_cached page name (view_named page name)) !! name
                  = Some (view_named page name))
      by apply lookup_insert_eq.
    split; [exact Hin|]. split; [reflexivity|]. now apply Hhit.
Qed.

(** Binding names that are not cached yet: each gets its view, in the
    scope and in the cache, and the other names keep what they had. *)
Lemma bind_views_fresh : forall names page scope,
  NoDup names ->
  Forall (available page) names ->
  (forall n, n ∈ names -> cached page !! n = None) ->
  exists c scope',
    bind_views names page scope = inr (with_cached page c, scope') /\
    (forall n, n ∈ names ->
       scope' !! n = Some (BVal (view_named page n)) /\
       c !! n = Some (view_named page n)) /\
    (forall n, n ∉ names ->
       scope' !! n = scope !! n /\ c !! n = cached page !! n).
Proof.
  induction names as [|name names IH]; intros page scope Hnd Hav Hfresh.
  - exists (cached page), scope. rewrite with_cached_id.
    split; [reflexivity|]. split; [|auto].
    intros n Hn. apply elem_of_nil in Hn. contradiction.
  - apply NoDup_cons in Hnd as [Hnotin Hnd].
    apply Forall_cons in Hav as [Hname Hav].
    cbn [bind_views]. rewrite (getattr_fresh _ _ Hname) by (apply Hfresh; left).
    set (v := view_named page name).
    destruct (IH (set_cached page name v) (<[name := BVal v]> scope))
      as (c & scope' & Hb & Hin & Hout); [exact Hnd|exact Hav| |].
    { intros n Hn. cbn. rewrite lookup_insert_ne by (intros ->; contradiction).
      apply Hfresh. now right. }
    exists c, scope'. split; [exact Hb|]. split.
    + intros n Hn. apply elem_of_cons in Hn as [->|Hn].
      * destruct (Hout name Hnotin) as [Hs Hc]. rewrite Hs, Hc. cbn.
        now rewrite !lookup_insert_eq.
      * exact (Hin n Hn).
    + intros n Hn. apply not_elem_of_cons in Hn as [Hne Hn].
      destruct (Hout n Hn) as [Hs Hc]. rewrite Hs, Hc. cbn.
      now rewrite !lookup_insert_ne by congruence.
Qed.

End Attributes.

Section ScopeContents.

Import Examples.

Context (_get_soup : string -> node) (str_tag : node -> string)
  (repr : string -> string).

Lemma view_names_NoDup locked : NoDup (view_names (parts_of locked)).
Proof. destruct locked; apply (bool_decide_unpack _); vm_compute; exact I. Qed.

(** X4: for a page just parsed, the scope handed to [eval] binds [page]
    to the page, and each name made of a part and a tag kind to the view
    of that kind of the article of that part: the texts of its [code],
    [pre] or [em] tags in document order, or its list items.  The cache of
    the page bound to [page] holds the same values.  When part b is locked
    no name of part b is bound. *)
Theorem build_scope_binds_views html page0 :
  from_raw _get_soup str_tag repr html = inr page0 ->
  exists c scope,
    build_scope page0 (parts_of (is_None (article_b page0)))
      = inr (with_cached page0 c, scope) /\
    scope !! "page" = Some (BPage (with_cached page0 c)) /\
    (forall kind, kind ∈ KINDS ->
       scope !! ("a_" +:+ kind)
         = Some (BVal (view_of (article_a page0) kind)) /\
       c !! ("a_" +:+ kind) = Some (view_of (article_a page0) kind)) /\
    match article_b page0 with
    | Some b =>
        forall kind, kind ∈ KINDS ->
          scope !! ("b_" +:+ kind) = Some (BVal (view_of b kind)) /\
          c !! ("b_" +:+ kind) = Some (view_of b kind)
    | None => forall kind, scope !! ("b_" +:+ kind) = None
    end.
Proof.
  intros Hraw.
  destruct (from_raw_inv _ _ _ _ _ Hraw) as (_ & _ & _ & _ & _ & _ & _ & Hempty & _).
  destruct (bind_views_fresh (view_names (parts_of (is_None (article_b page0))))
              page0 ∅ (view_names_NoDup _) (parts_available page0))
    as (c & scope & Hb & Hin & Hout).
  { intros n _. rewrite Hempty. apply lookup_empty. }
  exists c, (<["page" := BPage (with_cached page0 c)]> scope).
  unfold build_scope. rewrite Hb. split; [reflexivity|].
  split; [apply lookup_insert_eq|]. split.
  - intros kind Hk. unfold KINDS in Hk.
    assert (Hn : ("a_" +:+ kind) ∈ view_names (parts_of (is_None (article_b page0)))).
    { destruct (article_b page0);
        repeat (apply elem_of_cons in Hk as [->|Hk]);
        try (apply elem_of_nil in Hk; contradiction);
        apply (bool_decide_unpack _); vm_compute; exact I. }
    destruct (Hin _ Hn) as [Hs Hc].
    repeat (apply elem_of_cons in Hk as [->|Hk]);
      try (apply elem_of_nil in Hk; contradiction);
      (split; [rewrite lookup_insert_ne by discriminate; exact Hs|exact Hc]).
  - destruct (article_b page0) as [b|] eqn:Hartb.
    + intros kind Hk. unfold KINDS in Hk.
      assert (Hn : ("b_" +:+ kind) ∈ view_names (parts_of (is_None (Some b)))).
      { repeat (apply elem_of_cons in Hk as [->|Hk]);
          try (apply elem_of_nil in Hk; contradiction);
          apply (bool_decide_unpack _); vm_compute; exact I. }
      destruct (Hin _ Hn) as [Hs Hc].
      assert (Hv : view_named page0 ("b_" +:+ kind) = view_of b kind)
        by (unfold view_named; cbn; now rewrite Hartb).
      rewrite Hv in Hs, Hc.
      split; [rewrite lookup_insert_ne by discriminate; exact Hs|exact Hc].
    + intros kind. rewrite lookup_insert_ne by discriminate.
      destruct (Hout ("b_" +:+ kind)) as [-> _]; [|apply lookup_empty].
      intros H. apply view_name_shape in H as [rest H]. discriminate.
Qed.

End ScopeContents.

(** ** Values that reach an example *)

Lemma str_items_texts (ts : list node) :
  Examples.str_items (List.map (fun t => VStr (text t)) ts)
  = inr (List.map text ts).
Proof.
  induction ts as [|t ts IH]; [reflexivity|].
  cbn [List.map Examples.str_items]. now rewrite IH.
Qed.

(** X5: an expression that gives a whole view of [code], [pre] or [em]
    tags yields the texts joined with newlines and stripped; one that
    gives the view of the list items makes the join raise [TypeError],
    since its items are tags, unless the article has no list item, where
    the value is the empty string. *)
Theorem finish_view article kind :
  kind ∈ Examples.KINDS ->
  Examples.finish (Examples.view_of article kind) =
    if String.eqb kind "li" then
      match find_all article "li" with
      | [] => inr (Some "")
      | _ :: _ => inl (TypeError "sequence item: expected str instance")
      end
    else
      inr (Some (rstrip (join nl (List.map text (find_all article kind)))
                   Examples.CRLF)).
Proof.
  intros Hk. unfold Examples.KINDS in Hk.
  repeat (apply elem_of_cons in Hk as [->|Hk]);
    try (apply elem_of_nil in Hk; contradiction);
    unfold Examples.view_of, Examples.finish; cbn [String.eqb Ascii.eqb Bool.eqb];
    try (rewrite str_items_texts; reflexivity).
  destruct (find_all article "li"); reflexivity.
Qed.

Lemma finish_view_witness :
  Examples.finish (Examples.view_of Demo.part_one "code")
  = inr (Some ("1" +:+ nl +:+ "2" +:+ nl +:+ "3" +:+ nl +:+ "x" +:+ nl +:+ "y")).
Proof.
  rewrite (finish_view Demo.part_one "code")
    by (apply (bool_decide_unpack _); vm_compute; exact I).
  vm_compute. reflexivity.
Defined.

(** What [rstrip] returns does not end in one of the characters. *)
Lemma rstrip_ends_in s chars : ends_in (rstrip s chars) chars = false.
Proof.
  induction s as [|c s IH]; [reflexivity|]. cbn [rstrip].
  destruct (rstrip s chars) as [|d r] eqn:Hr.
  - destruct (char_in c chars) eqn:Hc; [reflexivity|]. cbn. exact Hc.
  - exact IH.
Qed.

Lemma finish_stripped val s :
  Examples.finish val = inr (Some s) -> ends_in s Examples.CRLF = false.
Proof.
  unfold Examples.finish.
  destruct val as [|s0|n|items|items|t codes|]; try discriminate.
  - intros [= <-]. apply rstrip_ends_in.
  - destruct (Examples.str_items items); [discriminate|].
    intros [= <-]. apply rstrip_ends_in.
  - destruct (Examples.str_items items); [discriminate|].
    intros [= <-]. apply rstrip_ends_in.
Qed.

Section Stripped.

Context (_get_soup : string -> node) (str_tag : node -> string)
  (repr : string -> string)
  (py_eval : string -> Examples.Scope -> result pyval).

Lemma field_value_stripped page locked scope dflt loc k s :
  Examples.field_value py_eval page locked scope dflt loc k = inr (Some s) ->
  ends_in s Examples.CRLF = false.
Proof.
  unfold Examples.field_value.
  destruct (Examples.loc_get loc dflt k); [discriminate|].
  destruct (_ && _); [discriminate|].
  destruct (Examples.try_eval py_eval o scope); [discriminate|].
  apply finish_stripped.
Qed.

(** X6: no text in an example returned by [extract_examples] ends in a
    carriage return or a newline. *)
Theorem extract_examples_stripped table html use_default t res :
  Examples.extract_examples _get_soup str_tag repr py_eval table html
    use_default = (t, inr res) ->
  Forall (fun ex => forall k s, Examples.field_of ex k = Some s ->
                      ends_in s Examples.CRLF = false) res.
Proof.
  intros H.
  pose proof (extract_examples_steps _get_soup str_tag repr py_eval
                table html use_default) as Hsteps.
  destruct (Examples.from_raw _ _ _ html) as [e|page0].
  { rewrite Hsteps in H. discriminate. }
  destruct Hsteps as (c & scope & _ & Hs). rewrite Hs in H. clear Hs.
  apply scrape_sound in H as [_ Hr].
  destruct (Hr _ eq_refl) as (vss & HF & ->). simpl. clear Hr.
  induction HF as [|loc vs locs vss (t' & Hvs) _ IH]; [constructor|].
  cbn [flat_map]. apply Forall_app. split; [|exact IH].
  assert (Hex : forall i a b e,
            (exists k, Examples.field_value py_eval
                         (Examples.with_cached page0 c)
                         (is_None (Examples.article_b page0)) scope
                         (default_locators table) loc k = inr i) ->
            (exists k, Examples.field_value py_eval
                         (Examples.with_cached page0 c)
                         (is_None (Examples.article_b page0)) scope
                         (default_locators table) loc k = inr a) ->
            (exists k, Examples.field_value py_eval
                         (Examples.with_cached page0 c)
                         (is_None (Examples.article_b page0)) scope
                         (default_locators table) loc k = inr b) ->
            (e = None \/
             exists k, Examples.field_value py_eval
                         (Examples.with_cached page0 c)
                         (is_None (Examples.article_b page0)) scope
                         (default_locators table) loc k = inr e) ->
            forall k s, Examples.field_of (mkExample i a b e) k = Some s ->
              ends_in s Examples.CRLF = false).
  { intros i a b e [ki Hi] [ka Ha] [kb Hb] He k s Hk.
    unfold Examples.field_of in Hk. cbn in Hk.
    destruct (String.eqb k "input_data");
      [subst i; eapply field_value_stripped, Hi|].
    destruct (String.eqb k "answer_a");
      [subst a; eapply field_value_stripped, Ha|].
    destruct (String.eqb k "answer_b");
      [subst b; eapply field_value_stripped, Hb|].
    destruct (String.eqb k "extra"); [|discriminate].
    destruct He as [->|[ke He]]; [discriminate|].
    subst e. eapply field_value_stripped, He. }
  apply eval_fields_FIELDS in Hvs
    as (i & a & b & Hi & Ha & Hb & [[-> _]|(e & -> & He)]);
    destruct i as [i|]; cbn; constructor; try constructor;
    apply Hex; eauto.
Qed.

End Stripped.

(** ** Locators and their default *)

Lemma M_bind_ext {A B : Type} (m : M A) (f g : A -> M B) :
  (forall a, f a = g a) -> m ≫= f = m ≫= g.
Proof.
  intros H. rewrite !M_bind_unfold. destruct m as [t [e|a]]; [reflexivity|].
  now rewrite H.
Qed.

Lemma loc_get_union (loc dflt : Locator) k :
  Examples.loc_get (loc ∪ dflt) dflt k = Examples.loc_get loc dflt k.
Proof.
  unfold Examples.loc_get. destruct (dflt !! k) as [d|] eqn:Hd; [|reflexivity].
  f_equal. rewrite lookup_union, Hd. destruct (loc !! k); reflexivity.
Qed.

Section Inheritance.

Context (_get_soup : string -> node) (str_tag : node -> string)
  (repr : string -> string)
  (py_eval : string -> Examples.Scope -> result pyval).

Local Abbreviation extract_examples :=
  (Examples.extract_examples _get_soup str_tag repr py_eval).

Lemma eval_fields_union page locked scope (dflt loc : Locator) :
  forall ks vals,
    Examples.eval_fields py_eval page locked scope dflt (loc ∪ dflt) ks vals
    = Examples.eval_fields py_eval page locked scope dflt loc ks vals.
Proof.
  induction ks as [|k ks IH]; intros vals; [reflexivity|].
  cbn [Examples.eval_fields]. rewrite loc_get_union.
  apply M_bind_ext. intros pos.
  destruct (_ && _); [reflexivity|]. destruct (_ && _); [apply IH|].
  apply M_bind_ext. intros _. apply M_bind_ext. intros val.
  apply M_bind_ext. intros v. apply IH.
Qed.

Lemma scrape_union page locked scope (dflt : Locator) :
  forall locs result,
    Examples.scrape py_eval page locked scope dflt
      ((fun loc : Locator => loc ∪ dflt) <$> locs) result
    = Examples.scrape py_eval page locked scope dflt locs result.
Proof.
  induction locs as [|loc locs IH]; intros result; [reflexivity|].
  change ((fun loc0 : Locator => loc0 ∪ dflt) <$> loc :: locs)
    with ((loc ∪ dflt) :: ((fun loc0 : Locator => loc0 ∪ dflt) <$> locs)).
  cbn [Examples.scrape]. rewrite eval_fields_union.
  apply M_bind_ext. intros [|[i|] rest]; [reflexivity| |apply IH].
  apply M_bind_ext. intros ex. apply IH.
Qed.

Lemma select_locators_inherited table page use_default :
  Examples.select_locators (with_inherited table) page use_default
  = (fun loc : Locator => loc ∪ default_locators table)
      <$> Examples.select_locators table page use_default.
Proof.
  unfold Examples.select_locators, with_inherited. cbn.
  destruct use_default.
  - cbn. now rewrite (idemp_L (∪)).
  - rewrite lookup_fmap. destruct (puzzles table !! _); cbn; [reflexivity|].
    now rewrite (idemp_L (∪)).
Qed.

(** X7: a field that an entry leaves out is taken from the default
    locator: writing the default's expressions into every entry that
    lacks them changes neither the calls of [eval] nor the outcome. *)
Theorem extract_examples_inherits table html use_default :
  extract_examples (with_inherited table) html use_default
  = extract_examples table html use_default.
Proof.
  pose proof (extract_examples_steps _get_soup str_tag repr py_eval
                (with_inherited table) html use_default) as H1.
  pose proof (extract_examples_steps _get_soup str_tag repr py_eval
                table html use_default) as H2.
  destruct (Examples.from_raw _ _ _ html) as [e|page0]; [congruence|].
  destruct H1 as (c1 & scope1 & Hb1 & ->).
  destruct H2 as (c2 & scope2 & Hb2 & ->).
  rewrite Hb1 in Hb2. injection Hb2 as Hc <-.
  rewrite select_locators_inherited. cbn [default_locators with_inherited].
  rewrite scrape_union. now rewrite Hc.
Qed.

(** X8: the default locator has to have every one of the four keys:
    if one is missing, [extract_examples] raises for every page that
    parses and has at least one locator to go through, whatever the
    entries themselves define. *)
Theorem extract_examples_needs_default_keys table html use_default page0 k :
  Examples.from_raw _get_soup str_tag repr html = inr page0 ->
  k ∈ Examples.FIELDS ->
  default_locators table !! k = None ->
  Examples.select_locators table page0 use_default <> [] ->
  exists e, snd (extract_examples table html use_default) = inl e.
Proof.
  intros Hraw Hk Hmiss Hlocs.
  pose proof (extract_examples_steps _get_soup str_tag repr py_eval
                table html use_default) as Hsteps.
  rewrite Hraw in Hsteps. destruct Hsteps as (c & scope & _ & ->).
  change (Examples.select_locators table (Examples.with_cached page0 c)
            use_default)
    with (Examples.select_locators table page0 use_default).
  destruct (Examples.scrape _ _ _ _ _ _ _) as [t [e|res]] eqn:Hs; [eauto|].
  exfalso. apply scrape_sound in Hs as [_ Hr].
  destruct (Hr _ eq_refl) as (vss & HF & _).
  destruct HF as [|loc vs locs vss (t' & Hvs) _]; [contradiction|].
  assert (Hget : forall k' v,
            Examples.field_value py_eval (Examples.with_cached page0 c)
              (is_None (Examples.article_b page0)) scope
              (default_locators table) loc k' = inr v ->
            k' <> k).
  { intros k' v Hv ->. unfold Examples.field_value, Examples.loc_get in Hv.
    rewrite Hmiss in Hv. discriminate. }
  apply eval_fields_FIELDS in Hvs
    as (i & a & b & Hi & Ha & Hb & Hx).
  unfold Examples.FIELDS in Hk.
  repeat (apply elem_of_cons in Hk as [->|Hk]);
    try (apply elem_of_nil in Hk; contradiction).
  - exact (Hget _ _ Hi eq_refl).
  - exact (Hget _ _ Ha eq_refl).
  - exact (Hget _ _ Hb eq_refl).
  - destruct Hx as [[_ Hx]|(e & _ & Hx)].
    + unfold Examples.loc_get in Hx. rewrite Hmiss in Hx. discriminate.
    + exact (Hget _ _ Hx eq_refl).
Qed.

(** X10: an exception that does not derive from [Exception], such as
    [SystemExit], is not caught: raised by the first expression that is
    evaluated, it leaves [extract_examples] after that one call. *)
Theorem extract_examples_base_exception table html use_default page0
    loc locs src e :
  Examples.from_raw _get_soup str_tag repr html = inr page0 ->
  Examples.select_locators table page0 use_default = loc :: locs ->
  Examples.loc_get loc (default_locators table) "input_data"
    = inr (Some src) ->
  (forall scope, py_eval src scope = inl e) ->
  is_Exception e = false ->
  extract_examples table html use_default
  = ([mkCall "input_data" (Some src)], inl e).
Proof.
  intros Hraw Hlocs Hpos Hev He.
  pose proof (extract_examples_steps _get_soup str_tag repr py_eval
                table html use_default) as Hsteps.
  rewrite Hraw in Hsteps. destruct Hsteps as (c & scope & _ & ->).
  change (Examples.select_locators table (Examples.with_cached page0 c)
            use_default)
    with (Examples.select_locators table page0 use_default).
  rewrite Hlocs. cbn [Examples.scrape Examples.FIELDS Examples.eval_fields].
  rewrite M_bind_unfold, M_bind_lift, Hpos.
  cbn [String.eqb Ascii.eqb Bool.eqb andb].
  rewrite M_bind_called, M_bind_lift.
  unfold Examples.try_eval. now rewrite Hev, He.
Qed.

End Inheritance.

(** ** How much the loops do *)

Section Bounds.

Context (_get_soup : string -> node) (str_tag : node -> string)
  (repr : string -> string)
  (py_eval : string -> Examples.Scope -> result pyval).

Lemma eval_fields_calls page locked scope dflt loc : forall ks vals t r,
  Examples.eval_fields py_eval page locked scope dflt loc ks vals = (t, r) ->
  (length t <= length ks)%nat.
Proof.
  induction ks as [|k ks IH]; intros vals t r H.
  - injection H as <- _. reflexivity.
  - cbn [Examples.eval_fields] in H. rewrite M_bind_lift in H.
    destruct (Examples.loc_get loc dflt k) as [e|pos].
    { injection H as <- _. simpl. lia. }
    destruct (_ && _). { injection H as <- _. simpl. lia. }
    destruct (_ && _). { apply IH in H. simpl. lia. }
    rewrite M_bind_called in H.
    destruct (_ ≫= _) as [t0 r0] eqn:Hrest in H. injection H as <- _.
    rewrite M_bind_lift in Hrest.
    destruct (Examples.try_eval py_eval pos scope) as [e|val].
    { injection Hrest as <- _. simpl. lia. }
    rewrite M_bind_lift in Hrest.
    destruct (Examples.finish val) as [e|v].
    { injection Hrest as <- _. simpl. lia. }
    apply IH in Hrest. simpl. lia.
Qed.

Lemma scrape_calls page locked scope dflt : forall locs result t r,
  Examples.scrape py_eval page locked scope dflt locs result = (t, r) ->
  (length t <= 4 * length locs)%nat.
Proof.
  induction locs as [|loc locs IH]; intros result t r H.
  - injection H as <- _. simpl. lia.
  - cbn [Examples.scrape] in H. rewrite M_bind_unfold in H.
    destruct (Examples.eval_fields _ _ _ _ _ loc _ _) as [t1 [e|vals]] eqn:H1;
      apply eval_fields_calls in H1; cbn [length Examples.FIELDS] in H1.
    { injection H as <- _. simpl. lia. }
    destruct vals as [|[i|] rest].
    + injection H as <- _. rewrite length_app. simpl. lia.
    + rewrite M_bind_lift in H.
      destruct (Examples.Example_of _) as [e|ex].
      { injection H as <- _. rewrite length_app. simpl. lia. }
      destruct (Examples.scrape _ _ _ _ _ locs _) as [t2 r2] eqn:H2.
      injection H as <- _. apply IH in H2. rewrite length_app. simpl. lia.
    + destruct (Examples.scrape _ _ _ _ _ locs _) as [t2 r2] eqn:H2.
      injection H as <- _. apply IH in H2. rewrite length_app. simpl. lia.
Qed.

Lemma contribution_length vs : (length (Examples.contribution vs) <= 1)%nat.
Proof.
  unfold Examples.contribution.
  destruct vs as [|[i|] rest]; [simpl; lia| |simpl; lia].
  destruct (Examples.Example_of (Some i :: rest)); simpl; lia.
Qed.

(** X9: [extract_examples] calls [eval] at most four times for each
    locator it goes through, and returns at most one example for each. *)
Theorem extract_examples_bounds table html use_default page0 t r :
  Examples.from_raw _get_soup str_tag repr html = inr page0 ->
  Examples.extract_examples _get_soup str_tag repr py_eval table html
    use_default = (t, r) ->
  let locs := Examples.select_locators table page0 use_default in
  (length t <= 4 * length locs)%nat /\
  forall res, r = inr res -> (length res <= length locs)%nat.
Proof.
  intros Hraw H locs.
  pose proof (extract_examples_steps _get_soup str_tag repr py_eval
                table html use_default) as Hsteps.
  rewrite Hraw in Hsteps. destruct Hsteps as (c & scope & _ & Hs).
  rewrite Hs in H. clear Hs.
  change (Examples.select_locators table (Examples.with_cached page0 c)
            use_default) with locs in H.
  split; [eapply scrape_calls, H|].
  intros res ->. apply scrape_sound in H as [_ Hr].
  destruct (Hr _ eq_refl) as (vss & HF & ->). simpl.
  rewrite (Forall2_length _ _ _ HF). clear. induction vss as [|vs vss IH].
  - reflexivity.
  - cbn [flat_map]. rewrite length_app. pose proof (contribution_length vs).
    simpl. lia.
Qed.

End Bounds.

(** ** Scoring a whole year *)

Lemma zip_longest_diag {A : Type} (xs : list A) d :
  zip_longest xs xs d = List.map (fun x => (x, x)) xs.
Proof. induction xs as [|x xs IH]; simpl; [|rewrite IH]; reflexivity. Qed.

Section Year.

Context (_get_soup : string -> node) (str_tag : node -> string)
  (repr : string -> string) (_get_prose : Z -> Z -> string)
  (puzzle_examples : Z -> Z -> list Example)
  (plugin : Examples.Page -> list Example -> list Example).

Local Abbreviation from_raw := (Examples.from_raw _get_soup str_tag repr).
Local Abbreviation score_day :=
  (Examples.score_day _get_soup str_tag repr _get_prose puzzle_examples plugin).
Local Abbreviation score_days :=
  (Examples.score_days _get_soup str_tag repr _get_prose puzzle_examples
     plugin).
Local Abbreviation score_year :=
  (Examples.score_year _get_soup str_tag repr _get_prose puzzle_examples
     plugin).

(** X11: when the plugin returns exactly the expected examples, and part
    b is unlocked or no expected example has an [answer_b], nothing is
    logged, every mark of every row is true and nothing is appended to
    [wrong]. *)
Theorem score_day_perfect year day page :
  from_raw (_get_prose year day) = inr page ->
  plugin page [] = puzzle_examples year day ->
  is_None (Examples.article_b page) = false \/
  Forall (fun ex => answer_b ex = None) (puzzle_examples year day) ->
  exists rows,
    score_day year day = inr ([], rows, []) /\
    length rows = length (puzzle_examples year day) /\
    Forall (fun v => Examples.i2 v = true /\ Examples.i3 v = true /\
                     Examples.i4 v = true /\ Examples.i5 v = true) rows.
Proof.
  intros Hraw Hsame Hb. unfold Examples.score_day. rewrite Hraw, Hsame.
  rewrite Nat.eqb_refl. cbn [negb]. rewrite zip_longest_diag.
  set (locked := is_None (Examples.article_b page)) in *.
  assert (Hrow : forall i ex, In ex (puzzle_examples year day) ->
            Examples.score_row year day locked i ex ex
            = (Examples.mkVerdict i ex ex true true true true, [])).
  { intros i ex Hin. unfold Examples.score_row.
    rewrite !bool_decide_eq_true_2 by reflexivity.
    assert (H4 : (if locked then is_None (answer_b ex) else true) = true).
    { destruct Hb as [->|Hall]; [reflexivity|].
      rewrite Forall_forall in Hall.
      rewrite (Hall ex) by now apply list_elem_of_In.
      now destruct locked. }
    rewrite H4. cbn. now destruct (_ || _). }
  revert Hrow. generalize (puzzle_examples year day) 1. clear.
  intros exs. induction exs as [|ex exs IH]; intros start Hrow.
  - exists []. simpl. auto.
  - destruct (IH (start + 1)) as (rows & Heq & Hlen & Hall).
    { intros i ex' Hin. apply Hrow. now right. }
    injection Heq as Hrows Hwrong.
    exists (Examples.mkVerdict start ex ex true true true true :: rows).
    cbn [List.map enumerate flat_map fst snd].
    rewrite (Hrow start ex) by now left. cbn [fst snd app].
    rewrite Hrows, Hwrong. split; [reflexivity|].
    split; [simpl; now rewrite Hlen|]. constructor; [cbn; auto|exact Hall].
Qed.

Lemma score_days_parsed year : forall days logged table wrong,
  (forall day, day ∈ days ->
     exists page, from_raw (_get_prose year day) = inr page) ->
  exists logged' table' wrong',
    score_days year days logged table wrong = inr (logged', table', wrong').
Proof.
  induction days as [|day days IH]; intros logged table wrong Hall.
  - simpl. eauto.
  - cbn [Examples.score_days].
    destruct (Hall day) as [page Hpage]; [left|].
    unfold Examples.score_day. rewrite Hpage.
    apply IH. intros d Hd. apply Hall. now right.
Qed.

(** X12: the body of the loop over the years never completes.  [score]
    and [total] are still 0 when the last line divides one by the other,
    so a year whose 25 pages all parse ends in [ZeroDivisionError]; a year
    with a page that does not parse ends in the error of that page. *)
Theorem score_year_raises year wrong :
  (exists e, score_year year wrong = inl e) /\
  ((forall day, 1 <= day <= 25 ->
      exists page, from_raw (_get_prose year day) = inr page) ->
   score_year year wrong
   = inl (OtherException "ZeroDivisionError" "division by zero")).
Proof.
  unfold Examples.score_year. split.
  - destruct (Examples.score_days _ _ _ _ _ _ _ _ _ _ _) as [e|[[l tb] w]];
      eauto.
  - intros Hall.
    destruct (score_days_parsed year (seqZ 1 25) [] [] wrong)
      as (l & tb & w & ->); [|reflexivity].
    intros day Hd. apply Hall. apply elem_of_seqZ in Hd. lia.
Qed.

End Year.

(** ** Fixture files *)

Lemma rstrip_id s chars : ends_in s chars = false -> rstrip s chars = s.
Proof.
  induction s as [|c s IH]; [reflexivity|]. intros H. cbn [rstrip].
  destruct s as [|d s].
  - cbn in H. cbn. now rewrite H.
  - rewrite IH by exact H. reflexivity.
Qed.

Lemma rstrip_blank_suffix w : forall s,
  Fixtures.blank w = true -> rstrip (s +:+ w) WHITESPACE = rstrip s WHITESPACE.
Proof.
  assert (Hw : forall w, Fixtures.blank w = true -> rstrip w WHITESPACE = "").
  { induction w0 as [|c w0 IH]; [reflexivity|]. cbn [Fixtures.blank].
    intros H. apply andb_true_iff in H as [Hc H]. cbn [rstrip].
    now rewrite (IH H), Hc. }
  intros s H. induction s as [|c s IH].
  - cbn. now apply Hw.
  - change (String c s +:+ w) with (String c (s +:+ w)). cbn [rstrip].
    now rewrite IH.
Qed.

Lemma ends_in_lstrip s chars :
  ends_in s chars = false -> ends_in (lstrip s chars) chars = false.
Proof.
  induction s as [|c s IH]; [reflexivity|]. intros H. cbn [lstrip].
  destruct (char_in c chars) eqn:Hc; [|exact H].
  apply IH. destruct s; [reflexivity|exact H].
Qed.

Lemma lstrip_idem s chars : lstrip (lstrip s chars) chars = lstrip s chars.
Proof.
  induction s as [|c s IH]; [reflexivity|]. cbn [lstrip].
  destruct (char_in c chars) eqn:Hc; [exact IH|]. cbn [lstrip]. now rewrite Hc.
Qed.

Lemma char_in_rstrip c s chars :
  char_in c s = false -> char_in c (rstrip s chars) = false.
Proof.
  induction s as [|d s IH]; [reflexivity|]. cbn [char_in rstrip].
  intros H. apply orb_false_iff in H as [Hd H]. specialize (IH H).
  destruct (rstrip s chars).
  - destruct (char_in d chars); [reflexivity|]. cbn. now rewrite Hd.
  - cbn [char_in] in *. now rewrite Hd, IH.
Qed.

Lemma char_in_lstrip c s chars :
  char_in c s = false -> char_in c (lstrip s chars) = false.
Proof.
  induction s as [|d s IH]; [reflexivity|]. cbn [lstrip]. intros H.
  destruct (char_in d chars); [|exact H].
  apply IH. cbn [char_in] in H. now apply orb_false_iff in H as [_ H].
Qed.

(** The text before the first separator has no separator. *)
Lemma partition_head s sep :
  char_in sep (fst (fst (partition s sep))) = false.
Proof.
  induction s as [|c s IH]; [reflexivity|]. cbn [partition].
  destruct (Ascii.eqb c sep) eqn:Hc; [reflexivity|].
  destruct (partition s sep) as [[h m] t]. cbn in *.
  rewrite Ascii.eqb_sym, Hc. exact IH.
Qed.

Lemma partition_at s sep r :
  char_in sep s = false ->
  partition (s +:+ String sep r) sep = (s, String sep "", r).
Proof.
  induction s as [|c s IH]; intros H.
  - change ("" +:+ String sep r) with (String sep r). cbn [partition].
    now rewrite Ascii.eqb_refl.
  - cbn [char_in] in H. apply orb_false_iff in H as [Hc H].
    change (String c s +:+ String sep r) with (String c (s +:+ String sep r)).
    cbn [partition]. rewrite Ascii.eqb_sym, Hc, (IH H). reflexivity.
Qed.

Lemma partition_none s sep :
  char_in sep s = false -> partition s sep = (s, "", "").
Proof.
  induction s as [|c s IH]; intros H; [reflexivity|].
  cbn [char_in] in H. apply orb_false_iff in H as [Hc H].
  cbn [partition]. rewrite Ascii.eqb_sym, Hc, (IH H). reflexivity.
Qed.

Lemma char_in_app c s w :
  char_in c (s +:+ w) = char_in c s || char_in c w.
Proof.
  induction s as [|d s IH]; [reflexivity|].
  change (String d s +:+ w) with (String d (s +:+ w)). cbn [char_in].
  now rewrite IH, orb_assoc.
Qed.

Lemma blank_no_hash w : Fixtures.blank w = true -> char_in "#" w = false.
Proof.
  induction w as [|c w IH]; [reflexivity|]. cbn [Fixtures.blank char_in].
  intros H. apply andb_true_iff in H as [Hc H]. rewrite (IH H), orb_false_r.
  destruct (Ascii.eqb "#" c) eqn:Heq; [|reflexivity].
  apply Ascii.eqb_eq in Heq. subst c. discriminate.
Qed.

Lemma append_nil_r s : s +:+ "" = s.
Proof.
  induction s as [|c s IH]; [reflexivity|].
  change (String c s +:+ "") with (String c (s +:+ "")). now rewrite IH.
Qed.

Lemma append_assoc (s1 s2 s3 : string) :
  (s1 +:+ s2) +:+ s3 = s1 +:+ (s2 +:+ s3).
Proof.
  induction s1 as [|c s1 IH]; [reflexivity|].
  change ((String c s1 +:+ s2) +:+ s3) with (String c ((s1 +:+ s2) +:+ s3)).
  now rewrite IH.
Qed.

(** What [answer_of] returns is clean. *)
Lemma answer_of_clean line : Fixtures.clean (Fixtures.answer_of line).
Proof.
  unfold Fixtures.answer_of, Fixtures.clean, strip.
  pose proof (partition_head line "#") as Hh.
  destruct (partition line "#") as [[h m] t]. cbn in Hh.
  split; [|split].
  - apply ends_in_lstrip, rstrip_ends_in.
  - apply lstrip_idem.
  - now apply char_in_lstrip, char_in_rstrip.
Qed.

(** Reading an answer line gives back the answer written on it. *)
Lemma answer_of_line a w comment :
  Fixtures.clean a -> Fixtures.blank w = true ->
  Fixtures.answer_of (Fixtures.answer_line a w comment) = a.
Proof.
  intros (Hend & Hstart & Hhash) Hw.
  assert (Hno : char_in "#" (a +:+ w) = false)
    by (rewrite char_in_app, Hhash; now apply blank_no_hash).
  assert (Hstrip : strip (a +:+ w) = a).
  { unfold strip. rewrite (rstrip_blank_suffix _ _ Hw), (rstrip_id _ _ Hend).
    exact Hstart. }
  unfold Fixtures.answer_of, Fixtures.answer_line. destruct comment as [text|].
  - rewrite <- append_assoc, (partition_at _ _ _ Hno). exact Hstrip.
  - rewrite append_nil_r, (partition_none _ _ Hno). exact Hstrip.
Qed.

Lemma example_of_lines_error ls e :
  Fixtures.example_of_lines ls = inl e ->
  e = IndexError "list index out of range" /\ (length ls < 2)%nat.
Proof.
  unfold Fixtures.example_of_lines.
  destruct (length ls <? 2)%nat eqn:Hn.
  - intros [= <-]. apply Nat.ltb_lt in Hn. auto.
  - apply Nat.ltb_ge in Hn.
    destruct (lookup_lt_is_Some_2 ls (length ls - 2)) as [la ->]; [lia|].
    destruct (lookup_lt_is_Some_2 ls (length ls - 1)) as [lb ->]; [lia|].
    discriminate.
Qed.

Lemma example_of_lines_short ls :
  (length ls < 2)%nat ->
  Fixtures.example_of_lines ls = inl (IndexError "list index out of range").
Proof.
  intros H. unfold Fixtures.example_of_lines.
  apply Nat.ltb_lt in H. now rewrite H.
Qed.

Lemma read_examples_outcome : forall files examples,
  match Fixtures.read_examples files examples with
  | inr found =>
      exists new, found = examples ++ new /\
        Forall2 (fun p ex => Fixtures.example_of_lines (Fixtures.lines p)
                             = inr ex)
          (List.filter (fun p => negb (Fixtures.blacklisted p)) files) new
  | inl e =>
      e = IndexError "list index out of range" /\
      Exists (fun p => (length (Fixtures.lines p) < 2)%nat)
        (List.filter (fun p => negb (Fixtures.blacklisted p)) files)
  end.
Proof.
  induction files as [|p files IH]; intros examples.
  - exists []. rewrite app_nil_r. split; [reflexivity|constructor].
  - cbn [Fixtures.read_examples List.filter].
    destruct (Fixtures.blacklisted p); cbn [negb]; [apply IH|].
    destruct (Fixtures.example_of_lines (Fixtures.lines p)) as [e|ex] eqn:Hex.
    + apply example_of_lines_error in Hex as [-> Hlen].
      split; [reflexivity|]. now left.
    + specialize (IH (examples ++ [ex])).
      destruct (Fixtures.read_examples files (examples ++ [ex])) as [e|found].
      * destruct IH as [-> Hex']. split; [reflexivity|]. now right.
      * destruct IH as (new & -> & HF). exists (ex :: new).
        rewrite <- app_assoc. split; [reflexivity|]. now constructor.
Qed.

Section GetActual.

Context (sorted_glob : Z -> Z -> list Fixtures.fixture).

(** X13: [get_actual] skips every file whose name contains a blacklisted
    word, whatever the file holds, and reads the others in order: it
    returns one example for each of them when each has at least two
    lines, and raises [IndexError] as soon as one has fewer. *)
Theorem get_actual_outcome year day :
  let kept :=
    List.filter (fun p => negb (Fixtures.blacklisted p))
      (sorted_glob year day) in
  match Fixtures.get_actual sorted_glob year day with
  | inr found =>
      Forall2 (fun p ex => Fixtures.example_of_lines (Fixtures.lines p)
                           = inr ex) kept found /\
      Forall (fun p => (2 <= length (Fixtures.lines p))%nat) kept
  | inl e =>
      e = IndexError "list index out of range" /\
      Exists (fun p => (length (Fixtures.lines p) < 2)%nat) kept
  end.
Proof.
  intros kept. unfold Fixtures.get_actual.
  pose proof (read_examples_outcome (sorted_glob year day) []) as H.
  destruct (Fixtures.read_examples _ _) as [e|found]; [exact H|].
  destruct H as (new & -> & HF). fold kept in HF. split; [exact HF|].
  clear -HF. induction HF as [|p ex ps exs Hp _ IH]; constructor; [|exact IH].
  destruct (Nat.lt_ge_cases (length (Fixtures.lines p)) 2) as [Hlt|]; [|assumption].
  rewrite (example_of_lines_short _ Hlt) in Hp. discriminate.
Qed.

End GetActual.

(** X14: an example read from a fixture has its input data without a
    line end at its end, no extra, and answers that are either [None] or
    a text without whitespace at either end, without ["#"], and other
    than the placeholder ["-"]. *)
Theorem example_of_lines_normal ls ex :
  Fixtures.example_of_lines ls = inr ex ->
  (exists s, input_data ex = Some s /\ ends_in s ExampleParser.CRLF = false) /\
  extra ex = None /\
  (forall a, answer_a ex = Some a -> Fixtures.clean a /\ a <> "-") /\
  (forall b, answer_b ex = Some b -> Fixtures.clean b /\ b <> "-").
Proof.
  unfold Fixtures.example_of_lines.
  destruct (length ls <? 2)%nat; [discriminate|].
  destruct (ls !! _) as [la|]; [|discriminate].
  destruct (ls !! _) as [lb|]; [|discriminate].
  intros [= <-]. cbn.
  assert (Hp : forall line a,
            Fixtures.placeholder (Fixtures.answer_of line) = Some a ->
            Fixtures.clean a /\ a <> "-").
  { intros line a. unfold Fixtures.placeholder.
    destruct (String.eqb (Fixtures.answer_of line) "-") eqn:Heq;
      [discriminate|].
    intros [= <-]. split; [apply answer_of_clean|].
    now apply String.eqb_neq. }
  split; [eexists; split; [reflexivity|apply rstrip_ends_in]|].
  split; [reflexivity|]. split; apply Hp.
Qed.

(** X15: a fixture written as the lines of the input followed by the
    line of each answer reads back as the input without its final line
    ends and the two answers, with [None] where the placeholder ["-"]
    was written; whitespace and a comment after an answer are dropped. *)
Theorem example_of_lines_round_trip input a wa ca b wb cb :
  Fixtures.clean a -> Fixtures.blank wa = true ->
  Fixtures.clean b -> Fixtures.blank wb = true ->
  Fixtures.example_of_lines
    (input ++ [Fixtures.answer_line a wa ca; Fixtures.answer_line b wb cb])
  = inr (mkExample
           (Some (rstrip (String.concat "" input) ExampleParser.CRLF))
           (Fixtures.placeholder a) (Fixtures.placeholder b) None).
Proof.
  intros Ha Hwa Hb Hwb. unfold Fixtures.example_of_lines.
  rewrite length_app. cbn [length].
  replace (length input + 2 - 2)%nat with (length input) by lia.
  replace (length input + 2 - 1)%nat with (length input + 1)%nat by lia.
  destruct (length input + 2 <? 2)%nat eqn:Hn;
    [apply Nat.ltb_lt in Hn; lia|].
  rewrite take_app_length.
  rewrite (lookup_app_r input) by lia.
  rewrite (lookup_app_r input) by lia.
  replace (length input - length input)%nat with 0%nat by lia.
  replace (length input + 1 - length input)%nat with 1%nat by lia.
  cbn [lookup list_lookup].
  now rewrite (answer_of_line _ _ _ Ha Hwa), (answer_of_line _ _ _ Hb Hwb).
Qed.

(** ** [_trunc] *)

Lemma len_append (a b : string) : len (a +:+ b) = len a + len b.
Proof.
  unfold len. induction a as [|c a IH]; [reflexivity|].
  change (String c a +:+ b) with (String c (a +:+ b)).
  cbn [String.length]. lia.
Qed.

Lemma len_nonneg s : 0 <= len s.
Proof. unfold len. lia. Qed.

Lemma take_chars_len n : forall s,
  (n <= String.length s)%nat -> len (take_chars n s) = Z.of_nat n.
Proof.
  unfold len. induction n as [|n IH]; intros s H; [destruct s; reflexivity|].
  destruct s as [|c s]; [simpl in H; lia|].
  cbn [take_chars String.length]. cbn [String.length] in H.
  rewrite Nat2Z.inj_succ, IH by lia. lia.
Qed.

Lemma take_chars_prefix n : forall s x,
  (n <= String.length s)%nat ->
  take_chars n (take_chars n s +:+ x) = take_chars n s.
Proof.
  induction n as [|n IH]; intros s x H.
  - destruct s; cbn; destruct x; reflexivity.
  - destruct s as [|c s]; [simpl in H; lia|].
    cbn [take_chars]. change (String c (take_chars n s) +:+ x)
      with (String c (take_chars n s +:+ x)).
    cbn [take_chars]. rewrite IH; [reflexivity|]. cbn [String.length] in H. lia.
Qed.

(** X16: with a limit that is not negative, [_trunc] keeps the first
    [maxlen] characters of a text, returns a text of at most [maxlen]
    characters as it is, and never returns more than [maxlen] characters
    plus the 13 of the note and the digits of the length. *)
Theorem trunc_bounded s maxlen r :
  0 <= maxlen ->
  Examples._trunc (Some s) maxlen = Some r ->
  take_chars (Z.to_nat maxlen) r = take_chars (Z.to_nat maxlen) s /\
  len r <= maxlen + 13 + len (format_d (len s)) /\
  (len s <= maxlen -> r = s).
Proof.
  intros Hm. unfold Examples._trunc.
  destruct (len s <=? maxlen) eqn:Hle.
  - intros [= <-]. apply Z.leb_le in Hle.
    pose proof (len_nonneg (format_d (len s))). repeat split; auto. lia.
  - intros [= <-]. apply Z.leb_gt in Hle.
    unfold slice_to. destruct (maxlen <? 0) eqn:Hneg;
      [apply Z.ltb_lt in Hneg; lia|].
    assert (Hn : (Z.to_nat maxlen <= String.length s)%nat)
      by (unfold len in Hle; lia).
    split; [now apply take_chars_prefix|]. split; [|lia].
    rewrite !len_append, (take_chars_len _ _ Hn).
    change (len " ... (") with 6. change (len " bytes)") with 7. lia.
Qed.

Lemma trunc_bounded_witness :
  exists r,
    Examples._trunc (Some Demo.sixty) 50 = Some r /\
    take_chars 50 r = take_chars 50 Demo.sixty /\ len r <= 65.
Proof.
  eexists. split; [reflexivity|].
  destruct (trunc_bounded Demo.sixty 50 _ ltac:(lia) eq_refl) as (H1 & H2 & _).
  split; [exact H1|exact H2].
Defined.

(** ** The two files side by side *)

Section Siblings.

Context (_get_soup : string -> node) (str_tag : node -> string)
  (repr : string -> string)
  (py_eval : string -> gmap string node -> result pyval).

(** X17: [Page.from_raw] is the same function in both files: on every
    document the two raise the same error or build pages with the same
    fields. *)
Theorem from_raw_same_in_both html :
  Examples.from_raw _get_soup str_tag repr html =
  match ExampleParser.from_raw _get_soup str_tag repr html with
  | inl e => inl e
  | inr q => inr (page_of_older q)
  end.
Proof.
  unfold Examples.from_raw, ExampleParser.from_raw.
  destruct (find (_get_soup html) "title") as [title|]; [|reflexivity].
  destruct (match_title (text title)) as [[d y]|]; [|reflexivity].
  destruct (find_all (_get_soup html) "article") as [|a [|b [|c rest]]];
    reflexivity.
Qed.

(** X18: whenever [extract_examples] of [example_parser.py] returns, the
    loop of [examples.py], run on the same page, table and evaluator,
    makes the same calls and returns the same examples: the newer loop
    only adds the joining of sequences, where the older one raises. *)
Theorem older_extract_refined table html t res :
  ExampleParser.extract_examples _get_soup str_tag repr py_eval table html
    = (t, inr res) ->
  exists q,
    ExampleParser.from_raw _get_soup str_tag repr html = inr q /\
    let scope : gmap string node := {[ "soup" := ExampleParser.soup q ]} in
    Examples.scrape (eval_of_older py_eval scope) (page_of_older q)
      (is_None (ExampleParser.b q)) ∅ (default_locators table)
      (Examples.select_locators table (page_of_older q) false) []
    = (t, inr res).
Proof.
  unfold ExampleParser.extract_examples. rewrite M_bind_lift.
  destruct (ExampleParser.from_raw _ _ _ html) as [e|q]; [discriminate|].
  intros H. exists q. split; [reflexivity|]. cbv zeta.
  apply older_scrape_sim in H as (t' & r' & H & Hr).
  destruct (Hr _ eq_refl) as [-> ->]. rewrite app_nil_r in H. exact H.
Qed.

End Siblings.

(** ** The further properties on concrete pages *)

Lemma getattr_cached_witness :
  exists v page',
    Examples.getattr Demo.page_open "a_code" = (inr v, page') /\
    Examples.cached page' !! "a_code" = Some v /\
    Examples.getattr page' "a_code" = (inr v, page').
Proof.
  eexists _, _. split; [vm_compute; reflexivity|].
  match goal with
  | |- Examples.cached ?p !! _ = Some ?v /\ _ =>
      destruct (getattr_cached Demo.page_open "a_code" v p) as (H1 & _ & H3)
  end.
  - left. apply (bool_decide_unpack _). vm_compute. exact I.
  - vm_compute. reflexivity.
  - split; [exact H1|exact H3].
Defined.

Lemma build_scope_binds_views_witness :
  exists c scope,
    Examples.build_scope Demo.page_locked ["a"]
      = inr (Examples.with_cached Demo.page_locked c, scope) /\
    scope !! "a_code"
      = Some (Examples.BVal
                (VList [VStr ("1" +:+ nl +:+ "2" +:+ nl +:+ "3"); VStr "x";
                        VStr "y"])) /\
    scope !! "b_code" = None.
Proof.
  destruct (build_scope_binds_views Demo.get_soup Demo.str_tag Demo.repr
              Demo.html_locked Demo.page_locked eq_refl)
    as (c & scope & Hb & _ & Ha & Hnone).
  exists c, scope. split; [exact Hb|]. split.
  - destruct (Ha "code") as [H _].
    + apply (bool_decide_unpack _). vm_compute. exact I.
    + exact H.
  - exact (Hnone "code").
Defined.

Lemma extract_examples_stripped_witness :
  exists t res,
    Demo.extract Demo.table_2022_05 Demo.html_open false = (t, inr res) /\
    Forall (fun ex => forall k s, Examples.field_of ex k = Some s ->
                        ends_in s Examples.CRLF = false) res.
Proof.
  destruct (Demo.extract Demo.table_2022_05 Demo.html_open false)
    as [t [e|res]] eqn:H; [vm_compute in H; discriminate|].
  exists t, res. split; [reflexivity|].
  exact (extract_examples_stripped Demo.get_soup Demo.str_tag Demo.repr
           Demo.py_eval Demo.table_2022_05 Demo.html_open false t res H).
Defined.

Lemma extract_examples_needs_default_keys_witness :
  exists e, snd (Demo.extract Demo.table_no_extra Demo.html_locked false)
            = inl e.
Proof.
  apply (extract_examples_needs_default_keys Demo.get_soup Demo.str_tag
           Demo.repr Demo.py_eval Demo.table_no_extra Demo.html_locked false
           Demo.page_locked "extra").
  - reflexivity.
  - apply (bool_decide_unpack _). vm_compute. exact I.
  - vm_compute. reflexivity.
  - vm_compute. discriminate.
Defined.

Lemma extract_examples_bounds_witness :
  (length (fst (Demo.extract Demo.table_2022_05 Demo.html_open false))
   <= 12)%nat.
Proof.
  destruct (extract_examples_bounds Demo.get_soup Demo.str_tag Demo.repr
              Demo.py_eval Demo.table_2022_05 Demo.html_open false
              Demo.page_open _ _ eq_refl (surjective_pairing _)) as [H _].
  exact H.
Defined.

Lemma extract_examples_base_exception_witness :
  Demo.extract Demo.table_exit Demo.html_locked false
  = ([mkCall "input_data" (Some "exit()")], inl SystemExit).
Proof.
  eapply (extract_examples_base_exception Demo.get_soup Demo.str_tag
            Demo.repr Demo.py_eval Demo.table_exit Demo.html_locked false
            Demo.page_locked).
  - reflexivity.
  - vm_compute. reflexivity.
  - vm_compute. reflexivity.
  - intros scope. reflexivity.
  - reflexivity.
Defined.

Lemma score_day_perfect_witness :
  exists rows,
    Examples.score_day Demo.get_soup Demo.str_tag Demo.repr
      (fun _ _ => Demo.html_open) Demo.puzzle_examples Demo.plugin_perfect
      2022 5 = inr ([], rows, []) /\
    length rows = 2%nat.
Proof.
  destruct (score_day_perfect Demo.get_soup Demo.str_tag Demo.repr
              (fun _ _ => Demo.html_open) Demo.puzzle_examples
              Demo.plugin_perfect 2022 5 Demo.page_open eq_refl eq_refl)
    as (rows & H & Hlen & _).
  - left. reflexivity.
  - exists rows. split; [exact H|exact Hlen].
Defined.

Lemma score_year_raises_witness :
  Examples.score_year Demo.get_soup Demo.str_tag Demo.repr Demo.prose
    Demo.puzzle_examples Demo.plugin 2022 []
  = inl (OtherException "ZeroDivisionError" "division by zero").
Proof.
  apply (score_year_raises Demo.get_soup Demo.str_tag Demo.repr Demo.prose
           Demo.puzzle_examples Demo.plugin 2022 []).
  intros day _. exists Demo.page_locked. reflexivity.
Defined.

Lemma example_of_lines_normal_witness :
  exists ex,
    Fixtures.example_of_lines (Fixtures.lines Demo.fixture_good) = inr ex /\
    answer_a ex = Some "y" /\ answer_b ex = None /\ extra ex = None.
Proof.
  eexists. split; [vm_compute; reflexivity|].
  destruct (example_of_lines_normal (Fixtures.lines Demo.fixture_good) _
              eq_refl) as (_ & He & _).
  split; [reflexivity|]. split; [reflexivity|exact He].
Defined.

Lemma example_of_lines_round_trip_witness :
  Fixtures.example_of_lines (Fixtures.lines Demo.fixture_good)
  = inr (mkExample (Some ("1" +:+ nl +:+ "2" +:+ nl +:+ "3")) (Some "y")
           None None).
Proof.
  refine (example_of_lines_round_trip
            ["1" +:+ nl; "2" +:+ nl; "3" +:+ nl]
            "y" "  " (Some (" part one" +:+ nl)) "-" nl None _ _ _ _);
    repeat split; vm_compute; reflexivity.
Defined.

Lemma older_extract_refined_witness :
  exists t res,
    ExampleParser.extract_examples Demo.get_soup Demo.str_tag Demo.repr
      Demo.older_eval (mkLocators Demo.older_default ∅) Demo.html_open
    = (t, inr res) /\
    Examples.scrape
      (eval_of_older Demo.older_eval
         {[ "soup" := Demo.get_soup Demo.html_open ]})
      Demo.page_open false ∅ Demo.older_default [Demo.older_default] []
    = (t, inr res).
Proof.
  destruct (ExampleParser.extract_examples Demo.get_soup Demo.str_tag
              Demo.repr Demo.older_eval (mkLocators Demo.older_default ∅)
              Demo.html_open) as [t [e|res]] eqn:H;
    [vm_compute in H; discriminate|].
  exists t, res. split; [reflexivity|].
  destruct (older_extract_refined Demo.get_soup Demo.str_tag Demo.repr
              Demo.older_eval _ _ t res H) as (q & Hq & Hs).
  vm_compute in Hq. injection Hq as <-. exact Hs.
Defined.

Lemma older_answer_b_absent_witness :
  exists t res,
    ExampleParser.extract_examples Demo.get_soup Demo.str_tag Demo.repr
      Demo.older_eval (mkLocators Demo.older_default ∅) Demo.html_day25
    = (t, inr res) /\
    Forall (fun c => call_field c <> "answer_b") t /\
    Forall (fun ex => answer_b ex = None /\ input_data ex <> None) res.
Proof.
  destruct (older_answer_b_absent Demo.get_soup Demo.str_tag Demo.repr
              Demo.older_eval (mkLocators Demo.older_default ∅)
              Demo.html_day25 Demo.older_page eq_refl) as [Ht H].
  - left. reflexivity.
  - destruct (ExampleParser.extract_examples Demo.get_soup Demo.str_tag
                Demo.repr Demo.older_eval (mkLocators Demo.older_default ∅)
                Demo.html_day25) as [t [e|res]] eqn:Hx;
      [vm_compute in Hx; discriminate|].
    exists t, res. split; [reflexivity|]. split; [exact Ht|].
    exact (H res eq_refl).
Defined.

(** ** Both files under benign outcomes *)

Section OlderPlain.

Context (py_eval : string -> gmap string node -> result pyval)
  (q : ExampleParser.Page) (part_b_locked : bool)
  (scope : gmap string node) (dflt : Locator).

Local Abbreviation older_fields :=
  (ExampleParser.eval_fields py_eval q part_b_locked scope dflt).
Local Abbreviation newer_fields :=
  (Examples.eval_fields (eval_of_older py_eval scope) (page_of_older q)
     part_b_locked ∅ dflt).
Local Abbreviation older_scrape :=
  (ExampleParser.scrape py_eval q part_b_locked scope dflt).
Local Abbreviation newer_scrape :=
  (Examples.scrape (eval_of_older py_eval scope) (page_of_older q)
     part_b_locked ∅ dflt).

(** A plain outcome leaves [None] or a string after the [try]
    statement. *)
Lemma try_eval_plain pos :
  (forall src, pos = Some src -> plain (py_eval src scope) = true) ->
  ExampleParser.try_eval py_eval pos scope = inr VNone \/
  exists s, ExampleParser.try_eval py_eval pos scope = inr (VStr s).
Proof.
  intros H. unfold ExampleParser.try_eval. destruct pos as [src|]; [|auto].
  specialize (H src eq_refl).
  destruct (py_eval src scope) as [e|v]; cbn in H.
  - rewrite H. auto.
  - destruct v; try discriminate; eauto.
Qed.

(** On plain outcomes the two loops over the fields are the same. *)
Lemma older_eval_fields_plain loc : forall ks vals,
  (forall k src, k ∈ ks ->
     ExampleParser.loc_get loc dflt k = inr (Some src) ->
     plain (py_eval src scope) = true) ->
  older_fields loc ks vals = newer_fields loc ks vals.
Proof.
  induction ks as [|k ks IH]; intros vals H; [reflexivity|].
  assert (Hks : forall k' src, k' ∈ ks ->
            ExampleParser.loc_get loc dflt k' = inr (Some src) ->
            plain (py_eval src scope) = true).
  { intros k' src Hk'. apply H. now right. }
  cbn [ExampleParser.eval_fields Examples.eval_fields].
  change (Examples.loc_get loc dflt k)
    with (ExampleParser.loc_get loc dflt k).
  rewrite !M_bind_lift.
  destruct (ExampleParser.loc_get loc dflt k) as [e|pos] eqn:Hpos;
    [reflexivity|].
  change (Examples.day (page_of_older q)) with (ExampleParser.day q).
  destruct (String.eqb k "extra" && is_None pos); [reflexivity|].
  destruct (String.eqb k "answer_b"
            && (part_b_locked || (ExampleParser.day q =? 25)));
    [now apply IH|].
  rewrite !M_bind_called.
  change (Examples.try_eval (eval_of_older py_eval scope) pos ∅)
    with (ExampleParser.try_eval py_eval pos scope).
  rewrite !M_bind_lift.
  destruct (try_eval_plain pos) as [->|[s ->]].
  { intros src ->. apply (H k src); [left|exact Hpos]. }
  - rewrite !M_bind_lift.
    change (ExampleParser.finish VNone) with (inr None : result (option string)).
    change (Examples.finish VNone) with (inr None : result (option string)).
    cbv beta iota. now rewrite (IH _ Hks).
  - rewrite !M_bind_lift.
    change (Examples.finish (VStr s)) with (ExampleParser.finish (VStr s)).
    destruct (ExampleParser.finish (VStr s)); [reflexivity|].
    now rewrite (IH _ Hks).
Qed.

(** On plain outcomes the two loops over the locators are the same. *)
Lemma older_scrape_plain : forall locs result,
  (forall loc k src, loc ∈ locs -> k ∈ Examples.FIELDS ->
     ExampleParser.loc_get loc dflt k = inr (Some src) ->
     plain (py_eval src scope) = true) ->
  older_scrape locs result = newer_scrape locs result.
Proof.
  induction locs as [|loc locs IH]; intros result H; [reflexivity|].
  assert (Hlocs : forall loc' k src, loc' ∈ locs -> k ∈ Examples.FIELDS ->
            ExampleParser.loc_get loc' dflt k = inr (Some src) ->
            plain (py_eval src scope) = true).
  { intros loc' k src Hl. apply H. now right. }
  cbn [ExampleParser.scrape Examples.scrape].
  change ExampleParser.FIELDS with Examples.FIELDS.
  rewrite older_eval_fields_plain by (intros k src; apply H; left).
  apply M_bind_ext. intros [|[i|] rest]; [reflexivity| |now apply IH].
  change (Examples.Example_of (Some i :: rest))
    with (ExampleParser.Example_of (Some i :: rest)).
  apply M_bind_ext. intros ex. now apply IH.
Qed.

End OlderPlain.

Lemma plain_benign outcome : plain outcome = true -> Examples.benign outcome = true.
Proof.
  destruct outcome as [e|v]; [auto|]. destruct v; try discriminate; reflexivity.
Qed.

Section AbsorbsInBoth.

Context (_get_soup : string -> node) (str_tag : node -> string)
  (repr : string -> string)
  (py_eval : string -> Examples.Scope -> result pyval)
  (older_eval : string -> gmap string node -> result pyval).

(** C2, as amended: once the page is parsed, an [Exception] raised while
    an expression is evaluated leaves [None] in its field and the loop
    goes on, in both files.  With a default locator that has the four
    keys, [extract_examples] of [examples.py] returns when every
    expression of the selected entries either raises an [Exception] or
    gives [None], a string, or a list or tuple of strings; the one of
    [example_parser.py] returns when every such expression either raises
    an [Exception] or gives [None] or a string.  In both, every selected
    entry then has all its fields evaluated and the result is made of the
    contributions of the entries. *)
Theorem extract_examples_absorbs_in_both table html use_default page0 :
  Examples.from_raw _get_soup str_tag repr html = inr page0 ->
  (forall k, k ∈ Examples.FIELDS -> is_Some (default_locators table !! k)) ->
  ((forall c scope loc k src,
      Examples.build_scope page0
        (Examples.parts_of (is_None (Examples.article_b page0)))
        = inr (Examples.with_cached page0 c, scope) ->
      loc ∈ Examples.select_locators table (Examples.with_cached page0 c)
              use_default ->
      k ∈ Examples.FIELDS ->
      Examples.loc_get loc (default_locators table) k = inr (Some src) ->
      Examples.benign (py_eval src scope) = true) ->
   exists t res c scope vss,
     let page := Examples.with_cached page0 c in
     let locked := is_None (Examples.article_b page0) in
     let dflt := default_locators table in
     Examples.build_scope page0 (Examples.parts_of locked)
       = inr (page, scope) /\
     Examples.extract_examples _get_soup str_tag repr py_eval table html
       use_default = (t, inr res) /\
     Forall2 (Examples.entry_values py_eval page locked scope dflt)
       (Examples.select_locators table page use_default) vss /\
     res = flat_map Examples.contribution vss /\
     forall loc k,
       Examples.fails py_eval scope dflt loc k ->
       Examples.field_value py_eval page locked scope dflt loc k = inr None)
  /\
  (forall q,
     ExampleParser.from_raw _get_soup str_tag repr html = inr q ->
     let scope : gmap string node := {[ "soup" := ExampleParser.soup q ]} in
     let page := page_of_older q in
     let locked := is_None (ExampleParser.b q) in
     let dflt := default_locators table in
     let locs := Examples.select_locators table page false in
     (forall loc k src, loc ∈ locs -> k ∈ Examples.FIELDS ->
        ExampleParser.loc_get loc dflt k = inr (Some src) ->
        plain (older_eval src scope) = true) ->
     exists t res vss,
       ExampleParser.extract_examples _get_soup str_tag repr older_eval
         table html = (t, inr res) /\
       Forall2 (Examples.entry_values (eval_of_older older_eval scope) page
                  locked ∅ dflt) locs vss /\
       res = flat_map Examples.contribution vss /\
       forall loc k,
         Examples.fails (eval_of_older older_eval scope) ∅ dflt loc k ->
         Examples.field_value (eval_of_older older_eval scope) page locked ∅
           dflt loc k = inr None).
Proof.
  intros Hraw Hkeys. split.
  - intros Hev.
    exact (extract_examples_absorbs _get_soup str_tag repr py_eval table
             html use_default page0 Hraw Hkeys Hev).
  - intros q Hq scope page locked dflt locs Hev.
    unfold ExampleParser.extract_examples. rewrite M_bind_lift, Hq.
    change (default [default_locators table]
              (puzzles table !! (format_d (ExampleParser.year q) +:+ "/"
                                 +:+ format_02d (ExampleParser.day q))))
      with locs.
    fold scope locked dflt.
    rewrite (older_scrape_plain older_eval q locked scope dflt locs [] Hev).
    fold page.
    destruct (scrape_complete (eval_of_older older_eval scope) page locked ∅
                dflt locs []) as (t & res & Hscrape).
    { intros loc k Hloc Hk. apply field_value_benign; [now apply Hkeys|].
      intros src Hpos. apply plain_benign. exact (Hev loc k src Hloc Hk Hpos). }
    pose proof (scrape_sound _ _ _ _ _ _ _ _ _ Hscrape) as [_ Hr].
    destruct (Hr _ eq_refl) as (vss & HF & Hres).
    exists t, res, vss. split; [exact Hscrape|]. split; [|split; [exact Hres|]].
    + eapply Forall2_impl; [exact HF|]. intros loc vs (t' & Hvs).
      eapply eval_fields_FIELDS, Hvs.
    + intros loc k. apply field_value_fails.
Qed.

End AbsorbsInBoth.

(** C2 on the table with two entries for 2022/05, one in the words of
    each file: every expression gives a string or raises on an unbound
    name, and both extractions return, each with the example of the
    entry written for it. *)
Lemma extract_examples_absorbs_in_both_witness :
  (exists t,
     Demo.extract Demo.table_both Demo.html_open false
     = (t, inr [mkExample (Some ("1" +:+ nl +:+ "2" +:+ nl +:+ "3"))
                  (Some "y") (Some "z") None])) /\
  (exists t,
     ExampleParser.extract_examples Demo.get_soup Demo.str_tag Demo.repr
       Demo.older_eval Demo.table_both Demo.html_open
     = (t, inr [mkExample (Some ("1" +:+ nl +:+ "2" +:+ nl +:+ "3"))
                  (Some ("1" +:+ nl +:+ "2" +:+ nl +:+ "3"))
                  (Some ("1" +:+ nl +:+ "2" +:+ nl +:+ "3")) None])).
Proof.
  assert (Hlocs : forall c,
            Examples.select_locators Demo.table_both
              (Examples.with_cached Demo.page_open c) false
            = [ (∅ : Locator); Demo.older_default ])
    by (intros c; vm_compute; reflexivity).
  destruct (extract_examples_absorbs_in_both Demo.get_soup Demo.str_tag
              Demo.repr Demo.py_eval Demo.older_eval Demo.table_both
              Demo.html_open false Demo.page_open eq_refl) as [HA HB].
  { intros k Hk. unfold Examples.FIELDS in Hk.
    repeat (apply elem_of_cons in Hk as [->|Hk]);
      try (apply elem_of_nil in Hk; contradiction);
      vm_compute; eauto. }
  split.
  - destruct HA as (t & res & _ & _ & _ & _ & H & _).
    + intros c scope loc k src Hb Hloc Hk Hpos.
      assert (Hs : scope = Demo.scope_open).
      { assert (Hparts : Examples.parts_of
                           (is_None (Examples.article_b Demo.page_open))
                         = ["a"; "b"]) by (vm_compute; reflexivity).
        rewrite Hparts in Hb. unfold Demo.scope_open. now rewrite Hb. }
      subst scope. rewrite Hlocs in Hloc. clear Hb.
      unfold Examples.FIELDS in Hk.
      repeat (apply elem_of_cons in Hloc as [->|Hloc]);
        try (apply elem_of_nil in Hloc; contradiction);
        repeat (apply elem_of_cons in Hk as [->|Hk]);
        try (apply elem_of_nil in Hk; contradiction);
        vm_compute in Hpos; try discriminate;
        injection Hpos as <-; vm_compute; reflexivity.
    + vm_compute in H. injection H as Ht _. exists t. rewrite <- Ht.
      vm_compute. reflexivity.
  - destruct (HB Demo.older_page_open eq_refl) as (t & res & _ & H & _).
    + intros loc k src Hloc Hk Hpos.
      change (page_of_older Demo.older_page_open)
        with (Examples.with_cached Demo.page_open ∅) in Hloc.
      rewrite Hlocs in Hloc. unfold Examples.FIELDS in Hk.
      repeat (apply elem_of_cons in Hloc as [->|Hloc]);
        try (apply elem_of_nil in Hloc; contradiction);
        repeat (apply elem_of_cons in Hk as [->|Hk]);
        try (apply elem_of_nil in Hk; contradiction);
        vm_compute in Hpos; try discriminate;
        injection Hpos as <-; vm_compute; reflexivity.
    + vm_compute in H. injection H as Ht _. exists t. rewrite <- Ht.
      vm_compute. reflexivity.
Defined.

(** ** Where the code departs from the claims *)

(** C6: [extract_examples] of [example_parser.py] has no joining step.
    On the page with part b locked, the expression for the input data
    gives the list of the three code texts; [rstrip] is called on that
    list and the [AttributeError] leaves [extract_examples] after this one
    call.  [extract_examples] of [examples.py], asked for the same three
    texts, joins them with newlines. *)
Theorem older_extract_examples_does_not_join :
  Demo.older_eval_spans Demo.spans_expr
    {[ "soup" := Demo.get_soup Demo.html_locked ]}
  = inr (VList (VStr <$> Demo.spans)) /\
  ExampleParser.extract_examples Demo.get_soup Demo.str_tag Demo.repr
    Demo.older_eval_spans Demo.older_table_spans Demo.html_locked
  = ([mkCall "input_data" (Some Demo.spans_expr)],
     inl (AttributeError "'list' object has no attribute 'rstrip'")) /\
  snd (Demo.extract Demo.table_spans Demo.html_locked false)
  = inr [mkExample (Some (join nl Demo.spans)) (Some "y") None None].
Proof. repeat split; vm_compute; reflexivity. Qed.

(** C7: the scoring loop of [example_parser.py] logs only when more was
    scraped than expected.  With one example scraped and two expected it
    logs nothing, while it still scores two rows, the second against
    [Example("")]; the loop of [examples.py] logs the difference on the
    same lists. *)
Theorem older_score_day_logs_nothing :
  (exists v1 v2,
     ExampleParser.score_day Demo.get_soup Demo.prose
       (fun _ _ => Demo.scraped_one) (fun _ _ => Demo.expected_two) 2022 5
     = ([], [v1; v2]) /\
     Examples.scraped_of v2 = mkExample (Some "") None None None) /\
  (exists rows wrong,
     Demo.score_day 2022 5
     = inr ([Examples.mkLog Examples.INFO "2022/05 scraped 1 but expected 2"],
            rows, wrong)).
Proof.
  split.
  - eexists _, _. vm_compute. split; reflexivity.
  - eexists _, _. vm_compute. reflexivity.
Qed.

(** C9: [from_raw] checks the title against the pattern and nothing
    else, in both files.  The title "Day 99 - Advent of Code 1999"
    matches, and the page built from it has day 99 and year 1999, outside
    the 1 to 25 and the 2015 and later that the comments on the fields
    give.  A document without a title raises [AttributeError], on the
    [None] that [soup.title] is, and not [ExampleParserError]. *)
Theorem from_raw_out_of_range :
  (exists page,
     Examples.from_raw Demo.get_soup Demo.str_tag Demo.repr Demo.html_day99
       = inr page /\
     Examples.day page = 99 /\ Examples.year page = 1999) /\
  (exists q,
     ExampleParser.from_raw Demo.get_soup Demo.str_tag Demo.repr
       Demo.html_day99 = inr q /\
     ExampleParser.day q = 99 /\ ExampleParser.year q = 1999) /\
  find (Demo.get_soup Demo.html_no_title) "title" = None /\
  Examples.from_raw Demo.get_soup Demo.str_tag Demo.repr Demo.html_no_title
  = inl (AttributeError "'NoneType' object has no attribute 'text'") /\
  ExampleParser.from_raw Demo.get_soup Demo.str_tag Demo.repr
    Demo.html_no_title
  = inl (AttributeError "'NoneType' object has no attribute 'text'").
Proof.
  split; [eexists; repeat split; reflexivity|].
  split; [eexists; repeat split; reflexivity|].
  repeat split; reflexivity.
Qed.
